(** * smokeping-add: address discovery and entry formatting

    A shallow embedding of [scripts/smokeping-add.py] and the proofs of the
    properties stated about it.  Embedded are [get_ipinfo], [scrape_ips]
    (with the two patterns [IP4_RE] and [IP6_RE]), [fmt_smokeping],
    [get_field] and [main]; a run of [main] starts from the parsed
    arguments, the parsing of the command line is not embedded.

    Conventions of the embedding.
    - A Python [str] is a Rocq [string].  Text obtained from the network is
      kept in its UTF-8 encoding.  The [str] methods that map case or strip
      whitespace, [int], and the classes [\d] and [\w] of the patterns are
      those of Python on ASCII text only: a property that depends on one of
      them is stated for ASCII arguments ([isascii]).
    - A Python [int] is a [Z].
    - The functions of the standard library that compute ([ipaddress], [re],
      [str] methods, [bytes.decode], [int]) are modelled after CPython 3.11.
    - [print] and every call that leaves the process (name resolution, the
      HTTP request, each read of the response body, the TXT query) append an
      [event] to the trace of the run; an exception ends the run with
      [Raises].
    - The services the script talks to, and [urlparse], are collected in a
      [world]; the ISO table of [pycountry] is a finite map from alpha-2
      codes to entries.
    - [input] writes its prompt and takes the next line of the terminal; a
      run of [main] is a function of the lines the terminal has to give. *)

From Stdlib Require Import ZArith NArith Ascii String List Bool Lia.
From stdpp Require Import base decidable option list strings countable gmap.

Local Open Scope string_scope.
Local Open Scope Z_scope.

(** ** Python [str] methods used by the script

    [upper], [lower], [title] and [strip] are the methods of [str] on ASCII
    strings.  On other strings Python also maps letters and strips
    whitespace outside ASCII, which these functions do not. *)

Module PyStr.

Definition code (c : ascii) : N := N_of_ascii c.

Definition between (lo hi : N) (c : ascii) : bool :=
  ((lo <=? code c) && (code c <=? hi))%N.

Definition islower (c : ascii) : bool := between 97 122 c.
Definition isupper (c : ascii) : bool := between 65 90 c.
Definition isalpha (c : ascii) : bool := islower c || isupper c.
Definition isdigit (c : ascii) : bool := between 48 57 c.

(** [str.isspace] on the ASCII range: TAB..CR, FS..US and the space. *)
Definition isspace (c : ascii) : bool :=
  between 9 13 c || between 28 31 c || (code c =? 32)%N.

Definition toupper (c : ascii) : ascii :=
  if islower c then ascii_of_N (code c - 32) else c.
Definition tolower (c : ascii) : ascii :=
  if isupper c then ascii_of_N (code c + 32) else c.

(** [s.upper()] for an ASCII [s] *)
Fixpoint upper (s : string) : string :=
  match s with
  | EmptyString => EmptyString
  | String c s' => String (toupper c) (upper s')
  end.

(** [s.lower()] for an ASCII [s] *)
Fixpoint lower (s : string) : string :=
  match s with
  | EmptyString => EmptyString
  | String c s' => String (tolower c) (lower s')
  end.

(** [s.title()] for an ASCII [s]: a cased character is upper-cased when
    the character before it is not cased, and lower-cased otherwise. *)
Fixpoint title_from (previous_is_cased : bool) (s : string) : string :=
  match s with
  | EmptyString => EmptyString
  | String c s' =>
      String (if previous_is_cased then tolower c else toupper c)
             (title_from (isalpha c) s')
  end.
Definition title (s : string) : string := title_from false s.

Fixpoint lstrip (s : string) : string :=
  match s with
  | EmptyString => EmptyString
  | String c s' => if isspace c then lstrip s' else s
  end.

Fixpoint rstrip (s : string) : string :=
  match s with
  | EmptyString => EmptyString
  | String c s' =>
      match rstrip s' with
      | EmptyString => if isspace c then EmptyString else String c EmptyString
      | r => String c r
      end
  end.

(** [s.strip()] for an ASCII [s] *)
Definition strip (s : string) : string := rstrip (lstrip s).

(** [s.split(sep)] for a one-character separator; never the empty list. *)
Fixpoint split (sep : ascii) (s : string) : list string :=
  match s with
  | EmptyString => [EmptyString]
  | String c s' =>
      if Ascii.eqb c sep then EmptyString :: split sep s'
      else match split sep s' with
           | h :: t => String c h :: t
           | [] => [String c EmptyString]
           end
  end.

(** [sep.join(parts)] *)
Fixpoint join (sep : string) (parts : list string) : string :=
  match parts with
  | [] => EmptyString
  | [p] => p
  | p :: ps => p +:+ sep +:+ join sep ps
  end.

(** [needle in s] *)
Fixpoint contains (needle s : string) : bool :=
  String.prefix needle s
  || match s with
     | EmptyString => false
     | String _ s' => contains needle s'
     end.

(** [s.replace(old, new)] for a non-empty [old]: every occurrence, scanning
    from the left, occurrences not overlapping. *)
Fixpoint drop (n : nat) (s : string) : string :=
  match n, s with
  | O, _ => s
  | S n', String _ s' => drop n' s'
  | S _, EmptyString => EmptyString
  end.

Fixpoint replace_from (skip : nat) (old new s : string) : string :=
  match s with
  | EmptyString => EmptyString
  | String c s' =>
      match skip with
      | S k => replace_from k old new s'
      | O =>
          if String.prefix old s
          then new +:+ replace_from (String.length old - 1) old new s'
          else String c (replace_from O old new s')
      end
  end.
Definition replace (old new s : string) : string := replace_from O old new s.

(** [s * n] *)
Fixpoint repeat (s : string) (n : nat) : string :=
  match n with
  | O => EmptyString
  | S n' => s +:+ repeat s n'
  end.
Definition mul (s : string) (n : Z) : string := repeat s (Z.to_nat n).

(** Truth value of a [str]: non-empty. *)
Definition truthy (s : string) : bool :=
  match s with EmptyString => false | _ => true end.

(** [x in (a, b, ...)] for a tuple of strings. *)
Definition in_tuple (x : string) (t : list string) : bool :=
  existsb (String.eqb x) t.

(** [s[::-1]] *)
Fixpoint rev_onto (s acc : string) : string :=
  match s with
  | EmptyString => acc
  | String c s' => rev_onto s' (String c acc)
  end.
Definition reversed (s : string) : string := rev_onto s EmptyString.

End PyStr.

(** ** The [ipaddress] module (CPython 3.11) *)

(** The two address classes.  [ip] is the integer value; an IPv6 address
    may carry a scope id. *)
Inductive ipaddr : Type :=
| IPv4Address (ip : N)
| IPv6Address (ip : N) (scope_id : option string).

#[global] Instance ipaddr_eq_dec : EqDecision ipaddr.
Proof. solve_decision. Defined.

#[global] Instance ipaddr_countable : Countable ipaddr.
Proof.
  refine (inj_countable'
    (fun a => match a with
              | IPv4Address n => inl n
              | IPv6Address n s => inr (n, s)
              end)
    (fun x => match x with
              | inl n => IPv4Address n
              | inr (n, s) => IPv6Address n s
              end) _).
  intros []; reflexivity.
Defined.

Module ipaddress.

Definition version (a : ipaddr) : Z :=
  match a with IPv4Address _ => 4 | IPv6Address _ _ => 6 end.

Definition is_IPv4Address (a : ipaddr) : bool :=
  match a with IPv4Address _ => true | IPv6Address _ _ => false end.
Definition is_IPv6Address (a : ipaddr) : bool :=
  match a with IPv4Address _ => false | IPv6Address _ _ => true end.

Fixpoint all_chars (p : ascii -> bool) (s : string) : bool :=
  match s with
  | EmptyString => true
  | String c s' => p c && all_chars p s'
  end.

Definition ishex (c : ascii) : bool :=
  PyStr.isdigit c || PyStr.between 97 102 c || PyStr.between 65 70 c.

Definition digit_value (c : ascii) : N :=
  if PyStr.isdigit c then PyStr.code c - 48
  else if PyStr.between 97 102 c then PyStr.code c - 87
  else PyStr.code c - 55.

(** [int(s, base)] on a string of digits of that base. *)
Fixpoint digits_value (base : N) (s : string) (acc : N) : N :=
  match s with
  | EmptyString => acc
  | String c s' => digits_value base s' (acc * base + digit_value c)
  end.

(** [_BaseV4._parse_octet] *)
Definition parse_octet (octet_str : string) : option N :=
  match octet_str with
  | EmptyString => None
  | String c0 _ =>
      if negb (all_chars PyStr.isdigit octet_str) then None
      else if (3 <? String.length octet_str)%nat then None
      else if negb (String.eqb octet_str "0") && Ascii.eqb c0 "0" then None
      else
        let octet_int := digits_value 10 octet_str 0 in
        if (255 <? octet_int)%N then None else Some octet_int
  end.

(** [_BaseV4._ip_int_from_string] *)
Definition ipv4_int_from_string (ip_str : string) : option N :=
  match ip_str with
  | EmptyString => None
  | _ =>
      match PyStr.split "." ip_str with
      | [o1; o2; o3; o4] =>
          match parse_octet o1, parse_octet o2, parse_octet o3, parse_octet o4 with
          | Some a, Some b, Some c, Some d =>
              Some (((a * 256 + b) * 256 + c) * 256 + d)%N
          | _, _, _, _ => None
          end
      | _ => None
      end
  end.

(** [IPv4Address(address)] for a string; [None] is [AddressValueError]. *)
Definition IPv4Address_of_str (address : string) : option ipaddr :=
  if PyStr.contains "/" address then None
  else IPv4Address <$> ipv4_int_from_string address.

(** [_BaseV6._parse_hextet] *)
Definition parse_hextet (hextet_str : string) : option N :=
  if negb (all_chars ishex hextet_str) then None
  else if (4 <? String.length hextet_str)%nat then None
  else match hextet_str with
       | EmptyString => None          (* int('', 16) raises *)
       | _ => Some (digits_value 16 hextet_str 0)
       end.

Definition hexdigit (n : N) : ascii :=
  if (n <? 10)%N then ascii_of_N (48 + n) else ascii_of_N (87 + n).

(** ['%x' % n] *)
Fixpoint format_x_go (fuel : nat) (n : N) (acc : string) : string :=
  match fuel with
  | O => acc
  | S fuel' =>
      let acc' := String (hexdigit (n mod 16)) acc in
      if (n / 16 =? 0)%N then acc' else format_x_go fuel' (n / 16) acc'
  end.
Definition format_x (n : N) : string :=
  format_x_go (S (N.to_nat (N.log2 n))) n EmptyString.

(** Fold of [ip_int <<= 16; ip_int |= parse_hextet(part)] over [parts]. *)
Fixpoint parse_hextets (parts : list string) (ip_int : N) : option N :=
  match parts with
  | [] => Some ip_int
  | p :: ps =>
      match parse_hextet p with
      | Some h => parse_hextets ps (N.lor (N.shiftl ip_int 16) h)
      | None => None
      end
  end.

Definition is_empty (s : string) : bool := negb (PyStr.truthy s).

(** [_BaseV6._ip_int_from_string] *)
Definition ipv6_int_from_string (ip_str : string) : option N :=
  if is_empty ip_str then None else
  let parts := PyStr.split ":" ip_str in
  if (length parts <? 3)%nat then None else
  (* an IPv4-style suffix is converted to two hextets *)
  let last_part := List.last parts EmptyString in
  match (if PyStr.contains "." last_part then
           match IPv4Address_of_str last_part with
           | Some (IPv4Address ipv4_int) =>
               Some (removelast parts
                       ++ [format_x (N.land (N.shiftr ipv4_int 16) 65535);
                           format_x (N.land ipv4_int 65535)])%list
           | _ => None
           end
         else Some parts) with
  | None => None
  | Some parts =>
      let n := length parts in
      if (9 <? n)%nat then None else
      (* the empty parts strictly between the two ends *)
      let skips :=
        List.filter (fun i => is_empty (nth i parts EmptyString))
                    (seq 1 (n - 2)) in
      let first_empty := is_empty (nth 0 parts EmptyString) in
      let last_empty := is_empty (List.last parts EmptyString) in
      match skips with
      | _ :: _ :: _ => None                    (* more than one '::' *)
      | [skip_index] =>
          let parts_hi := Z.of_nat skip_index in
          let parts_lo := Z.of_nat n - Z.of_nat skip_index - 1 in
          let parts_hi := if first_empty then parts_hi - 1 else parts_hi in
          if first_empty && negb (parts_hi =? 0) then None else
          let parts_lo := if last_empty then parts_lo - 1 else parts_lo in
          if last_empty && negb (parts_lo =? 0) then None else
          let parts_skipped := 8 - (parts_hi + parts_lo) in
          if parts_skipped <? 1 then None else
          match parse_hextets (firstn (Z.to_nat parts_hi) parts) 0 with
          | None => None
          | Some hi =>
              parse_hextets (skipn (n - Z.to_nat parts_lo) parts)
                            (N.shiftl hi (16 * Z.to_N parts_skipped))
          end
      | [] =>
          if negb (n =? 8)%nat then None
          else if first_empty || last_empty then None
          else parse_hextets parts 0
      end
  end.

(** [str.partition('%')] as used by [_split_scope_id] *)
Fixpoint partition_percent (s : string) : string * option string :=
  match s with
  | EmptyString => (EmptyString, None)
  | String c s' =>
      if Ascii.eqb c "%" then (EmptyString, Some s')
      else let '(a, r) := partition_percent s' in (String c a, r)
  end.

(** [IPv6Address(address)] for a string; [None] is [AddressValueError]. *)
Definition IPv6Address_of_str (address : string) : option ipaddr :=
  if PyStr.contains "/" address then None else
  match partition_percent address with
  | (addr_str, None) => (fun ip => IPv6Address ip None) <$> ipv6_int_from_string addr_str
  | (addr_str, Some scope_id) =>
      if is_empty scope_id || PyStr.contains "%" scope_id then None
      else (fun ip => IPv6Address ip (Some scope_id)) <$> ipv6_int_from_string addr_str
  end.

(** [ipaddress.ip_address(address)]; [None] is the [ValueError]
    "does not appear to be an IPv4 or IPv6 address". *)
Definition ip_address (address : string) : option ipaddr :=
  match IPv4Address_of_str address with
  | Some a => Some a
  | None => IPv6Address_of_str address
  end.

(** A network [base/prefixlen] of [bits]-bit addresses, and [ip in net]. *)
Definition in_network (bits : N) (base prefixlen : N) (ip : N) : bool :=
  (N.shiftr ip (bits - prefixlen) =? N.shiftr base (bits - prefixlen))%N.

Definition v4 (a b c d : N) : N := (((a * 256 + b) * 256 + c) * 256 + d)%N.
Definition v6 (h0 h1 h2 h3 h4 h5 h6 h7 : N) : N :=
  fold_left (fun acc h => (acc * 65536 + h)%N) [h0; h1; h2; h3; h4; h5; h6; h7] 0%N.

(** [_IPv4Constants._private_networks] and its exceptions *)
Definition private_networks_v4 : list (N * N) :=
  [ (v4 0 0 0 0, 8); (v4 10 0 0 0, 8); (v4 127 0 0 0, 8); (v4 169 254 0 0, 16);
    (v4 172 16 0 0, 12); (v4 192 0 0 0, 24); (v4 192 0 0 170, 31);
    (v4 192 0 2 0, 24); (v4 192 168 0 0, 16); (v4 198 18 0 0, 15);
    (v4 198 51 100 0, 24); (v4 203 0 113 0, 24); (v4 240 0 0 0, 4);
    (v4 255 255 255 255, 32) ]%N.
Definition private_networks_exceptions_v4 : list (N * N) :=
  [ (v4 192 0 0 9, 32); (v4 192 0 0 10, 32) ]%N.
(** [_IPv4Constants._public_network], 100.64.0.0/10 *)
Definition public_network_v4 : N * N := (v4 100 64 0 0, 10)%N.

(** [_IPv6Constants._private_networks] and its exceptions *)
Definition private_networks_v6 : list (N * N) :=
  [ (v6 0 0 0 0 0 0 0 1, 128); (v6 0 0 0 0 0 0 0 0, 128);
    (v6 0 0 0 0 0 65535 0 0, 96); (v6 100 65435 1 0 0 0 0 0, 48);
    (v6 256 0 0 0 0 0 0 0, 64); (v6 8193 0 0 0 0 0 0 0, 23);
    (v6 8193 3512 0 0 0 0 0 0, 32); (v6 8194 0 0 0 0 0 0 0, 16);
    (v6 64512 0 0 0 0 0 0 0, 7); (v6 65152 0 0 0 0 0 0 0, 10) ]%N.
Definition private_networks_exceptions_v6 : list (N * N) :=
  [ (v6 8193 1 0 0 0 0 0 1, 128); (v6 8193 1 0 0 0 0 0 2, 128);
    (v6 8193 3 0 0 0 0 0 0, 32); (v6 8193 4 274 0 0 0 0 0, 48);
    (v6 8193 32 0 0 0 0 0 0, 28); (v6 8193 48 0 0 0 0 0 0, 28) ]%N.

Definition in_any (bits : N) (nets : list (N * N)) (ip : N) : bool :=
  existsb (fun net => in_network bits (fst net) (snd net) ip) nets.

Definition is_private_v4 (ip : N) : bool :=
  in_any 32 private_networks_v4 ip
  && negb (in_any 32 private_networks_exceptions_v4 ip).

(** [IPv6Address.ipv4_mapped] *)
Definition ipv4_mapped (ip : N) : option N :=
  if (N.shiftr ip 32 =? 65535)%N then Some (N.land ip 4294967295) else None.

(** [address.is_private] *)
Definition is_private (a : ipaddr) : bool :=
  match a with
  | IPv4Address ip => is_private_v4 ip
  | IPv6Address ip _ =>
      match ipv4_mapped ip with
      | Some ip4 => is_private_v4 ip4
      | None =>
          in_any 128 private_networks_v6 ip
          && negb (in_any 128 private_networks_exceptions_v6 ip)
      end
  end.

(** [address.is_global] *)
Definition is_global (a : ipaddr) : bool :=
  match a with
  | IPv4Address ip =>
      negb (in_network 32 (fst public_network_v4) (snd public_network_v4) ip)
      && negb (is_private a)
  | IPv6Address _ _ => negb (is_private a)
  end.

(** [str(n)] for a byte. *)
Definition str_octet (n : N) : string :=
  let d (k : N) := ascii_of_N (48 + k)%N in
  if (n <? 10)%N then String (d n) EmptyString
  else if (n <? 100)%N then
    String (d (n / 10)%N) (String (d (n mod 10)%N) EmptyString)
  else
    String (d (n / 100)%N)
      (String (d ((n / 10) mod 10)%N) (String (d (n mod 10)%N) EmptyString)).

(** The four bytes of [ip_int.to_bytes(4, 'big')]. *)
Definition octets (ip : N) : list N :=
  [ (ip / 16777216) mod 256; (ip / 65536) mod 256; (ip / 256) mod 256; ip mod 256 ]%N.

(** The 32 hexadecimal digits of ['%032x' % ip_int], most significant
    first. *)
Definition nibbles (ip : N) : list ascii :=
  map (fun i => hexdigit (N.land (N.shiftr ip (4 * N.of_nat (31 - i))) 15)) (seq 0 32).

(** [address.reverse_pointer].  For IPv4 the octets of [str(self)] are
    reversed; for IPv6 the digits of [self.exploded] are.  [exploded]
    re-parses [str(self)], which for an address with a scope id contains
    ['%'] and is rejected: [None] is that [AddressValueError]. *)
Definition reverse_pointer (a : ipaddr) : option string :=
  match a with
  | IPv4Address ip =>
      Some (PyStr.join "." (rev (map str_octet (octets ip))) +:+ ".in-addr.arpa")
  | IPv6Address ip None =>
      Some (PyStr.join "." (map (fun c => String c EmptyString) (rev (nibbles ip)))
            +:+ ".ip6.arpa")
  | IPv6Address ip (Some _) => None
  end.

End ipaddress.

(** ** The [re] module: a backtracking matcher for the script's patterns *)

Module re.

(** The constructs the two patterns use.  Repetition of a character class
    is greedy; alternatives are tried from the left. *)
Inductive regex : Type :=
| Eps                                         (* the empty pattern *)
| Chr (p : ascii -> bool)                     (* one character of a class *)
| Seq (r1 r2 : regex)                         (* r1 r2 *)
| Alt (r1 r2 : regex)                         (* r1|r2 *)
| Opt (r : regex)                             (* r? *)
| Times (n : nat) (r : regex)                 (* r{n} *)
| Between (lo hi : nat) (p : ascii -> bool)   (* [p]{lo,hi} *)
| Plus (p : ascii -> bool)                    (* [p]+ *)
| WordBoundary.                               (* \b *)

(** Position of the matcher: the character before it, the characters
    matched so far (last first) and the text ahead. *)
Record cursor : Type := {
  before : option ascii;
  taken : string;
  ahead : string
}.

(** [\w] on ASCII text, which decides [\b]. *)
Definition is_word (c : ascii) : bool :=
  PyStr.isalpha c || PyStr.isdigit c || Ascii.eqb c "_".

Definition word_before (c : cursor) : bool :=
  match before c with Some a => is_word a | None => false end.
Definition word_ahead (c : cursor) : bool :=
  match ahead c with String a _ => is_word a | EmptyString => false end.

Definition step (a : ascii) (rest : string) (c : cursor) : cursor :=
  {| before := Some a; taken := String a (taken c); ahead := rest |}.

(** Greedy repetition of a character class, at least [lo] and at most
    [hi] times ([None]: no upper bound); the longest run is tried first. *)
Fixpoint greedy (p : ascii -> bool) (lo : nat) (hi : option nat)
    (k : cursor -> option cursor) (c : cursor) (text : string) {struct text}
  : option cursor :=
  let stop := match lo with O => k c | S _ => None end in
  match text with
  | String a rest =>
      if p a && match hi with Some O => false | _ => true end then
        match greedy p (Nat.pred lo) (Nat.pred <$> hi) k (step a rest c) rest with
        | Some found => Some found
        | None => stop
        end
      else stop
  | EmptyString => stop
  end.

(** [run r k c]: match [r] at [c], then continue with [k]; on failure of
    the continuation the next way of matching [r] is tried. *)
Fixpoint run (r : regex) (k : cursor -> option cursor) (c : cursor)
  : option cursor :=
  match r with
  | Eps => k c
  | Chr p =>
      match ahead c with
      | String a rest => if p a then k (step a rest c) else None
      | EmptyString => None
      end
  | Seq r1 r2 => run r1 (run r2 k) c
  | Alt r1 r2 =>
      match run r1 k c with
      | Some found => Some found
      | None => run r2 k c
      end
  | Opt r1 =>
      match run r1 k c with
      | Some found => Some found
      | None => k c
      end
  | Times n r1 =>
      (fix times (n : nat) (k : cursor -> option cursor) : cursor -> option cursor :=
         match n with
         | O => k
         | S n' => run r1 (times n' k)
         end) n k c
  | Between lo hi p => greedy p lo (Some hi) k c (ahead c)
  | Plus p => greedy p 1 None k c (ahead c)
  | WordBoundary => if xorb (word_before c) (word_ahead c) then k c else None
  end.

(** [pattern.match] at one position: the matched text, [m.group(0)]. *)
Definition match_at (r : regex) (prev : option ascii) (text : string)
  : option string :=
  match run r Some {| before := prev; taken := EmptyString; ahead := text |} with
  | Some c => Some (PyStr.reversed (taken c))
  | None => None
  end.

(** [[m.group(0) for m in pattern.finditer(text)]]: matches from left to
    right, not overlapping.  [skip] counts the characters of the last
    match that are still to be passed; after an empty match, which the
    patterns of the script do not have, the scan moves on by one
    character. *)
Fixpoint scan (r : regex) (skip : nat) (prev : option ascii) (text : string)
  : list string :=
  let next k :=
    match text with
    | String a rest => scan r k (Some a) rest
    | EmptyString => []
    end in
  match skip with
  | S k => next k
  | O =>
      match match_at r prev text with
      | Some m => m :: next (String.length m - 1)%nat
      | None => next O
      end
  end.
Definition finditer (r : regex) (text : string) : list string :=
  scan r O None text.

Definition lit (a : ascii) : regex := Chr (Ascii.eqb a).
Definition class (lo hi : ascii) : ascii -> bool :=
  PyStr.between (PyStr.code lo) (PyStr.code hi).
Definition either (p q : ascii -> bool) : ascii -> bool :=
  fun c => p c || q c.
Definition digit : ascii -> bool := PyStr.isdigit.   (* \d on ASCII text *)

End re.

(** [IP4_RE = re.compile(r'((25[0-5]|(2[0-4]|1\d|[1-9]|)\d)\.?\b){4}')] *)
Definition IP4_RE : re.regex :=
  let octet :=
    re.Alt (re.Seq (re.lit "2") (re.Seq (re.lit "5") (re.Chr (re.class "0" "5"))))
           (re.Seq (re.Alt (re.Seq (re.lit "2") (re.Chr (re.class "0" "4")))
                   (re.Alt (re.Seq (re.lit "1") (re.Chr re.digit))
                   (re.Alt (re.Chr (re.class "1" "9"))
                           re.Eps)))
                   (re.Chr re.digit)) in
  re.Times 4 (re.Seq octet (re.Seq (re.Opt (re.lit ".")) re.WordBoundary)).

(** [IP6_RE = re.compile(r'[a-fA-F0-9]{1,4}:[a-fA-f0-9:]+')]; the second
    class has the range [A-f], which takes in the upper-case letters and
    the six characters between [Z] and [a]. *)
Definition IP6_RE : re.regex :=
  let hex := re.either (re.class "a" "f") (re.either (re.class "A" "F") (re.class "0" "9")) in
  let lazy :=
    re.either (re.class "a" "f")
      (re.either (re.class "A" "f") (re.either (re.class "0" "9") (Ascii.eqb ":"))) in
  re.Seq (re.Between 1 4 hex) (re.Seq (re.lit ":") (re.Plus lazy)).

(** ** [bytes.decode('utf-8', 'ignore')], [len] and [int] *)

Module codecs.

Definition byte (c : ascii) : N := PyStr.code c.
Definition continuation (c : ascii) : bool := PyStr.between 128 191 c.

(** Well-formed two-, three- and four-byte sequences (Unicode, table 3-7). *)
Definition seq2 (b0 b1 : ascii) : bool :=
  PyStr.between 194 223 b0 && continuation b1.
Definition seq3 (b0 b1 b2 : ascii) : bool :=
  ((byte b0 =? 224)%N && PyStr.between 160 191 b1 && continuation b2)
  || ((PyStr.between 225 236 b0 || PyStr.between 238 239 b0)
      && continuation b1 && continuation b2)
  || ((byte b0 =? 237)%N && PyStr.between 128 159 b1 && continuation b2).
Definition seq4 (b0 b1 b2 b3 : ascii) : bool :=
  (((byte b0 =? 240)%N && PyStr.between 144 191 b1)
   || (PyStr.between 241 243 b0 && continuation b1)
   || ((byte b0 =? 244)%N && PyStr.between 128 143 b1))
  && continuation b2 && continuation b3.

(** [chunk.decode('utf-8', 'ignore')]: well-formed sequences are kept,
    every other byte is dropped.  The text stays in its UTF-8 encoding. *)
Fixpoint decode_ignore (bytes : string) : string :=
  match bytes with
  | EmptyString => EmptyString
  | String b0 s1 =>
      if (byte b0 <? 128)%N then String b0 (decode_ignore s1) else
      match s1 with
      | EmptyString => EmptyString
      | String b1 s2 =>
          if seq2 b0 b1 then String b0 (String b1 (decode_ignore s2)) else
          match s2 with
          | EmptyString => decode_ignore s1
          | String b2 s3 =>
              if seq3 b0 b1 b2 then
                String b0 (String b1 (String b2 (decode_ignore s3)))
              else
              match s3 with
              | EmptyString => decode_ignore s1
              | String b3 s4 =>
                  if seq4 b0 b1 b2 b3 then
                    String b0 (String b1 (String b2 (String b3 (decode_ignore s4))))
                  else decode_ignore s1
              end
          end
      end
  end.

(** [len(text)]: the number of code points, that is of bytes that are not
    continuation bytes. *)
Fixpoint len (text : string) : Z :=
  match text with
  | EmptyString => 0
  | String c s => (if continuation c then 0 else 1) + len s
  end.

(** The whitespace [int] skips around an ASCII literal ([Py_ISSPACE]):
    TAB..CR and the space. *)
Definition int_space (c : ascii) : bool :=
  PyStr.between 9 13 c || (PyStr.code c =? 32)%N.

Fixpoint skip_space (s : string) : string :=
  match s with
  | String c s' => if int_space c then skip_space s' else s
  | EmptyString => EmptyString
  end.

Fixpoint all_space (s : string) : bool :=
  match s with
  | String c s' => int_space c && all_space s'
  | EmptyString => true
  end.

(** The digits of an [int] literal and what follows them: decimal digits,
    single underscores allowed between two digits, then whitespace to the
    end.  The value and the number of digits; [None] when ill-formed. *)
Fixpoint int_digits (s : string) (acc : Z) (digits : nat) (after_digit : bool)
  : option (Z * nat) :=
  match s with
  | EmptyString => if after_digit then Some (acc, digits) else None
  | String c s' =>
      if PyStr.isdigit c then
        int_digits s' (acc * 10 + Z.of_N (PyStr.code c - 48)) (S digits) true
      else if Ascii.eqb c "_" && after_digit then int_digits s' acc digits false
      else if after_digit && all_space s then Some (acc, digits)
      else None
  end.

(** [sys.get_int_max_str_digits()], which the script leaves at its
    default. *)
Definition int_max_str_digits : nat := 4300.

(** [int(s)] for an ASCII string: whitespace, an optional sign, the
    digits, whitespace.  [None] is the [ValueError]: of an invalid
    literal, or of a literal of more than 4300 digits. *)
Definition int (s : string) : option Z :=
  let '(negative, literal) :=
    match skip_space s with
    | String "-" literal => (true, literal)
    | String "+" literal => (false, literal)
    | literal => (false, literal)
    end in
  match int_digits literal 0 0 false with
  | Some (n, digits) =>
      if (int_max_str_digits <? digits)%nat then None
      else Some (if negative then - n else n)
  | None => None
  end.

End codecs.

(** ** Runs: trace of observable events and outcome *)

(** What a library call made by the script can fail with. *)
Inductive library_error : Type :=
| DNSException (class message : string)
    (* dns.exception.DNSException or a subclass; [class] is str(e.__class__) *)
| OtherError (class message : string).
    (* anything else: socket.gaierror, requests.exceptions.*, OSError *)

(** Exceptions a run can end with.  The first five are Python's
    [ValueError] (the last of them its subclass [AddressValueError]). *)
Inductive exn : Type :=
| ValueError_too_large (content_length maxsize : Z)
    (* 'HTTP response too large ({content_length} > {maxsize})' *)
| ValueError_not_an_address (address : string)
    (* '... does not appear to be an IPv4 or IPv6 address' *)
| ValueError_int_literal (literal : string)
    (* 'invalid literal for int() with base 10: ...', or 'Exceeds the limit
       (4300) for integer string conversion ...' *)
| ValueError_url (url : string)
    (* raised by urlparse *)
| AddressValueError (address : ipaddr)
    (* raised by reverse_pointer on an address with a scope id *)
| AssertionError
| UnboundLocalError (variable : string)
| IndexError
| HTTPError (status_code : Z)
| Library (e : library_error).

Definition is_ValueError (e : exn) : bool :=
  match e with
  | ValueError_too_large _ _ | ValueError_not_an_address _
  | ValueError_int_literal _ | ValueError_url _ | AddressValueError _ => true
  | _ => false
  end.

(** What [print] was called with. *)
Inductive printed : Type :=
| Line (text : string)
| AddressSet (addresses : gset ipaddr)           (* print(dns_results) *)
| SkippingInvalid (candidate : string) (e : exn).
    (* f'Skipping invalid v6 IP: {ipv6}, {e}' *)

Inductive event : Type :=
| Stdout (p : printed)
| Getaddrinfo (host : string) (port : Z)
| HttpGet (url : string)
| ReadBody                       (* one step of r.iter_content(maxsize) *)
| ResolveTXT (qname : string).

Inductive outcome (A : Type) : Type :=
| Returns (a : A)
| Raises (e : exn).
Arguments Returns {A} a.
Arguments Raises {A} e.

Definition M (A : Type) : Type := (list event * outcome A)%type.

Definition ret {A} (a : A) : M A := ([], Returns a).
Definition raise {A} (e : exn) : M A := ([], Raises e).
Definition emit (ev : event) : M unit := ([ev], Returns tt).
Definition print (p : printed) : M unit := emit (Stdout p).

Definition bind {A B} (m : M A) (k : A -> M B) : M B :=
  match m with
  | (t, Returns a) => let '(t', r) := k a in ((t ++ t')%list, r)
  | (t, Raises e) => (t, Raises e)
  end.

Definition py_assert (b : bool) : M unit :=
  if b then ret tt else raise AssertionError.

(** The value of a library call, or the exception it raised. *)
Definition call {A} (r : library_error + A) : M A :=
  match r with
  | inr a => ret a
  | inl e => raise (Library e)
  end.

(** A value of the model's own library functions, [None] being the
    exception [e]. *)
Definition or_raise {A} (e : exn) (o : option A) : M A :=
  match o with
  | Some a => ret a
  | None => raise e
  end.

(** [try: body / except ValueError as e: handler e]; what the body did
    before it raised stays done. *)
Definition try_except_ValueError {A} (body : M A) (handler : exn -> M A) : M A :=
  match body with
  | (t, Raises e) =>
      if is_ValueError e then let '(t', r) := handler e in ((t ++ t')%list, r)
      else (t, Raises e)
  | (t, Returns a) => (t, Returns a)
  end.

Declare Scope py_scope.
Delimit Scope py_scope with py.
Notation "x <- m ;; k" := (bind m (fun x => k))
  (at level 100, m at next level, right associativity) : py_scope.
Notation "m ;; k" := (bind m (fun _ => k))
  (at level 100, right associativity) : py_scope.
Local Open Scope py_scope.

Definition trace {A} (m : M A) : list event := fst m.
Definition result {A} (m : M A) : outcome A := snd m.

(** What was written to standard output, in order. *)
Definition stdout {A} (m : M A) : list printed :=
  omap (fun ev => match ev with Stdout p => Some p | _ => None end) (trace m).

(** The number of times the response body was read from. *)
Definition is_ReadBody (ev : event) : bool :=
  match ev with ReadBody => true | _ => false end.
Definition body_reads {A} (m : M A) : nat :=
  length (List.filter is_ReadBody (trace m)).

(** ** The services the script calls *)

(** [urllib.parse.urlparse(url)]: the two fields the script reads. *)
Record url_parts : Type := { scheme : string; netloc : string }.

(** What iterating [r.iter_content(chunk_size)] yields: chunks of bytes
    until the end of the body, or until the connection breaks. *)
Inductive body : Type :=
| Eof
| Chunk (data : string) (rest : body)
| Broken (e : library_error).

(** The response of [requests.get(..., stream=True)]: status, the
    [Content-Length] header when there is one, and the body stream. *)
Record response : Type := {
  status_code : Z;
  content_length : option string;
  iter_content : Z -> body
}.

(** A TXT record of a DNS answer. *)
Record rdata : Type := { to_text : string }.

Record world : Type := {
  (** [urllib.parse.urlparse]; [None] is its [ValueError] *)
  urlparse : string -> option url_parts;
  (** [socket.getaddrinfo(host, port)]: the address [entry[-1][0]] of each
      entry *)
  getaddrinfo : string -> Z -> library_error + list string;
  (** [requests.get(url, timeout=..., stream=..., headers=...)] *)
  requests_get :
    string -> Z -> bool -> list (string * string) -> library_error + response;
  (** [dns.resolver.resolve(qname, rdtype)] *)
  dns_resolve : string -> string -> library_error + list rdata
}.

Definition REQUESTS_HEADERS : list (string * string) := [("Accept", "text/*")].

(** ** [get_ipinfo] *)

Section Scraper.

Variable w : world.

Definition get_ipinfo (ip : string) : M string :=
  ip <- or_raise (ValueError_not_an_address ip) (ipaddress.ip_address ip);;
  rp <- or_raise (AddressValueError ip) (ipaddress.reverse_pointer ip);;
  let dns_query :=
    if ipaddress.version ip =? 4
    then PyStr.replace "in-addr.arpa" "origin.asn.cymru.com" rp
    else PyStr.replace "ip6.arpa" "origin6.asn.cymru.com" rp in
  emit (ResolveTXT dns_query);;
  match dns_resolve w dns_query "TXT" with
  | inl (DNSException class message) => ret (class +:+ ": " +:+ message)
  | inl e => raise (Library e)
  | inr dns_result =>
      match dns_result with
      | first :: _ => ret (to_text first)
      | [] => raise IndexError
      end
  end.

(** ** [scrape_ips] *)

(** Truth value of a variable holding [None] or a string. *)
Definition truthy (v : option string) : bool :=
  match v with
  | Some s => PyStr.truthy s
  | None => false
  end.

(** The loop of the DNS-only branch over the resolved set. *)
Fixpoint dns_only (netloc : string) (ips : list ipaddr)
    (ipv4 ipv6 : option string) : option string * option string :=
  match ips with
  | [] => (ipv4, ipv6)
  | ip :: rest =>
      if truthy ipv4 && truthy ipv6 then (ipv4, ipv6)            (* break *)
      else
        let ipv4 :=
          if negb (truthy ipv4) && ipaddress.is_IPv4Address ip
          then Some netloc else ipv4 in
        let ipv6 :=
          if negb (truthy ipv6) && ipaddress.is_IPv6Address ip
          then Some netloc else ipv6 in
        dns_only netloc rest ipv4 ipv6
  end.

(** [r.raise_for_status()] *)
Definition raise_for_status (r : response) : M unit :=
  if (400 <=? status_code r) && (status_code r <? 600)
  then raise (HTTPError (status_code r))
  else ret tt.

(** The loop over [r.iter_content(maxsize)].  [text] is [None] as long as
    the variable is unbound. *)
Fixpoint read_chunks (maxsize : Z) (stream : body) (total_length : Z)
    (text : option string) : M (option string) :=
  emit ReadBody;;
  match stream with
  | Eof => ret text
  | Broken e => raise (Library e)
  | Chunk chunk rest =>
      if maxsize <? total_length then ret text                   (* break *)
      else
        let text := codecs.decode_ignore chunk in
        read_chunks maxsize rest (total_length + codecs.len text) (Some text)
  end.

(** The loop over [IP4_RE.finditer(text)]; [ipv4] is the variable. *)
Fixpoint classify_ipv4 (dns_results : gset ipaddr) (netloc : string)
    (candidates : list string) (ipv4 : option string) : M (option string) :=
  match candidates with
  | [] => ret ipv4
  | m_ipv4 :: rest =>
      let ipv4 := m_ipv4 in
      ipaddr <- or_raise (ValueError_not_an_address ipv4) (ipaddress.ip_address ipv4);;
      if negb (ipaddress.is_global ipaddr) then
        classify_ipv4 dns_results netloc rest (Some ipv4)        (* continue *)
      else
        info <- get_ipinfo ipv4;;
        print (Line (ipv4 +:+ " ASN info: " +:+ info));;
        ret (Some (if bool_decide (ipaddr ∈ dns_results) then netloc else ipv4))
                                                                 (* break *)
  end.

(** How the [try] block of the IPv6 loop was left when nothing was
    raised. *)
Inductive flow : Type := Continue | FellThrough.

(** The loop over [IP6_RE.finditer(text)]; [ipv6] is the variable. *)
Fixpoint classify_ipv6 (dns_results : gset ipaddr) (netloc : string)
    (candidates : list string) (ipv6 : option string) : M (option string) :=
  match candidates with
  | [] => ret ipv6
  | m_ipv6 :: rest =>
      let ipv6 := m_ipv6 in
      left <-
        try_except_ValueError
          (ipaddr <- or_raise (ValueError_not_an_address ipv6)
                              (ipaddress.ip_address ipv6);;
           if negb (ipaddress.is_global ipaddr) then ret (Some ipv6, Continue)
           else
             info <- get_ipinfo ipv6;;
             print (Line (ipv6 +:+ " ASN info: " +:+ info));;
             ret (Some (if bool_decide (ipaddr ∈ dns_results) then netloc else ipv6),
                  FellThrough))
          (fun e =>
             print (SkippingInvalid ipv6 e);;
             ret (None, Continue));;
      match left with
      | (ipv6, Continue) => classify_ipv6 dns_results netloc rest ipv6
      | (ipv6, FellThrough) => ret ipv6                          (* else: break *)
      end
  end.

(** [ipaddress.ip_address(entry[-1][0])] for each entry, in order. *)
Fixpoint ip_addresses (entries : list string) : M (list ipaddr) :=
  match entries with
  | [] => ret []
  | entry :: rest =>
      ip <- or_raise (ValueError_not_an_address entry) (ipaddress.ip_address entry);;
      ips <- ip_addresses rest;;
      ret (ip :: ips)
  end.

Definition scrape_ips (url : string) (force_dns : bool) (maxsize : Z)
  : M (option string * option string) :=
  url_parts <- or_raise (ValueError_url url) (urlparse w url);;
  let netloc := if PyStr.truthy (netloc url_parts) then netloc url_parts else url in
  let url := if negb (PyStr.truthy (scheme url_parts)) then "http://" +:+ url else url in
  emit (Getaddrinfo netloc 80);;
  entries <- call (getaddrinfo w netloc 80);;
  addresses <- ip_addresses entries;;
  let dns_results : gset ipaddr := list_to_set addresses in
  print (AddressSet dns_results);;
  if force_dns then
    ret (dns_only netloc (elements dns_results) None None)
  else
    emit (HttpGet url);;
    r <- call (requests_get w url 10 true REQUESTS_HEADERS);;
    raise_for_status r;;
    content_length <-
      match content_length r with
      | Some header => or_raise (ValueError_int_literal header) (codecs.int header)
      | None => ret 0
      end;;
    if maxsize <? content_length then
      raise (ValueError_too_large content_length maxsize)
    else
      text <- read_chunks maxsize (iter_content r maxsize) 0 None;;
      text <- or_raise (UnboundLocalError "text") text;;
      ipv4 <- classify_ipv4 dns_results netloc (re.finditer IP4_RE text) None;;
      ipv6 <- classify_ipv6 dns_results netloc (re.finditer IP6_RE text) None;;
      py_assert (truthy ipv4 || truthy ipv6);;
      ret (ipv4, ipv6).

End Scraper.

(** ** [fmt_smokeping] *)

(** An entry of [pycountry.countries]. *)
Record country_entry : Type := {
  alpha_2 : string;
  name : string;
  common_name : option string;
  official_name : option string
}.

(** [getattr(obj, 'common_name', default)] where [obj] is a [str]: a string
    has no such attribute, the default is returned. *)
Definition getattr_common_name (obj : string) (default : string) : string :=
  default.

Section Formatter.

(** [pycountry.countries], indexed by [alpha_2]. *)
Variable countries : gmap string country_entry.

(** [pycountry.countries.get(alpha_2=code)] *)
Definition countries_get (code : string) : option country_entry :=
  countries !! code.

Definition fmt_smokeping
    (entry_name address isp country province city : string) (levels : Z)
  : M unit :=
  py_assert (0 <=? levels);;
  let hdr := PyStr.mul "+" levels in
  let country := PyStr.upper country in
  let province := PyStr.upper province in
  let city := PyStr.title city in
  print (Line (hdr +:+ " " +:+ entry_name));;
  let pycountry_country := if String.eqb country "UK" then "GB" else country in
  match countries_get pycountry_country with
  | None => raise AssertionError
  | Some pycountry_entry =>
      let isp_short := PyStr.strip (hd "" (PyStr.split "@" isp)) in
      let '(cc_prefix, city, loc) :=
        if PyStr.in_tuple country ["CA"; "US"] then
          ("[" +:+ country +:+ "/" +:+ province +:+ "]",
           city,
           city +:+ ", " +:+ province +:+ ", " +:+ country)
        else
          let '(city, country_display) :=
            if PyStr.in_tuple country ["HK"; "MO"] then
              (name pycountry_entry, "China")
            else if String.eqb country "RU" then
              (city, "Russia")
            else
              (city, getattr_common_name pycountry_country (name pycountry_entry)) in
          let city := if String.eqb country "SG" then "" else city in
          (country, city,
           if PyStr.truthy city then city +:+ ", " +:+ country_display
           else country_display) in
      (if PyStr.truthy city
          && (PyStr.in_tuple cc_prefix ["US/CA"; "DE"; "FR"; "CN"; "RU"; "IN"; "BR"]
              || (String.eqb cc_prefix "UK" && negb (PyStr.contains "London" city))
              || (String.eqb cc_prefix "JP" && negb (PyStr.contains "Tokyo" city))
              || (String.eqb cc_prefix "US/NY" && negb (PyStr.contains "New York" city))
              || (String.eqb cc_prefix "AU" && negb (PyStr.contains "Sydney" city)))
       then print (Line ("menu = [" +:+ cc_prefix +:+ "] " +:+ isp_short
                         +:+ " (" +:+ city +:+ ")"))
       else print (Line ("menu = [" +:+ cc_prefix +:+ "] " +:+ isp_short)));;
      print (Line ("title = [" +:+ cc_prefix +:+ "] " +:+ isp +:+ " - " +:+ loc
                   +:+ " [" +:+ address +:+ "]"));;
      print (Line ("host = " +:+ address))
  end.

End Formatter.

(** An excerpt of the ISO 3166 table, enough to run the formatter on. *)
Definition iso_excerpt : gmap string country_entry :=
  list_to_map
    [ ("US", {| alpha_2 := "US"; name := "United States";
                common_name := None;
                official_name := Some "United States of America" |});
      ("CA", {| alpha_2 := "CA"; name := "Canada";
                common_name := None; official_name := None |});
      ("GB", {| alpha_2 := "GB"; name := "United Kingdom";
                common_name := None;
                official_name :=
                  Some "United Kingdom of Great Britain and Northern Ireland" |});
      ("DE", {| alpha_2 := "DE"; name := "Germany";
                common_name := None;
                official_name := Some "Federal Republic of Germany" |});
      ("HK", {| alpha_2 := "HK"; name := "Hong Kong";
                common_name := None;
                official_name :=
                  Some "Hong Kong Special Administrative Region of China" |});
      ("SG", {| alpha_2 := "SG"; name := "Singapore";
                common_name := None;
                official_name := Some "Republic of Singapore" |});
      ("JP", {| alpha_2 := "JP"; name := "Japan";
                common_name := None; official_name := None |}) ].


(** A stub of the services: the URL is a bare host name (no scheme and no
    network location for [urlparse] to find), the name resolves to
    [resolved], the page is served with status 200, the given
    [Content-Length] header and body stream, and no TXT record exists. *)
Definition stub_world (resolved : list string) (header : option string)
    (stream : body) : world :=
  {| urlparse := fun _ => Some {| scheme := ""; netloc := "" |};
     getaddrinfo := fun _ _ => inr resolved;
     requests_get := fun _ _ _ _ =>
       inr {| status_code := 200;
              content_length := header;
              iter_content := fun _ => stream |};
     dns_resolve := fun qname _ =>
       inl (DNSException "<class 'dns.resolver.NXDOMAIN'>"
              ("The DNS query name does not exist: " +:+ qname +:+ ".")) |}.

(** A page served in one chunk, without [Content-Length]. *)
Definition one_page (page : string) : world :=
  stub_world ["93.184.216.34"] None (Chunk page Eof).


(** ** Notions the properties are stated with *)

(** A run with events put in front. *)
Definition after {A} (t : list event) (m : M A) : M A :=
  ((t ++ trace m)%list, result m).

(** The header line of an entry. *)
Definition header_line (levels : Z) (entry_name : string) : event :=
  Stdout (Line (PyStr.mul "+" levels +:+ " " +:+ entry_name)).

(** The code the table is asked for: [GB] for [UK]. *)
Definition lookup_code (country : string) : string :=
  if String.eqb (PyStr.upper country) "UK" then "GB" else PyStr.upper country.

(** The labels of the reverse pointer: the octets, last first, for IPv4,
    and the 32 hexadecimal digits, last first, for IPv6. *)
Definition labels_v4 (ip : N) : string :=
  PyStr.join "." (rev (map ipaddress.str_octet (ipaddress.octets ip))).
Definition labels_v6 (ip : N) : string :=
  PyStr.join "." (map (fun c => String c EmptyString) (rev (ipaddress.nibbles ip))).

(** The name the specification describes: those labels under
    [origin.asn.cymru.com] for IPv4 and under [origin6.asn.cymru.com] for
    IPv6. *)
Definition origin_name (a : ipaddr) : string :=
  match a with
  | IPv4Address ip => labels_v4 ip +:+ ".origin.asn.cymru.com"
  | IPv6Address ip _ => labels_v6 ip +:+ ".origin6.asn.cymru.com"
  end.

(** An address without a scope id (zone). *)
Definition unscoped (a : ipaddr) : Prop :=
  match a with
  | IPv6Address _ (Some _) => False
  | _ => True
  end.

(** What [dns.resolver.resolve] promises: it returns an answer with at
    least one record or raises a [DNSException]. *)
Definition resolver_contract (w : world) : Prop :=
  forall qname,
    match dns_resolve w qname "TXT" with
    | inr (_ :: _) => True
    | inl (DNSException _ _) => True
    | _ => False
    end.

(** The host the script resolves and the URL it requests. *)
Definition netloc_of (parts : url_parts) (url : string) : string :=
  if PyStr.truthy (netloc parts) then netloc parts else url.
Definition request_url (parts : url_parts) (url : string) : string :=
  if negb (PyStr.truthy (scheme parts)) then "http://" +:+ url else url.

(** [resolves w url host target dns_results]: the URL parses, [host] is
    the name looked up and [target] the URL to request, the lookup
    succeeds and its entries are the addresses [dns_results]. *)
Inductive resolves (w : world) (url host target : string)
    (dns_results : gset ipaddr) : Prop :=
| Resolves (parts : url_parts) (entries : list string) (addresses : list ipaddr) :
    urlparse w url = Some parts ->
    host = netloc_of parts url ->
    target = request_url parts url ->
    getaddrinfo w host 80 = inr entries ->
    Forall2 (fun entry a => ipaddress.ip_address entry = Some a) entries addresses ->
    dns_results = list_to_set addresses ->
    resolves w url host target dns_results.

(** [responds w url host target dns_results r]: moreover the request is
    answered by [r], with a status that [raise_for_status] lets through. *)
Inductive responds (w : world) (url host target : string)
    (dns_results : gset ipaddr) (r : response) : Prop :=
| Responds :
    resolves w url host target dns_results ->
    requests_get w target 10 true REQUESTS_HEADERS = inr r ->
    (status_code r < 400 \/ 600 <= status_code r) ->
    responds w url host target dns_results r.

(** The steps of [scrape_ips] that follow [r.raise_for_status()]: the size
    check, the reading of the body, the two loops over the candidates and
    the final assertion. *)
Definition scan_response (w : world) (dns_results : gset ipaddr) (netloc : string)
    (r : response) (maxsize : Z) : M (option string * option string) :=
  content_length <-
    match content_length r with
    | Some header => or_raise (ValueError_int_literal header) (codecs.int header)
    | None => ret 0
    end;;
  if maxsize <? content_length then
    raise (ValueError_too_large content_length maxsize)
  else
    text <- read_chunks maxsize (iter_content r maxsize) 0 None;;
    text <- or_raise (UnboundLocalError "text") text;;
    ipv4 <- classify_ipv4 w dns_results netloc (re.finditer IP4_RE text) None;;
    ipv6 <- classify_ipv6 w dns_results netloc (re.finditer IP6_RE text) None;;
    py_assert (truthy ipv4 || truthy ipv6);;
    ret (ipv4, ipv6).



(** [Some host] or [None]. *)
Definition pick (host : string) (present : bool) : option string :=
  if present then Some host else None.


(** A candidate that parses to a globally routable address. *)
Definition globally_routable (candidate : string) : bool :=
  match ipaddress.ip_address candidate with
  | Some a => ipaddress.is_global a
  | None => false
  end.

(** A candidate that parses and is not globally routable. *)
Definition rejected (candidate : string) : Prop :=
  exists a, ipaddress.ip_address candidate = Some a
            /\ ipaddress.is_global a = false.

(** [c0] does not occur in [s]. *)
Fixpoint lacks (c0 : ascii) (s : string) : bool :=
  match s with
  | EmptyString => true
  | String c s' => negb (Ascii.eqb c c0) && lacks c0 s'
  end.

(** The entries and addresses the stub resolves to in the instances at the
    end. *)
Definition example_entries : list string :=
  ["93.184.216.34"; "2606:2800:220:1:248:1893:25c8:1946"].
Definition example_addresses : list ipaddr :=
  [IPv4Address 1572395042;
   IPv6Address 50542628918019813867414319910101719366 None].

(** The body stream that yields the given chunks and ends. *)
Definition stream_of (chunks : list string) : body := fold_right Chunk Eof chunks.

(** The number of code points the chunks decode to. *)
Definition decoded_length (chunks : list string) : Z :=
  fold_right Z.add 0 (map (fun chunk => codecs.len (codecs.decode_ignore chunk)) chunks).

(** The ranges 10.0.0.0/8, 127.0.0.0/8, 169.254.0.0/16 and fe80::/10. *)
Definition special_range (a : ipaddr) : bool :=
  match a with
  | IPv4Address ip =>
      ipaddress.in_network 32 (ipaddress.v4 10 0 0 0) 8 ip
      || ipaddress.in_network 32 (ipaddress.v4 127 0 0 0) 8 ip
      || ipaddress.in_network 32 (ipaddress.v4 169 254 0 0) 16 ip
  | IPv6Address ip _ =>
      ipaddress.in_network 128 (ipaddress.v6 65152 0 0 0 0 0 0 0) 10 ip
  end.

(** The string of the given bytes. *)
Definition bytes (codes : list N) : string :=
  fold_right (fun n s => String (ascii_of_N n) s) EmptyString codes.

(** ** [get_field] and [main]

    [main] runs on the terminal: it reads lines with [input] and calls
    [scrape_ips] and [fmt_smokeping].  A console run takes the lines the
    terminal still has to give, and ends with the lines left unread or
    with an exception. *)

(** The namespace [parser.parse_args()] returns: an option that was not
    given is [None], the flag [--force-dns] is a boolean. *)
Module args.
Record t : Type := {
  url : option string;
  country : option string;
  province : option string;
  city : option string;
  name : option string;
  isp : option string;
  force_dns : bool
}.
End args.

(** Exceptions of a console run: those of the two functions [main] calls,
    and the two of its own calls. *)
Inductive console_exn : Type :=
| Raised (e : exn)
| EOFError                                     (* input() with no line left *)
| AddressValueError_literal (address : string).
    (* ipaddress.IPv4Address(...) or IPv6Address(...) of a malformed string *)

Inductive console_event : Type :=
| Ran (ev : event)                 (* an event of scrape_ips or fmt_smokeping,
                                      or a print of main *)
| Input (prompt : string)          (* input(prompt) *)
| ScrapedIPs (ips : option string * option string).
                                   (* print("Scraped IPs:", ips) *)

Inductive ended (A : Type) : Type :=
| Finished (a : A) (unread : list string)
| Aborted (e : console_exn).
Arguments Finished {A} a unread.
Arguments Aborted {A} e.

Definition Console (A : Type) : Type :=
  list string -> list console_event * ended A.

Definition console_ret {A} (a : A) : Console A :=
  fun stdin => ([], Finished a stdin).

Definition console_raise {A} (e : console_exn) : Console A :=
  fun _ => ([], Aborted e).

Definition console_bind {A B} (m : Console A) (k : A -> Console B) : Console B :=
  fun stdin =>
    match m stdin with
    | (t, Finished a unread) => let '(t', r) := k a unread in ((t ++ t')%list, r)
    | (t, Aborted e) => (t, Aborted e)
    end.

Declare Scope console_scope.
Delimit Scope console_scope with console.
Notation "x <- m ;; k" := (console_bind m (fun x => k))
  (at level 100, m at next level, right associativity) : console_scope.
Notation "m ;; k" := (console_bind m (fun _ => k))
  (at level 100, right associativity) : console_scope.

Definition console_emit (ev : console_event) : Console unit :=
  fun stdin => ([ev], Finished tt stdin).

(** A call of [scrape_ips] or [fmt_smokeping], or a [print], from [main]. *)
Definition script {A} (m : M A) : Console A :=
  fun stdin =>
    match m with
    | (t, Returns a) => (map Ran t, Finished a stdin)
    | (t, Raises e) => (map Ran t, Aborted (Raised e))
    end.

(** [input(prompt)]: the prompt is written, the next line is read. *)
Definition input (prompt : string) : Console string :=
  fun stdin =>
    match stdin with
    | line :: unread => ([Input prompt], Finished line unread)
    | [] => ([Input prompt], Aborted EOFError)
    end.

(** [get_field(desc, prefilled=None)] *)
Definition get_field (desc : string) (prefilled : option string) : Console string :=
  match prefilled with
  | Some value => if PyStr.truthy value then console_ret value
                  else input (desc +:+ ": ")
  | None => input (desc +:+ ": ")
  end.

(** The line feed of ['\nIPv4:']. *)
Definition LF : string := String (ascii_of_N 10) EmptyString.

Section Main.

Variable w : world.
Variable countries : gmap string country_entry.

(** One block of the output: the label, then the entry. *)
Definition block (label : string) (address : option string)
    (entry_name isp country province city : string) : Console unit :=
  match address with
  | Some address' =>
      if PyStr.truthy address' then
        (script (print (Line (LF +:+ label)));;
         script (fmt_smokeping countries entry_name address' isp country province city 2)
        )%console
      else console_ret tt
  | None => console_ret tt
  end.

(** [main], from the parsed arguments on. *)
Definition main (a : args.t) : Console unit :=
  (ips <-
     (if truthy (args.url a) then
        ips <- script (scrape_ips w (default EmptyString (args.url a))
                         (args.force_dns a) 65536);;
        console_emit (ScrapedIPs ips);;
        console_ret ips
      else
        line <- input "IPv4 address: ";;
        let ipv4 := PyStr.strip line in
        (if PyStr.truthy ipv4 then
           match ipaddress.IPv4Address_of_str ipv4 with
           | Some _ => console_ret tt
           | None => console_raise (AddressValueError_literal ipv4)
           end
         else console_ret tt);;
        line <- input "IPv6 address: ";;
        let ipv6 := PyStr.strip line in
        (if PyStr.truthy ipv6 then
           match ipaddress.IPv6Address_of_str ipv6 with
           | Some _ => console_ret tt
           | None => console_raise (AddressValueError_literal ipv6)
           end
         else console_ret tt);;
        console_ret (Some ipv4, Some ipv6));;
   let '(ipv4, ipv6) := ips in
   country <- get_field "country code (XX)" (args.country a);;
   let country := PyStr.upper country in
   province <-
     (if PyStr.in_tuple country ["CA"; "US"] then
        province <- get_field "state/province code (XX)" (args.province a);;
        console_ret (if PyStr.truthy province then province else EmptyString)
      else console_ret EmptyString);;
   city <-
     (if negb (PyStr.in_tuple country ["SG"; "HK"; "MO"]) then
        get_field "city name (in full)" (args.city a)
      else console_ret EmptyString);;
   entry_name <- get_field "Smokeping entry name" (args.name a);;
   isp <- get_field "ISP / hosting provider" (args.isp a);;
   block "IPv4:" ipv4 entry_name isp country province city;;
   block "IPv6:" ipv6 entry_name isp country province city)%console.

End Main.

(** The events and the end of a console run. *)
Definition console_trace {A} (r : list console_event * ended A) : list console_event :=
  fst r.
Definition console_end {A} (r : list console_event * ended A) : ended A := snd r.

(** A prompt of [input]. *)
Definition is_Input (ev : console_event) : bool :=
  match ev with Input _ => true | _ => false end.

(** The arguments [-C country -c city -n name -i isp] with the URL, the
    province and the flag as given. *)
Definition given (url province : option string) (force_dns : bool)
    (country city name isp : string) : args.t :=
  {| args.url := url; args.country := Some country; args.province := province;
     args.city := Some city; args.name := Some name; args.isp := Some isp;
     args.force_dns := force_dns |}.


(** ** Further notions *)

(** [s.isascii()].  On such strings the [str] methods, [int] and the
    character classes of the embedding are Python's. *)
Definition isascii (s : string) : bool :=
  ipaddress.all_chars (fun c => (PyStr.code c <? 128)%N) s.


(** The response passes the size check: the declared length, if any, is
    in ASCII and an integer within the budget; without the header the
    budget is not negative. *)
Definition within_budget (r : response) (maxsize : Z) : Prop :=
  match content_length r with
  | Some header =>
      isascii header = true
      /\ exists declared, codecs.int header = Some declared /\ declared <= maxsize
  | None => 0 <= maxsize
  end.

(** The lines of the IPv6 loop about candidates that are no addresses. *)
Definition skipping (candidates : list string) : list event :=
  omap (fun candidate =>
          match ipaddress.ip_address candidate with
          | None => Some (Stdout (SkippingInvalid candidate
                                    (ValueError_not_an_address candidate)))
          | Some _ => None
          end) candidates.

(** What the variable of the IPv6 loop holds after candidates none of
    which was accepted: the last of them if it is an address, [None] if
    it is not. *)
Definition left_over (candidates : list string) (ipv6 : option string)
  : option string :=
  fold_left (fun _ candidate =>
               match ipaddress.ip_address candidate with
               | Some _ => Some candidate
               | None => None
               end) candidates ipv6.

(** Every chunk the stream yields satisfies [p]. *)
Fixpoint every_chunk (p : string -> bool) (stream : body) : bool :=
  match stream with
  | Chunk data rest => p data && every_chunk p rest
  | _ => true
  end.

(** A chunk whose decoded text is not empty. *)
Definition has_text (chunk : string) : bool :=
  0 <? codecs.len (codecs.decode_ignore chunk).

(** Every question [main] would ask is answered on the command line: the
    country, the entry name and the provider, the province for [CA] and
    [US], and the city except for [SG], [HK] and [MO]. *)
Definition all_given (a : args.t) : bool :=
  let country := PyStr.upper (default EmptyString (args.country a)) in
  truthy (args.country a) && truthy (args.name a) && truthy (args.isp a)
  && (negb (PyStr.in_tuple country ["CA"; "US"]) || truthy (args.province a))
  && (PyStr.in_tuple country ["SG"; "HK"; "MO"] || truthy (args.city a)).

(** A console run that does not ask: it writes no prompt, and when it
    finishes the lines of the terminal are all still unread. *)
Definition reads_nothing {A} (m : Console A) : Prop :=
  forall stdin,
    Forall (fun ev => is_Input ev = false) (console_trace (m stdin))
    /\ forall a unread, console_end (m stdin) = Finished a unread -> unread = stdin.


(** Every character class of the pattern [r] lies within [P]. *)
Fixpoint drawn_from (P : ascii -> bool) (r : re.regex) : Prop :=
  match r with
  | re.Eps | re.WordBoundary => True
  | re.Chr p | re.Between _ _ p | re.Plus p => forall a, p a = true -> P a = true
  | re.Seq r1 r2 | re.Alt r1 r2 => drawn_from P r1 /\ drawn_from P r2
  | re.Opt r1 | re.Times _ r1 => drawn_from P r1
  end.

(** A digit or the dot. *)
Definition dotted_decimal (c : ascii) : bool :=
  PyStr.isdigit c || Ascii.eqb c ".".

(** A character of [[a-fA-f0-9:]]: a digit, the colon, or one of the
    characters from [A] to [f]. *)
Definition colon_hex (c : ascii) : bool :=
  PyStr.isdigit c || Ascii.eqb c ":" || PyStr.between 65 102 c.

(** [c'] is [c] after characters of [P] were taken. *)
Definition extends (P : ascii -> bool) (c c' : re.cursor) : Prop :=
  exists s, ipaddress.all_chars P s = true /\ re.taken c' = s +:+ re.taken c.

(** [str] of the IPv4 address with the bytes [a], [b], [c] and [d]. *)
Definition dotted_quad (a b c d : N) : string :=
  PyStr.join "." (map ipaddress.str_octet [a; b; c; d]).

(** What may follow an address for the pattern to stop there: the end of
    the text, or an ASCII character other than the dot that is no letter,
    digit or underscore. *)
Definition ends_candidate (post : string) : bool :=
  match post with
  | EmptyString => true
  | String c0 _ =>
      (PyStr.code c0 <? 128)%N && negb (re.is_word c0) && negb (Ascii.eqb c0 ".")
  end.

(** The cursor after the characters of [s] were taken; [tail] is what
    follows them. *)
Fixpoint advance (s tail : string) (c : re.cursor) : re.cursor :=
  match s with
  | EmptyString => c
  | String a s' => advance s' tail (re.step a (s' +:+ tail) c)
  end.

(** One of the four groups of [IP4_RE]: an octet, an optional dot, a word
    boundary. *)
Definition IP4_RE_group : re.regex :=
  match IP4_RE with
  | re.Times _ group => group
  | _ => re.Eps
  end.

(** ** Further stubs *)

(** A world in which no name resolves. *)
Definition unresolvable : world :=
  {| urlparse := fun _ => Some {| scheme := ""; netloc := "" |};
     getaddrinfo := fun _ _ =>
       inl (OtherError "<class 'socket.gaierror'>"
              "[Errno -2] Name or service not known");
     requests_get := requests_get (one_page "");
     dns_resolve := dns_resolve (one_page "") |}.

(** The stub whose server answers every request with [status] and an
    empty body. *)
Definition error_page (status : Z) : world :=
  {| urlparse := urlparse (one_page "");
     getaddrinfo := getaddrinfo (one_page "");
     requests_get := fun _ _ _ _ =>
       inr {| status_code := status;
              content_length := None;
              iter_content := fun _ => Eof |};
     dns_resolve := dns_resolve (one_page "") |}.

(** The excerpt with another German entry: the same [name], and a
    [common_name] besides. *)
Definition iso_excerpt_common_name : gmap string country_entry :=
  <["DE" := {| alpha_2 := "DE"; name := "Germany";
               common_name := Some "Deutschland";
               official_name := None |}]> iso_excerpt.

(** * Properties *)

(** ** The library models on samples

    The values are those of CPython 3.11 on the same inputs. *)

Example upper_title_samples :
  map PyStr.upper ["us"; "new york"; "o'neil mc-kay"]
  = ["US"; "NEW YORK"; "O'NEIL MC-KAY"]
  /\ map PyStr.title ["New York"; "new york"; "o'neil mc-kay"; "x1y"; "BUFFALO"]
     = ["New York"; "New York"; "O'Neil Mc-Kay"; "X1Y"; "Buffalo"].
Proof. vm_compute. split; reflexivity. Qed.

Example split_strip_samples :
  map (fun isp => PyStr.strip (hd "" (PyStr.split "@" isp)))
      ["ACME @ DC1"; "  a @b@c"; "@x"; "plain "]
  = ["ACME"; "a"; ""; "plain"].
Proof. vm_compute. reflexivity. Qed.

Example finditer_IP4_RE_samples :
  map (re.finditer IP4_RE)
      ["10.0.0.1"; "x 1.2.3.4.5 y"; "1.2.3.4."; "256.1.1.1 1.1.1.256"; "1234";
       "1.2.3.4a"; "01.2.3.4"; "1.2.3.4 and 5.6.7.8"]
  = [["10.0.0.1"]; ["1.2.3.4."]; ["1.2.3.4"]; ["56.1.1.1"]; [];
     []; ["1.2.3.4"]; ["1.2.3.4"; "5.6.7.8"]].
Proof. vm_compute. reflexivity. Qed.

Example finditer_IP6_RE_samples :
  map (re.finditer IP6_RE)
      ["fe80::1"; "at 12:30:45 see 2001:4860:4860::8888.";
       "abcde:1 12345:6 ::1 a:"; "GET /a:Z_b:c"]
  = [["fe80::1"]; ["12:30:45"; "2001:4860:4860::8888"];
     ["bcde:1"; "2345:6"]; ["a:Z_b:c"]].
Proof. vm_compute. reflexivity. Qed.

Example ip_address_samples :
  map ipaddress.ip_address
      ["1.2.3.4"; "1.2.3.4."; "01.2.3.4"; "256.1.1.1"; "1.2.3.4/1"; "12:30:45";
       "::"; "::1.2.3.4"; "1::2::3"; "fe80::1"; "fe80::1%eth0"; "fe80::%"]
  = [Some (IPv4Address 16909060); None; None; None; None; None;
     Some (IPv6Address 0 None); Some (IPv6Address 16909060 None); None;
     Some (IPv6Address 338288524927261089654018896841347694593 None);
     Some (IPv6Address 338288524927261089654018896841347694593 (Some "eth0"));
     None].
Proof. vm_compute. reflexivity. Qed.

Example is_global_samples :
  map globally_routable
      ["8.8.8.8"; "10.0.0.1"; "127.0.0.1"; "169.254.1.1"; "100.64.0.1";
       "172.31.255.255"; "172.32.0.0"; "192.0.0.8"; "192.0.0.9"; "224.0.0.1";
       "2001:4860:4860::8888"; "fe80::1"; "febf::1"; "fec0::1"; "fc00::1";
       "2001:db8::1"; "2001:1::1"; "::ffff:8.8.8.8"; "ff02::1"]
  = [true; false; false; false; false;
     false; true; false; true; true;
     true; false; false; true; false;
     false; true; true; true].
Proof. vm_compute. reflexivity. Qed.

Example reverse_pointer_samples :
  map (fun s => ipaddress.ip_address s ≫= ipaddress.reverse_pointer)
      ["1.2.3.4"; "2001:db8::1"; "fe80::1%eth0"]
  = [Some "4.3.2.1.in-addr.arpa";
     Some "1.0.0.0.0.0.0.0.0.0.0.0.0.0.0.0.0.0.0.0.0.0.0.0.8.b.d.0.1.0.0.2.ip6.arpa";
     None].
Proof. vm_compute. reflexivity. Qed.

(** [b'A\xc3\xa9\xffB\xc3'] decodes to the three code points of ['AéB'];
    an encoded surrogate and an overlong sequence are dropped. *)
Example decode_ignore_samples :
  codecs.decode_ignore (bytes [65; 195; 169; 255; 66; 195]%N) = bytes [65; 195; 169; 66]%N
  /\ codecs.len (codecs.decode_ignore (bytes [65; 195; 169; 255; 66; 195]%N)) = 3
  /\ codecs.decode_ignore
       (bytes [226; 130; 172; 32; 237; 160; 128; 32; 240; 159; 152; 128; 32; 192; 128]%N)
     = bytes [226; 130; 172; 32; 32; 240; 159; 152; 128; 32]%N.
Proof. vm_compute. repeat split; reflexivity. Qed.

Example int_samples :
  map codecs.int ["12"; " 12 "; "-5"; "+7"; "1_000"; "_1"; "1__0"; "1_"; ""; "abc"; "007";
                  "+ 12"; "12 3"; bytes [11; 49; 50; 12]%N; bytes [31; 49; 50]%N;
                  bytes [49; 50; 28]%N; bytes [49; 50; 0]%N]
  = [Some 12; Some 12; Some (-5); Some 7; Some 1000; None; None; None; None; None;
     Some 7; None; None; Some 12; None; None; None].
Proof. vm_compute. reflexivity. Qed.

(** A literal of 4300 digits is converted, one of 4301 digits is not,
    whatever its value. *)
Example int_max_str_digits_samples :
  codecs.int (PyStr.repeat "0" 4299 +:+ "7") = Some 7
  /\ codecs.int (PyStr.repeat "0" 4300 +:+ "7") = None
  /\ codecs.int (" -" +:+ PyStr.repeat "0" 4298 +:+ "1_7 ") = Some (-17).
Proof. vm_compute. repeat split. Qed.

(** A page with one global address of each family, a time of day that the
    IPv6 pattern takes for a candidate, and the resolved address of the
    host, which is returned as the host name. *)
Example scrape_ips_samples :
  let run page := scrape_ips (one_page page) "example.com" false 65536 in
  result (run "dns 8.8.8.8 at 12:30:45, also 2001:4860:4860::8888")
  = Returns (Some "8.8.8.8", Some "2001:4860:4860::8888")
  /\ stdout (run "dns 8.8.8.8 at 12:30:45, also 2001:4860:4860::8888")
     = [ AddressSet {[ IPv4Address 1572395042 ]};
         Line ("8.8.8.8 ASN info: <class 'dns.resolver.NXDOMAIN'>: "
               +:+ "The DNS query name does not exist: "
               +:+ "8.8.8.8.origin.asn.cymru.com.");
         SkippingInvalid "12:30:45" (ValueError_not_an_address "12:30:45");
         Line ("2001:4860:4860::8888 ASN info: <class 'dns.resolver.NXDOMAIN'>: "
               +:+ "The DNS query name does not exist: "
               +:+ "8.8.8.8.0.0.0.0.0.0.0.0.0.0.0.0.0.0.0.0.0.6.8.4.0.6.8.4.1.0.0.2"
               +:+ ".origin6.asn.cymru.com.") ]
  /\ result (run "served by 93.184.216.34") = Returns (Some "example.com", None)
  /\ result (run "x 1.2.3.4.5 y") = Raises (ValueError_not_an_address "1.2.3.4.")
  /\ result (scrape_ips (stub_world ["93.184.216.34"] None Eof) "example.com" false 65536)
     = Raises (UnboundLocalError "text").
Proof. vm_compute. repeat split; reflexivity. Qed.

(** ** Laws of runs *)

Lemma bind_ret {A B} (a : A) (k : A -> M B) : bind (ret a) k = k a.
Proof. unfold bind, ret. destruct (k a) as [t r]. reflexivity. Qed.

Lemma bind_raise {A B} (e : exn) (k : A -> M B) : bind (raise e) k = raise e.
Proof. reflexivity. Qed.

Lemma bind_emit {B} (ev : event) (k : unit -> M B) :
  bind (emit ev) k = (ev :: trace (k tt), result (k tt)).
Proof. unfold bind, emit, trace, result. destruct (k tt) as [t r]. reflexivity. Qed.

Lemma bind_print {B} (p : printed) (k : unit -> M B) :
  bind (print p) k = (Stdout p :: trace (k tt), result (k tt)).
Proof. apply bind_emit. Qed.

Lemma trace_bind_returns {A B} (m : M A) (k : A -> M B) (a : A) :
  result m = Returns a ->
  trace (bind m k) = (trace m ++ trace (k a))%list
  /\ result (bind m k) = result (k a).
Proof.
  destruct m as [t r]. unfold trace, result. simpl. intros ->.
  destruct (k a) as [t' r']. split; reflexivity.
Qed.

Lemma result_bind_raises {A B} (m : M A) (k : A -> M B) (e : exn) :
  result m = Raises e ->
  trace (bind m k) = trace m /\ result (bind m k) = Raises e.
Proof.
  destruct m as [t r]. unfold trace, result. simpl. intros ->.
  split; reflexivity.
Qed.

(** ** The formatter *)

Section FormatterFacts.

Variable countries : gmap string country_entry.

Lemma in_tuple_false_2 (x a b : string) :
  x <> a -> x <> b -> PyStr.in_tuple x [a; b] = false.
Proof.
  intros Ha Hb. unfold PyStr.in_tuple. simpl.
  apply String.eqb_neq in Ha. apply String.eqb_neq in Hb.
  rewrite Ha, Hb. reflexivity.
Qed.

(** *** C2 — the call of the specification's example, as the code runs it.
    With the table entry for [US] present, the formatter called with
    [("Test", "1.2.3.4", "ACME @ DC1", "us", "ny", "Buffalo", 2)] writes the
    four lines below: the prefix is wrapped in brackets twice and the
    menu line carries no city. *)
Theorem fmt_smokeping_us_ny_buffalo (us : country_entry) :
  countries_get countries "US" = Some us ->
  fmt_smokeping countries "Test" "1.2.3.4" "ACME @ DC1" "us" "ny" "Buffalo" 2
  = ([ Stdout (Line "++ Test");
       Stdout (Line "menu = [[US/NY]] ACME");
       Stdout (Line "title = [[US/NY]] ACME @ DC1 - Buffalo, NY, US [1.2.3.4]");
       Stdout (Line "host = 1.2.3.4") ],
     Returns tt).
Proof.
  intros Hus. unfold fmt_smokeping.
  change (PyStr.upper "us") with "US".
  change (String.eqb "US" "UK") with false. cbv iota.
  rewrite Hus. vm_compute. reflexivity.
Qed.

(** *** C4, amended — an unknown country code.
    When the upper-cased country code (with [UK] looked up as [GB]) is not
    in the table, the formatter ends with [AssertionError]; by then it has
    written exactly one line, the header of the entry (nothing when the
    nesting level is negative, which the first assertion refuses).  No
    menu, title or host line is written.  Stated for a country code in
    ASCII, where [PyStr.upper] is [str.upper]. *)
Theorem fmt_smokeping_unknown_country
    (entry_name address isp country province city : string) (levels : Z) :
  isascii country = true ->
  countries_get countries (lookup_code country) = None ->
  fmt_smokeping countries entry_name address isp country province city levels
  = (if 0 <=? levels then [header_line levels entry_name] else [],
     Raises AssertionError).
Proof.
  intros _ Hnone. unfold fmt_smokeping, lookup_code in *.
  destruct (0 <=? levels); [|reflexivity].
  unfold py_assert. rewrite bind_ret, bind_print.
  rewrite Hnone. reflexivity.
Qed.

(** *** C10 — the province is read in the US/CA branch only.
    Two calls that differ in the province alone write the same lines and
    end the same way when the upper-cased country is neither [US] nor
    [CA].  Stated for a country code in ASCII, where [PyStr.upper] is
    [str.upper]. *)
Theorem fmt_smokeping_province_irrelevant
    (entry_name address isp country city : string) (levels : Z)
    (province1 province2 : string) :
  isascii country = true ->
  PyStr.upper country <> "US" ->
  PyStr.upper country <> "CA" ->
  fmt_smokeping countries entry_name address isp country province1 city levels
  = fmt_smokeping countries entry_name address isp country province2 city levels.
Proof.
  intros _ Hus Hca. unfold fmt_smokeping.
  rewrite (in_tuple_false_2 _ "CA" "US" Hca Hus).
  reflexivity.
Qed.

End FormatterFacts.

(** C2 on the excerpt of the table, which has the entry. *)
Lemma fmt_smokeping_us_ny_buffalo_witness :
  fmt_smokeping iso_excerpt "Test" "1.2.3.4" "ACME @ DC1" "us" "ny" "Buffalo" 2
  = ([ Stdout (Line "++ Test");
       Stdout (Line "menu = [[US/NY]] ACME");
       Stdout (Line "title = [[US/NY]] ACME @ DC1 - Buffalo, NY, US [1.2.3.4]");
       Stdout (Line "host = 1.2.3.4") ],
     Returns tt).
Proof.
  apply (fmt_smokeping_us_ny_buffalo iso_excerpt
           {| alpha_2 := "US"; name := "United States"; common_name := None;
              official_name := Some "United States of America" |}).
  vm_compute. reflexivity.
Defined.

(** C4 as stated fails: for the code [xx], which the table does not have,
    the run ends with [AssertionError] but the header line has been
    written. *)
Lemma fmt_smokeping_unknown_country_writes_header :
  countries_get iso_excerpt (lookup_code "xx") = None
  /\ result (fmt_smokeping iso_excerpt "Test" "1.2.3.4" "ACME @ DC1" "xx" "" "Paris" 2)
     = Raises AssertionError
  /\ stdout (fmt_smokeping iso_excerpt "Test" "1.2.3.4" "ACME @ DC1" "xx" "" "Paris" 2)
     = [Line "++ Test"]
  /\ stdout (fmt_smokeping iso_excerpt "Test" "1.2.3.4" "ACME @ DC1" "xx" "" "Paris" 2)
     <> [].
Proof. vm_compute. repeat split; discriminate. Qed.

(** C4, amended, for the code [xx]. *)
Lemma fmt_smokeping_unknown_country_witness :
  fmt_smokeping iso_excerpt "Test" "1.2.3.4" "ACME @ DC1" "xx" "" "Paris" 2
  = ([header_line 2 "Test"], Raises AssertionError).
Proof.
  apply (fmt_smokeping_unknown_country iso_excerpt
           "Test" "1.2.3.4" "ACME @ DC1" "xx" "" "Paris" 2).
  - reflexivity.
  - vm_compute. reflexivity.
Defined.

(** C10 for a German entry with two provinces. *)
Lemma fmt_smokeping_province_irrelevant_witness :
  fmt_smokeping iso_excerpt "Test" "1.2.3.4" "ACME @ DC1" "de" "ny" "Berlin" 2
  = fmt_smokeping iso_excerpt "Test" "1.2.3.4" "ACME @ DC1" "de" "bw" "Berlin" 2.
Proof.
  apply fmt_smokeping_province_irrelevant;
    [reflexivity | vm_compute; discriminate | vm_compute; discriminate].
Defined.

Example fmt_de :
  fmt_smokeping iso_excerpt "Test" "1.2.3.4" "ACME @ DC1" "de" "" "frankfurt am main" 2
  = ([ Stdout (Line "++ Test");
       Stdout (Line "menu = [DE] ACME (Frankfurt Am Main)");
       Stdout (Line "title = [DE] ACME @ DC1 - Frankfurt Am Main, Germany [1.2.3.4]");
       Stdout (Line "host = 1.2.3.4") ], Returns tt).
Proof. vm_compute. reflexivity. Qed.

(** ** [get_ipinfo] *)

Lemma bind_emit_after {B} (ev : event) (k : unit -> M B) :
  bind (emit ev) k = after [ev] (k tt).
Proof. rewrite bind_emit. reflexivity. Qed.

Lemma after_after {A} (t t' : list event) (m : M A) :
  after t (after t' m) = after (t ++ t') m.
Proof. unfold after, trace, result. simpl. rewrite List.app_assoc. reflexivity. Qed.

Lemma result_after {A} (t : list event) (m : M A) : result (after t m) = result m.
Proof. reflexivity. Qed.


Module ReplaceFacts.

Lemma lacks_app c0 s t : lacks c0 (s +:+ t) = lacks c0 s && lacks c0 t.
Proof.
  induction s as [|c s IH]; [reflexivity|].
  change (lacks c0 (String c s +:+ t))
    with (negb (Ascii.eqb c c0) && lacks c0 (s +:+ t)).
  rewrite IH. cbn [lacks]. rewrite andb_assoc. reflexivity.
Qed.

Lemma lacks_join c0 sep parts :
  lacks c0 sep = true ->
  Forall (fun p => lacks c0 p = true) parts ->
  lacks c0 (PyStr.join sep parts) = true.
Proof.
  intros Hsep Hparts. induction Hparts as [|p ps Hp Hps IH]; [reflexivity|].
  destruct ps as [|q ps]; [exact Hp|].
  change (PyStr.join sep (p :: q :: ps))
    with (p +:+ sep +:+ PyStr.join sep (q :: ps)).
  rewrite !lacks_app, Hp, Hsep, IH. reflexivity.
Qed.

Lemma append_cons (c : ascii) (s t : string) :
  String c s +:+ t = String c (s +:+ t).
Proof. reflexivity. Qed.

Lemma append_empty_r (s : string) : s +:+ "" = s.
Proof.
  induction s as [|c s IH]; [reflexivity|].
  rewrite append_cons, IH. reflexivity.
Qed.

Lemma prefix_append (s t : string) : String.prefix s (s +:+ t) = true.
Proof.
  induction s as [|c s IH]; simpl; [destruct t; reflexivity|].
  destruct (ascii_dec c c); [exact IH | congruence].
Qed.

(** The characters of a match are passed over. *)
Lemma replace_from_skip (old new x rest : string) :
  PyStr.replace_from (String.length x) old new (x +:+ rest)
  = PyStr.replace_from O old new rest.
Proof. induction x as [|c x IH]; simpl; [reflexivity | exact IH]. Qed.

(** Replacing the one occurrence of [old] at the end of a string whose
    other characters all differ from the first character of [old]. *)
Lemma replace_at_match (c0 : ascii) (old' new rest : string) :
  PyStr.replace_from O (String c0 old') new (String c0 old' +:+ rest)
  = new +:+ PyStr.replace_from O (String c0 old') new rest.
Proof.
  rewrite append_cons. cbn [PyStr.replace_from].
  rewrite <- append_cons, prefix_append.
  replace (String.length (String c0 old') - 1)%nat with (String.length old')
    by (cbn [String.length]; lia).
  rewrite replace_from_skip. reflexivity.
Qed.

(** Replacing the one occurrence of [old] at the end of a string whose
    other characters all differ from the first character of [old]. *)
Lemma replace_suffix (c0 : ascii) (old' new p : string) :
  lacks c0 p = true ->
  PyStr.replace (String c0 old') new (p +:+ String c0 old') = p +:+ new.
Proof.
  intros Hp. unfold PyStr.replace. induction p as [|c p IH].
  - change ("" +:+ String c0 old') with (String c0 old').
    rewrite <- (append_empty_r (String c0 old')) at 2.
    rewrite replace_at_match. cbn [PyStr.replace_from].
    rewrite append_empty_r. reflexivity.
  - cbn [lacks] in Hp. apply andb_true_iff in Hp as [Hc Hp].
    apply negb_true_iff, Ascii.eqb_neq in Hc.
    rewrite !append_cons. cbn [PyStr.replace_from].
    replace (String.prefix (String c0 old') (String c (p +:+ String c0 old')))
      with false.
    + rewrite (IH Hp). reflexivity.
    + cbn [String.prefix]. destruct (ascii_dec c0 c); [congruence | reflexivity].
Qed.

Lemma decimal_digit_not_i (k : N) :
  (k < 10)%N -> Ascii.eqb (ascii_of_N (48 + k)) "i" = false.
Proof.
  intros Hk.
  assert (k = 0 \/ k = 1 \/ k = 2 \/ k = 3 \/ k = 4 \/ k = 5 \/ k = 6
          \/ k = 7 \/ k = 8 \/ k = 9)%N as Hcases by lia.
  repeat (destruct Hcases as [-> | Hcases]; [reflexivity|]).
  subst k. reflexivity.
Qed.

Lemma hexdigit_not_i (k : N) :
  (k < 16)%N -> Ascii.eqb (ipaddress.hexdigit k) "i" = false.
Proof.
  intros Hk.
  assert (k = 0 \/ k = 1 \/ k = 2 \/ k = 3 \/ k = 4 \/ k = 5 \/ k = 6
          \/ k = 7 \/ k = 8 \/ k = 9 \/ k = 10 \/ k = 11 \/ k = 12
          \/ k = 13 \/ k = 14 \/ k = 15)%N as Hcases by lia.
  repeat (destruct Hcases as [-> | Hcases]; [reflexivity|]).
  subst k. reflexivity.
Qed.

Lemma str_octet_lacks_i (n : N) :
  (n < 256)%N -> lacks "i" (ipaddress.str_octet n) = true.
Proof.
  intros Hn. unfold ipaddress.str_octet.
  destruct (n <? 10)%N eqn:H10; [|destruct (n <? 100)%N eqn:H100].
  - apply N.ltb_lt in H10. simpl. rewrite decimal_digit_not_i by exact H10.
    reflexivity.
  - apply N.ltb_lt in H100. simpl.
    rewrite !decimal_digit_not_i; [reflexivity | |].
    + apply N.mod_lt. discriminate.
    + apply N.Div0.div_lt_upper_bound. lia.
  - simpl.
    rewrite !decimal_digit_not_i; [reflexivity | | |].
    + apply N.mod_lt. discriminate.
    + apply N.mod_lt. discriminate.
    + apply N.Div0.div_lt_upper_bound. lia.
Qed.

Lemma octets_small (ip : N) :
  Forall (fun n => (n < 256)%N) (ipaddress.octets ip).
Proof.
  unfold ipaddress.octets.
  repeat constructor; apply N.mod_lt; discriminate.
Qed.

Lemma nibbles_lack_i (ip : N) :
  Forall (fun p => lacks "i" p = true)
         (map (fun c => String c EmptyString) (rev (ipaddress.nibbles ip))).
Proof.
  apply Forall_map. apply Forall_rev. unfold ipaddress.nibbles.
  apply Forall_map. apply Forall_forall. intros i _. simpl.
  rewrite hexdigit_not_i; [reflexivity|].
  change 15%N with (N.ones 4). rewrite N.land_ones.
  apply N.mod_lt. discriminate.
Qed.

End ReplaceFacts.

Section GetIpinfoFacts.

Import ReplaceFacts.

Lemma append_assoc (s t u : string) : (s +:+ t) +:+ u = s +:+ (t +:+ u).
Proof.
  induction s as [|c s IH]; [reflexivity|].
  rewrite !append_cons, IH. reflexivity.
Qed.

Lemma rewrite_pointer (labels old_tail new : string) :
  lacks "i" labels = true ->
  PyStr.replace (String "i" old_tail) new (labels +:+ "." +:+ String "i" old_tail)
  = labels +:+ "." +:+ new.
Proof.
  intros Hl. rewrite <- !append_assoc.
  apply replace_suffix. rewrite lacks_app, Hl. reflexivity.
Qed.

Lemma labels_v4_lack_i (ip : N) : lacks "i" (labels_v4 ip) = true.
Proof.
  apply lacks_join; [reflexivity|].
  apply Forall_rev, Forall_map.
  eapply Forall_impl; [apply octets_small|].
  intros n Hn. apply str_octet_lacks_i, Hn.
Qed.

Lemma labels_v6_lack_i (ip : N) : lacks "i" (labels_v6 ip) = true.
Proof. apply lacks_join; [reflexivity | apply nibbles_lack_i]. Qed.

Lemma reverse_pointer_v4 (ip : N) :
  ipaddress.reverse_pointer (IPv4Address ip)
  = Some (labels_v4 ip +:+ "." +:+ "in-addr.arpa").
Proof. reflexivity. Qed.

Lemma reverse_pointer_v6 (ip : N) :
  ipaddress.reverse_pointer (IPv6Address ip None)
  = Some (labels_v6 ip +:+ "." +:+ "ip6.arpa").
Proof. reflexivity. Qed.

Lemma query_of_reverse_pointer (a : ipaddr) (rp : string) :
  ipaddress.reverse_pointer a = Some rp ->
  (if ipaddress.version a =? 4
   then PyStr.replace "in-addr.arpa" "origin.asn.cymru.com" rp
   else PyStr.replace "ip6.arpa" "origin6.asn.cymru.com" rp)
  = origin_name a.
Proof.
  destruct a as [ip | ip [scope|]].
  - rewrite reverse_pointer_v4. intros [= <-].
    change (ipaddress.version (IPv4Address ip) =? 4) with true. cbv iota.
    apply (rewrite_pointer (labels_v4 ip) "n-addr.arpa" "origin.asn.cymru.com").
    apply labels_v4_lack_i.
  - discriminate.
  - rewrite reverse_pointer_v6. intros [= <-].
    change (ipaddress.version (IPv6Address ip None) =? 4) with false. cbv iota.
    apply (rewrite_pointer (labels_v6 ip) "p6.arpa" "origin6.asn.cymru.com").
    apply labels_v6_lack_i.
Qed.

Variable w : world.


End GetIpinfoFacts.


Example origin_name_v4 :
  origin_name (IPv4Address 134744072) = "8.8.8.8.origin.asn.cymru.com".
Proof. vm_compute. reflexivity. Qed.


(** ** [scrape_ips] *)

Lemma bind_print_after {B} (p : printed) (k : unit -> M B) :
  bind (print p) k = after [Stdout p] (k tt).
Proof. apply bind_emit_after. Qed.

Lemma after_raise {A} (t : list event) (e : exn) : @after A t (raise e) = (t, Raises e).
Proof. unfold after, raise, trace, result. simpl. rewrite app_nil_r. reflexivity. Qed.

Lemma after_ret {A} (t : list event) (a : A) : after t (ret a) = (t, Returns a).
Proof. unfold after, ret, trace, result. simpl. rewrite app_nil_r. reflexivity. Qed.

Lemma trace_bind_prefix {A B} (m : M A) (k : A -> M B) :
  exists t, trace (bind m k) = (trace m ++ t)%list.
Proof.
  destruct m as [t [a|e]]; unfold trace; simpl.
  - destruct (k a) as [t' r]. exists t'. reflexivity.
  - exists []. rewrite app_nil_r. reflexivity.
Qed.

Section ScraperFacts.

Variable w : world.

Lemma ip_addresses_all (entries : list string) (addresses : list ipaddr) :
  Forall2 (fun entry a => ipaddress.ip_address entry = Some a) entries addresses ->
  ip_addresses entries = ret addresses.
Proof.
  induction 1 as [|entry a entries addresses Ha _ IH]; [reflexivity|].
  cbn [ip_addresses]. rewrite Ha. cbn [or_raise].
  rewrite bind_ret, IH, bind_ret. reflexivity.
Qed.

Lemma raise_for_status_ok (r : response) :
  (status_code r < 400 \/ 600 <= status_code r) -> raise_for_status r = ret tt.
Proof.
  intros Hs. unfold raise_for_status.
  destruct (400 <=? status_code r) eqn:H4; [|reflexivity].
  destruct (status_code r <? 600) eqn:H6; [|reflexivity].
  apply Z.leb_le in H4. apply Z.ltb_lt in H6. lia.
Qed.

(** The steps of [scrape_ips] up to the resolved set. *)
Ltac resolve_steps Hres url :=
  destruct Hres as [parts entries addresses Hurl -> -> Hgai Hall ->];
  unfold scrape_ips; rewrite Hurl; cbn [or_raise]; rewrite bind_ret;
  fold (netloc_of parts url); fold (request_url parts url);
  rewrite bind_emit_after, Hgai; cbn [call];
  rewrite bind_ret, (ip_addresses_all _ _ Hall), bind_ret, bind_print_after.

(** The steps up to the check of the status. *)
Ltac respond_steps Hresp url :=
  let Hres := fresh "Hres" in
  let Hget := fresh "Hget" in
  let Hstatus := fresh "Hstatus" in
  destruct Hresp as [Hres Hget Hstatus];
  revert Hget; resolve_steps Hres url; intros Hget;
  rewrite bind_emit_after, Hget; cbn [call];
  rewrite bind_ret, (raise_for_status_ok _ Hstatus), bind_ret, !after_after;
  cbn [app].

(** *** The DNS-only branch *)

Lemma dns_only_pick (host : string) (ips : list ipaddr) (b4 b6 : bool) :
  dns_only host ips (pick host b4) (pick host b6)
  = (pick host (b4 || existsb ipaddress.is_IPv4Address ips),
     pick host (b6 || existsb ipaddress.is_IPv6Address ips)).
Proof.
  revert b4 b6. induction ips as [|ip ips IH]; intros b4 b6.
  - cbn [dns_only existsb]. rewrite !orb_false_r. reflexivity.
  - cbn [dns_only existsb].
    destruct (truthy (pick host b4) && truthy (pick host b6)) eqn:Hboth.
    + apply andb_true_iff in Hboth as [H4 H6].
      destruct b4, b6; try discriminate. reflexivity.
    + replace (if negb (truthy (pick host b4)) && ipaddress.is_IPv4Address ip
               then Some host else pick host b4)
        with (pick host (b4 || ipaddress.is_IPv4Address ip))
        by (destruct b4, (ipaddress.is_IPv4Address ip), (truthy (pick host true));
            reflexivity).
      replace (if negb (truthy (pick host b6)) && ipaddress.is_IPv6Address ip
               then Some host else pick host b6)
        with (pick host (b6 || ipaddress.is_IPv6Address ip))
        by (destruct b6, (ipaddress.is_IPv6Address ip), (truthy (pick host true));
            reflexivity).
      rewrite IH, !orb_assoc. reflexivity.
Qed.

Lemma existsb_elements (p : ipaddr -> bool) (s : gset ipaddr) :
  existsb p (elements s) = true <-> exists a, a ∈ s /\ p a = true.
Proof.
  rewrite existsb_exists. split; intros [a [Ha Hp]]; exists a; split; try exact Hp.
  - apply elem_of_elements, list_elem_of_In, Ha.
  - apply list_elem_of_In, elem_of_elements, Ha.
Qed.

(** *** C7 — DNS-only mode.
    When the name resolves to the set [dns_results], the run ends after
    the lookup and returns, for each family, the host name itself if the
    set has an address of that family and [None] otherwise; so two
    [None] for the empty set.  Nothing is raised. *)
Theorem scrape_ips_dns_only
    (url host target : string) (dns_results : gset ipaddr) (maxsize : Z) :
  resolves w url host target dns_results ->
  exists ipv4 ipv6,
    scrape_ips w url true maxsize
    = ([Getaddrinfo host 80; Stdout (AddressSet dns_results)], Returns (ipv4, ipv6))
    /\ ((exists a, a ∈ dns_results /\ ipaddress.is_IPv4Address a = true)
          -> ipv4 = Some host)
    /\ ((exists a, a ∈ dns_results /\ ipaddress.is_IPv6Address a = true)
          -> ipv6 = Some host)
    /\ (~ (exists a, a ∈ dns_results /\ ipaddress.is_IPv4Address a = true)
          -> ipv4 = None)
    /\ (~ (exists a, a ∈ dns_results /\ ipaddress.is_IPv6Address a = true)
          -> ipv6 = None)
    /\ (dns_results = ∅ -> (ipv4, ipv6) = (None, None)).
Proof.
  intros Hres.
  exists (pick host (existsb ipaddress.is_IPv4Address (elements dns_results))),
         (pick host (existsb ipaddress.is_IPv6Address (elements dns_results))).
  split; [|repeat split].
  - resolve_steps Hres url.
    rewrite after_after, after_ret. cbn [app].
    rewrite (dns_only_pick _ _ false false). reflexivity.
  - intros Hex. apply existsb_elements in Hex. rewrite Hex. reflexivity.
  - intros Hex. apply existsb_elements in Hex. rewrite Hex. reflexivity.
  - intros Hno. destruct (existsb _ _) eqn:Hex; [|reflexivity].
    apply existsb_elements in Hex. contradiction.
  - intros Hno. destruct (existsb _ _) eqn:Hex; [|reflexivity].
    apply existsb_elements in Hex. contradiction.
  - intros ->. rewrite elements_empty. reflexivity.
Qed.

(** *** The size check *)












Lemma read_chunks_reads_first (maxsize : Z) (stream : body) (total : Z)
    (text : option string) :
  exists t, trace (read_chunks maxsize stream total text) = ReadBody :: t.
Proof.
  destruct stream; cbn [read_chunks]; rewrite bind_emit_after;
    eexists; reflexivity.
Qed.

Lemma result_bind_returns {A B} (m : M A) (k : A -> M B) (b : B) :
  result (bind m k) = Returns b ->
  exists a, result m = Returns a /\ result (k a) = Returns b.
Proof.
  destruct m as [t [a|e]]; unfold result; simpl; [|discriminate].
  intros Hk. exists a. split; [reflexivity|].
  destruct (k a) as [t' r]. exact Hk.
Qed.

(** What the final assertion does guarantee: a pair returned in scraping
    mode has a non-empty string on one side at least. *)
Lemma scrape_ips_returns_a_value (url : string) (maxsize : Z)
    (ipv4 ipv6 : option string) :
  result (scrape_ips w url false maxsize) = Returns (ipv4, ipv6) ->
  truthy ipv4 || truthy ipv6 = true.
Proof.
  unfold scrape_ips. intros H.
  repeat (apply result_bind_returns in H; destruct H as [? [_ H]]).
  destruct (maxsize <? _); [discriminate|].
  apply result_bind_returns in H. destruct H as [text [_ H]].
  apply result_bind_returns in H. destruct H as [text' [_ H]].
  apply result_bind_returns in H. destruct H as [v4 [_ H]].
  apply result_bind_returns in H. destruct H as [v6 [_ H]].
  apply result_bind_returns in H. destruct H as [[] [Hassert H]].
  injection H as <- <-.
  unfold py_assert in Hassert.
  destruct (truthy v4 || truthy v6); [reflexivity | discriminate].
Qed.

(** In scraping mode, once the response is there, the run is the lookup,
    the request and then [scan_response]. *)
Lemma scrape_ips_scraping
    (url host target : string) (dns_results : gset ipaddr) (r : response)
    (maxsize : Z) :
  responds w url host target dns_results r ->
  scrape_ips w url false maxsize
  = after [Getaddrinfo host 80; Stdout (AddressSet dns_results); HttpGet target]
          (scan_response w dns_results host r maxsize).
Proof. intros Hresp. respond_steps Hresp url. reflexivity. Qed.



End ScraperFacts.



(** *** The reading of the body *)

Lemma len_nonneg (text : string) : 0 <= codecs.len text.
Proof.
  induction text as [|c text IH]; cbn [codecs.len]; [lia|].
  destruct (codecs.continuation c); lia.
Qed.

Lemma decoded_length_nonneg (chunks : list string) : 0 <= decoded_length chunks.
Proof.
  induction chunks as [|chunk chunks IH]; cbn; [lia|].
  pose proof (len_nonneg (codecs.decode_ignore chunk)).
  fold (decoded_length chunks). lia.
Qed.












(** ** Runs of the scraper on concrete pages *)

Section RejectedCandidates.

Variable w : world.

(** When every candidate of the IPv4 loop is rejected, the loop ends with
    the last of them in the variable. *)
Lemma classify_ipv4_all_rejected (dns_results : gset ipaddr) (host : string)
    (candidates : list string) (last : string) (ipv4 : option string) :
  Forall rejected candidates ->
  rejected last ->
  classify_ipv4 w dns_results host (candidates ++ [last])%list ipv4
  = ret (Some last).
Proof.
  intros Hall [a [Hparse Hglobal]]. revert ipv4.
  induction Hall as [|c cs [b [Hb Hbg]] _ IH]; intros ipv4.
  - cbn [app classify_ipv4]. rewrite Hparse. cbn [or_raise].
    rewrite bind_ret, Hglobal. reflexivity.
  - cbn [app classify_ipv4]. rewrite Hb. cbn [or_raise].
    rewrite bind_ret, Hbg. cbn [negb]. apply IH.
Qed.

(** The same for the IPv6 loop. *)
Lemma classify_ipv6_all_rejected (dns_results : gset ipaddr) (host : string)
    (candidates : list string) (last : string) (ipv6 : option string) :
  Forall rejected candidates ->
  rejected last ->
  classify_ipv6 w dns_results host (candidates ++ [last])%list ipv6
  = ret (Some last).
Proof.
  intros Hall [a [Hparse Hglobal]]. revert ipv6.
  induction Hall as [|c cs [b [Hb Hbg]] _ IH]; intros ipv6.
  - cbn [app classify_ipv6]. rewrite Hparse. cbn [or_raise].
    rewrite bind_ret, Hglobal. reflexivity.
  - cbn [app classify_ipv6]. rewrite Hb. cbn [or_raise].
    rewrite bind_ret, Hbg. cbn [negb try_except_ValueError ret].
    change (@nil event, Returns (Some c, Continue))
      with (ret (Some c, Continue)).
    rewrite bind_ret. apply IH.
Qed.

(** Of a body that comes in several chunks within the budget, the text of
    the last chunk is what the loop leaves. *)
Lemma read_chunks_last (maxsize : Z) (chunks : list string) (last : string)
    (total_length : Z) (text : option string) :
  total_length + decoded_length chunks <= maxsize ->
  result (read_chunks maxsize (stream_of (chunks ++ [last])%list) total_length text)
  = Returns (Some (codecs.decode_ignore last)).
Proof.
  revert total_length text.
  induction chunks as [|chunk chunks IH]; intros total_length text Hbudget;
    cbn [app stream_of fold_right read_chunks]; rewrite bind_emit_after, result_after.
  - cbn [decoded_length map fold_right] in Hbudget.
    replace (maxsize <? total_length) with false by (symmetry; apply Z.ltb_ge; lia).
    cbn [read_chunks]. rewrite bind_emit_after. reflexivity.
  - cbn [decoded_length map fold_right] in Hbudget.
    pose proof (decoded_length_nonneg chunks) as Hrest.
    pose proof (len_nonneg (codecs.decode_ignore chunk)) as Hchunk.
    fold (decoded_length chunks) in Hbudget.
    replace (maxsize <? total_length) with false by (symmetry; apply Z.ltb_ge; lia).
    apply (IH _ _). lia.
Qed.

(** Once the budget is exceeded, the next chunk is fetched and dropped, and
    the loop ends. *)
Lemma read_chunks_over_budget (maxsize : Z) (chunk : string) (rest : body)
    (total_length : Z) (text : option string) :
  maxsize < total_length ->
  read_chunks maxsize (Chunk chunk rest) total_length text
  = ([ReadBody], Returns text).
Proof.
  intros Hover. cbn [read_chunks]. rewrite bind_emit_after.
  apply Z.ltb_lt in Hover. rewrite Hover. apply after_ret.
Qed.

(** The text of the first of two chunks is dropped. *)
Lemma read_chunks_two (maxsize : Z) (first second : string) :
  0 <= maxsize ->
  codecs.len (codecs.decode_ignore first) <= maxsize ->
  read_chunks maxsize (Chunk first (Chunk second Eof)) 0 None
  = ([ReadBody; ReadBody; ReadBody], Returns (Some (codecs.decode_ignore second))).
Proof.
  intros H0 H1. cbn [read_chunks]. rewrite bind_emit_after.
  replace (maxsize <? 0) with false by (symmetry; apply Z.ltb_ge; lia).
  rewrite bind_emit_after.
  replace (maxsize <? 0 + codecs.len (codecs.decode_ignore first)) with false
    by (symmetry; apply Z.ltb_ge; lia).
  rewrite bind_emit_after, !after_after, after_ret. reflexivity.
Qed.

End RejectedCandidates.

(** ** The ranges of C1 *)

Module RangeFacts.

Import ipaddress.

(** An address of a network also lies in the wider network of the same
    base. *)
Lemma in_network_coarser (bits base prefixlen ip prefixlen' : N) :
  (prefixlen' <= prefixlen)%N -> (prefixlen <= bits)%N ->
  in_network bits base prefixlen ip = true ->
  in_network bits base prefixlen' ip = true.
Proof.
  unfold in_network. intros Hle Hbits Hin. apply N.eqb_eq in Hin. apply N.eqb_eq.
  replace (bits - prefixlen')%N
    with ((bits - prefixlen) + (prefixlen - prefixlen'))%N by lia.
  rewrite <- !N.shiftr_shiftr, Hin. reflexivity.
Qed.

(** Two networks that hold a common address agree on every common prefix
    length. *)
Lemma networks_meet (bits k base1 len1 base2 len2 ip : N) :
  (k <= len1 <= bits)%N -> (k <= len2 <= bits)%N ->
  in_network bits base1 len1 ip = true ->
  in_network bits base2 len2 ip = true ->
  in_network bits base1 k base2 = true.
Proof.
  intros [Hk1 Hb1] [Hk2 Hb2] H1 H2.
  apply (in_network_coarser _ _ _ _ k Hk1 Hb1) in H1.
  apply (in_network_coarser _ _ _ _ k Hk2 Hb2) in H2.
  unfold in_network in *. apply N.eqb_eq in H1, H2. apply N.eqb_eq. congruence.
Qed.

(** No network of the list holds an address of [base/len], given that none
    of them meets it on the first [k] bits. *)
Lemma outside_all (bits k base len ip : N) (nets : list (N * N)) :
  (k <= len <= bits)%N ->
  forallb (fun net => (k <=? snd net)%N && (snd net <=? bits)%N
                      && negb (in_network bits (fst net) k base)) nets = true ->
  in_network bits base len ip = true ->
  in_any bits nets ip = false.
Proof.
  intros Hk Hnets Hin. unfold in_any.
  induction nets as [|[b l] nets IH]; [reflexivity|].
  cbn [forallb existsb fst snd] in *.
  apply andb_true_iff in Hnets as [Hnet Hnets].
  apply andb_true_iff in Hnet as [Hlen Hmeet].
  apply andb_true_iff in Hlen as [Hkl Hlb].
  apply N.leb_le in Hkl, Hlb.
  rewrite (IH Hnets), orb_false_r.
  destruct (in_network bits b l ip) eqn:Hb; [|reflexivity].
  assert (in_network bits b k base = true) as Hm
    by (apply (networks_meet bits k b l base len ip); auto).
  rewrite Hm in Hmeet. discriminate.
Qed.

Lemma inside_one (bits : N) (net : N * N) (nets : list (N * N)) (ip : N) :
  In net nets ->
  in_network bits (fst net) (snd net) ip = true ->
  in_any bits nets ip = true.
Proof.
  intros Hmem Hin. unfold in_any. apply existsb_exists.
  exists net. split; assumption.
Qed.

(** An IPv4 address of a private network that meets neither the
    exceptions nor 100.64.0.0/10 on the first 8 bits is not global. *)
Lemma v4_not_global (base len ip : N) :
  (8 <= len <= 32)%N ->
  In (base, len) private_networks_v4 ->
  forallb (fun net => (8 <=? snd net)%N && (snd net <=? 32)%N
                      && negb (in_network 32 (fst net) 8 base))
          (public_network_v4 :: private_networks_exceptions_v4) = true ->
  in_network 32 base len ip = true ->
  is_global (IPv4Address ip) = false.
Proof.
  intros Hlen Hmem Hapart Hin.
  unfold is_global, is_private, is_private_v4.
  rewrite (inside_one 32 (base, len) _ ip Hmem Hin).
  cbn [forallb] in Hapart. apply andb_true_iff in Hapart as [_ Hexc].
  rewrite (outside_all 32 8 base len ip _ Hlen Hexc Hin).
  rewrite andb_false_r. reflexivity.
Qed.

End RangeFacts.

(** Every address of 10.0.0.0/8, 127.0.0.0/8, 169.254.0.0/16 and fe80::/10
    is rejected by [is_global]. *)
Lemma special_range_not_global (a : ipaddr) :
  special_range a = true -> ipaddress.is_global a = false.
Proof.
  destruct a as [ip | ip scope]; cbn [special_range]; intros Hin.
  - apply orb_true_iff in Hin as [Hin | Hin];
      [apply orb_true_iff in Hin as [Hin | Hin]|].
    + apply (RangeFacts.v4_not_global (ipaddress.v4 10 0 0 0) 8 ip);
        [lia | cbn; tauto | vm_compute; reflexivity | exact Hin].
    + apply (RangeFacts.v4_not_global (ipaddress.v4 127 0 0 0) 8 ip);
        [lia | cbn; tauto | vm_compute; reflexivity | exact Hin].
    + apply (RangeFacts.v4_not_global (ipaddress.v4 169 254 0 0) 16 ip);
        [lia | cbn; tauto | vm_compute; reflexivity | exact Hin].
  - unfold ipaddress.is_global, ipaddress.is_private.
    assert (ipaddress.ipv4_mapped ip = None) as ->.
    { unfold ipaddress.ipv4_mapped.
      destruct (N.shiftr ip 32 =? 65535)%N eqn:Hmapped; [|reflexivity].
      assert (ipaddress.in_network 128 (ipaddress.v6 0 0 0 0 0 65535 0 0) 96 ip = true)
        as Hm by exact Hmapped.
      assert (10 <= 96 <= 128)%N as Hwide by lia.
      assert (10 <= 10 <= 128)%N as Hlocal by lia.
      pose proof (RangeFacts.networks_meet 128 10 _ _ _ _ ip
                    Hwide Hlocal Hm Hin) as Hmeet.
      vm_compute in Hmeet. discriminate. }
    rewrite (RangeFacts.inside_one 128 (ipaddress.v6 65152 0 0 0 0 0 0 0, 10%N) _ ip);
      [| cbn; tauto | exact Hin].
    rewrite (RangeFacts.outside_all 128 10 (ipaddress.v6 65152 0 0 0 0 0 0 0) 10 ip);
      [reflexivity | lia | vm_compute; reflexivity | exact Hin].
Qed.

Section SpecialRanges.

Variable w : world.

(** The defect behind C1 and C5, for every address of the four ranges: a
    candidate that denotes one, last of candidates that are all rejected,
    is what the IPv4 loop leaves in its variable. *)
Lemma classify_ipv4_special_range (dns_results : gset ipaddr) (host : string)
    (candidates : list string) (last : string) (a : ipaddr) :
  Forall rejected candidates ->
  ipaddress.ip_address last = Some a ->
  special_range a = true ->
  classify_ipv4 w dns_results host (candidates ++ [last])%list None
  = ret (Some last).
Proof.
  intros Hall Hparse Hrange. apply classify_ipv4_all_rejected; [exact Hall|].
  exists a. split; [exact Hparse | apply special_range_not_global, Hrange].
Qed.

Lemma classify_ipv6_special_range (dns_results : gset ipaddr) (host : string)
    (candidates : list string) (last : string) (a : ipaddr) :
  Forall rejected candidates ->
  ipaddress.ip_address last = Some a ->
  special_range a = true ->
  classify_ipv6 w dns_results host (candidates ++ [last])%list None
  = ret (Some last).
Proof.
  intros Hall Hparse Hrange. apply classify_ipv6_all_rejected; [exact Hall|].
  exists a. split; [exact Hparse | apply special_range_not_global, Hrange].
Qed.

End SpecialRanges.

(** ** The defects of the scraper *)

(** *** C1 — a rejected candidate is returned.
    [is_global] rejects every address of 10.0.0.0/8, 127.0.0.0/8,
    169.254.0.0/16 and fe80::/10.  Yet for pages whose last candidate of a
    family is such an address, all candidates before it being rejected
    too, [scrape_ips] returns that candidate for the family. *)
Theorem scrape_ips_returns_rejected_candidate :
  (forall a, special_range a = true -> ipaddress.is_global a = false)
  /\ let run page := result (scrape_ips (one_page page) "example.com" false 65536) in
     map globally_routable ["10.0.0.1"; "127.0.0.1"; "169.254.1.1"; "fe80::1"]
     = [false; false; false; false]
     /\ run "10.0.0.1" = Returns (Some "10.0.0.1", None)
     /\ run "127.0.0.1" = Returns (Some "127.0.0.1", None)
     /\ run "169.254.1.1" = Returns (Some "169.254.1.1", None)
     /\ run "fe80::1" = Returns (None, Some "fe80::1")
     /\ run "first 192.0.2.7, last 10.0.0.1" = Returns (Some "10.0.0.1", None)
     /\ run "gateway 8.8.8.8, then 2001:4860:4860::8888, then fe80::1 and 10.0.0.1"
        = Returns (Some "8.8.8.8", Some "2001:4860:4860::8888").
Proof.
  split; [exact special_range_not_global|].
  vm_compute. repeat split.
Qed.

(** *** C3 — only the last chunk is searched.
    Of a body that comes in several chunks within the budget, the loop
    leaves the text of the last chunk alone.  So for a body in two chunks
    with the address in the first, where the text of both chunks together
    has the candidate, the run ends with [AssertionError] for want of a
    candidate; served in one chunk, the same body yields the address. *)
Theorem scrape_ips_searches_last_chunk :
  (forall (maxsize : Z) (chunks : list string) (last : string),
     decoded_length chunks <= maxsize ->
     result (read_chunks maxsize (stream_of (chunks ++ [last])%list) 0 None)
     = Returns (Some (codecs.decode_ignore last)))
  /\ let first := "served from 8.8.8.8 " in
     let second := "by nginx" in
     let w := stub_world ["93.184.216.34"] None (Chunk first (Chunk second Eof)) in
     re.finditer IP4_RE (codecs.decode_ignore first +:+ codecs.decode_ignore second)
     = ["8.8.8.8"]
     /\ read_chunks 65536 (Chunk first (Chunk second Eof)) 0 None
        = ([ReadBody; ReadBody; ReadBody], Returns (Some "by nginx"))
     /\ result (scrape_ips w "example.com" false 65536) = Raises AssertionError
     /\ result (scrape_ips (one_page (first +:+ second)) "example.com" false 65536)
        = Returns (Some "8.8.8.8", None).
Proof.
  split.
  - intros maxsize chunks last Hbudget. apply read_chunks_last. lia.
  - vm_compute. repeat split.
Qed.

(** *** C5 — no accepted address, and yet a normal return.
    The final assertion guarantees that one of the two values returned is
    a non-empty string, not that it is an accepted address: for a page
    whose candidates are all rejected, none being globally routable,
    [scrape_ips] returns the last one of each family instead of ending
    with [AssertionError], which it does for a page without candidate. *)
Theorem scrape_ips_returns_without_accepted_address :
  (forall (w : world) (url : string) (maxsize : Z) (ipv4 ipv6 : option string),
     result (scrape_ips w url false maxsize) = Returns (ipv4, ipv6) ->
     truthy ipv4 || truthy ipv6 = true)
  /\ let page := "router 192.168.1.1 (fe80::1)" in
     List.filter globally_routable
       (re.finditer IP4_RE page ++ re.finditer IP6_RE page)%list = []
     /\ result (scrape_ips (one_page page) "example.com" false 65536)
        = Returns (Some "192.168.1.1", Some "fe80::1")
     /\ result (scrape_ips (one_page "no address here") "example.com" false 65536)
        = Raises AssertionError.
Proof.
  split; [exact scrape_ips_returns_a_value|].
  vm_compute. repeat split.
Qed.

(** ** Instances on the stub *)

Lemma stub_resolves (header : option string) (stream : body) :
  resolves (stub_world example_entries header stream)
    "example.com" "example.com" "http://example.com"
    (list_to_set example_addresses).
Proof.
  apply (Resolves _ _ _ _ _ {| scheme := ""; netloc := "" |}
           example_entries example_addresses); try reflexivity.
  repeat constructor; vm_compute; reflexivity.
Defined.

Lemma stub_responds (header : option string) (stream : body) :
  responds (stub_world example_entries header stream)
    "example.com" "example.com" "http://example.com"
    (list_to_set example_addresses)
    {| status_code := 200; content_length := header;
       iter_content := fun _ => stream |}.
Proof.
  constructor; [apply stub_resolves | reflexivity | left; reflexivity].
Defined.

(** C7 for a name with one address of each family. *)
Lemma scrape_ips_dns_only_witness :
  resolves (stub_world example_entries None Eof)
    "example.com" "example.com" "http://example.com" (list_to_set example_addresses)
  /\ exists ipv4 ipv6,
       scrape_ips (stub_world example_entries None Eof) "example.com" true 65536
       = ([Getaddrinfo "example.com" 80;
           Stdout (AddressSet (list_to_set example_addresses))],
          Returns (ipv4, ipv6))
       /\ ((exists a, a ∈ (list_to_set example_addresses : gset ipaddr)
                      /\ ipaddress.is_IPv4Address a = true)
             -> ipv4 = Some "example.com")
       /\ ((exists a, a ∈ (list_to_set example_addresses : gset ipaddr)
                      /\ ipaddress.is_IPv6Address a = true)
             -> ipv6 = Some "example.com")
       /\ (~ (exists a, a ∈ (list_to_set example_addresses : gset ipaddr)
                        /\ ipaddress.is_IPv4Address a = true)
             -> ipv4 = None)
       /\ (~ (exists a, a ∈ (list_to_set example_addresses : gset ipaddr)
                        /\ ipaddress.is_IPv6Address a = true)
             -> ipv6 = None)
       /\ ((list_to_set example_addresses : gset ipaddr) = ∅
             -> (ipv4, ipv6) = (None, None)).
Proof.
  split; [apply stub_resolves|].
  apply (scrape_ips_dns_only (stub_world example_entries None Eof)
           "example.com" "example.com" "http://example.com"
           (list_to_set example_addresses) 65536).
  apply stub_resolves.
Defined.





(** On that page the body is asked three times: for the two chunks and
    for the end. *)
Example scrape_ips_reads_two_chunks :
  body_reads
    (scrape_ips (stub_world example_entries None (Chunk "8.8.8.8 " (Chunk "is here" Eof)))
       "example.com" false 65536) = 3%nat
  /\ body_reads
       (scrape_ips (stub_world example_entries None (Chunk "8.8.8.8 " (Chunk "is here" Eof)))
          "example.com" false 7) = 2%nat.
Proof. vm_compute. split; reflexivity. Qed.

(** * Further properties *)

(** ** The formatter *)

Section FormatterMore.

Variable countries : gmap string country_entry.

(** *** X1 — a negative nesting level.
    With [levels] below zero the first assertion fails: the formatter ends
    with [AssertionError] and has written nothing, whatever the other
    arguments and the table. *)
Theorem fmt_smokeping_negative_levels
    (entry_name address isp country province city : string) (levels : Z) :
  levels < 0 ->
  fmt_smokeping countries entry_name address isp country province city levels
  = ([], Raises AssertionError).
Proof.
  intros Hneg. unfold fmt_smokeping.
  replace (0 <=? levels) with false by (symmetry; apply Z.leb_gt; exact Hneg).
  reflexivity.
Qed.

(** *** X2 — the four lines of an entry.
    For a country that the table has and a nesting level that is not
    negative, the formatter returns, having written exactly four lines:
    the header, a line that begins with [menu = [], a line that begins
    with [title = [], and [host = ] followed by the address as given. *)
Theorem fmt_smokeping_four_lines
    (entry_name address isp country province city : string) (levels : Z)
    (entry : country_entry) :
  0 <= levels ->
  countries_get countries (lookup_code country) = Some entry ->
  exists menu title,
    fmt_smokeping countries entry_name address isp country province city levels
    = ([ header_line levels entry_name;
         Stdout (Line menu);
         Stdout (Line title);
         Stdout (Line ("host = " +:+ address)) ],
       Returns tt)
    /\ String.prefix "menu = [" menu = true
    /\ String.prefix "title = [" title = true.
Proof.
  intros Hlevels Hentry. unfold fmt_smokeping, lookup_code in *.
  apply Z.leb_le in Hlevels. rewrite Hlevels.
  unfold py_assert. rewrite bind_ret, bind_print, Hentry.
  repeat match goal with
         | |- context [if ?c then _ else _] => destruct c
         end;
    cbv beta iota zeta;
    rewrite !bind_print; unfold trace, result, print, emit; cbn [fst snd];
    eexists; eexists; (split; [reflexivity|]);
    split; apply ReplaceFacts.prefix_append.
Qed.

Lemma append_empty_l (s : string) : "" +:+ s = s.
Proof. reflexivity. Qed.

(** A prefix that begins with a bracket is none of the prefixes the menu
    rule names. *)
Lemma bracketed_prefix_unlisted (rest city : string) :
  PyStr.in_tuple (String "[" rest) ["US/CA"; "DE"; "FR"; "CN"; "RU"; "IN"; "BR"]
  || (String.eqb (String "[" rest) "UK" && negb (PyStr.contains "London" city))
  || (String.eqb (String "[" rest) "JP" && negb (PyStr.contains "Tokyo" city))
  || (String.eqb (String "[" rest) "US/NY" && negb (PyStr.contains "New York" city))
  || (String.eqb (String "[" rest) "AU" && negb (PyStr.contains "Sydney" city))
  = false.
Proof. reflexivity. Qed.

(** *** X3 — entries of the United States and Canada.
    For the countries [US] and [CA], whatever the province and the city,
    the prefix is printed within two pairs of brackets and the menu line
    carries no city: the prefix, which holds its own brackets, equals
    none of the prefixes the city rule compares it with.  Stated for a
    country, province, city and provider in ASCII, where [PyStr.upper],
    [PyStr.title] and [PyStr.strip] are the methods of [str]. *)
Theorem fmt_smokeping_us_ca
    (entry_name address isp country province city : string) (levels : Z)
    (entry : country_entry) :
  isascii country = true -> isascii province = true ->
  isascii city = true -> isascii isp = true ->
  0 <= levels ->
  PyStr.in_tuple (PyStr.upper country) ["CA"; "US"] = true ->
  countries_get countries (PyStr.upper country) = Some entry ->
  fmt_smokeping countries entry_name address isp country province city levels
  = ([ header_line levels entry_name;
       Stdout (Line ("menu = [[" +:+ PyStr.upper country +:+ "/"
                     +:+ PyStr.upper province +:+ "]] "
                     +:+ PyStr.strip (hd "" (PyStr.split "@" isp))));
       Stdout (Line ("title = [[" +:+ PyStr.upper country +:+ "/"
                     +:+ PyStr.upper province +:+ "]] " +:+ isp +:+ " - "
                     +:+ PyStr.title city +:+ ", " +:+ PyStr.upper province
                     +:+ ", " +:+ PyStr.upper country
                     +:+ " [" +:+ address +:+ "]"));
       Stdout (Line ("host = " +:+ address)) ],
     Returns tt).
Proof.
  intros _ _ _ _ Hlevels Hcountry Hentry. unfold fmt_smokeping.
  apply Z.leb_le in Hlevels. rewrite Hlevels.
  unfold py_assert. rewrite bind_ret, bind_print.
  assert (String.eqb (PyStr.upper country) "UK" = false) as Huk.
  { unfold PyStr.in_tuple in Hcountry. cbn [existsb] in Hcountry.
    destruct (String.eqb_spec (PyStr.upper country) "UK") as [Heq|]; [|reflexivity].
    rewrite Heq in Hcountry. discriminate. }
  rewrite Huk, Hentry, Hcountry. cbv beta iota zeta.
  change ("[" +:+ PyStr.upper country +:+ "/" +:+ PyStr.upper province +:+ "]")
    with (String "[" (PyStr.upper country +:+ "/" +:+ PyStr.upper province +:+ "]")).
  rewrite bracketed_prefix_unlisted, andb_false_r.
  rewrite !bind_print. unfold header_line, trace, result, print, emit. cbn [fst snd].
  repeat (rewrite append_assoc || rewrite ReplaceFacts.append_cons
          || rewrite append_empty_l).
  reflexivity.
Qed.

(** *** X4 — the city of Singapore, Hong Kong and Macao.
    For the countries [SG], [HK] and [MO] the city given does not reach the
    output: two calls that differ in the city alone write the same lines
    and end the same way. *)
Theorem fmt_smokeping_city_irrelevant
    (entry_name address isp country province : string) (levels : Z)
    (city1 city2 : string) :
  PyStr.in_tuple (PyStr.upper country) ["SG"; "HK"; "MO"] = true ->
  fmt_smokeping countries entry_name address isp country province city1 levels
  = fmt_smokeping countries entry_name address isp country province city2 levels.
Proof.
  intros Hcountry. unfold fmt_smokeping.
  assert (PyStr.upper country = "SG" \/ PyStr.upper country = "HK"
          \/ PyStr.upper country = "MO") as Hcases.
  { unfold PyStr.in_tuple in Hcountry. cbn [existsb] in Hcountry.
    destruct (String.eqb_spec (PyStr.upper country) "SG"); [auto|].
    destruct (String.eqb_spec (PyStr.upper country) "HK"); [auto|].
    destruct (String.eqb_spec (PyStr.upper country) "MO"); [auto|].
    discriminate. }
  destruct Hcases as [-> | [-> | ->]]; reflexivity.
Qed.

End FormatterMore.

Lemma toupper_idempotent (c : ascii) : PyStr.toupper (PyStr.toupper c) = PyStr.toupper c.
Proof. destruct c as [[] [] [] [] [] [] [] []]; reflexivity. Qed.

Lemma upper_idempotent (s : string) : PyStr.upper (PyStr.upper s) = PyStr.upper s.
Proof.
  induction s as [|c s IH]; [reflexivity|].
  cbn [PyStr.upper]. rewrite toupper_idempotent, IH. reflexivity.
Qed.

Lemma title_char_idempotent (b : bool) (c : ascii) :
  (if b then PyStr.tolower (if b then PyStr.tolower c else PyStr.toupper c)
   else PyStr.toupper (if b then PyStr.tolower c else PyStr.toupper c))
  = (if b then PyStr.tolower c else PyStr.toupper c)
  /\ PyStr.isalpha (if b then PyStr.tolower c else PyStr.toupper c) = PyStr.isalpha c.
Proof. destruct b; destruct c as [[] [] [] [] [] [] [] []]; split; reflexivity. Qed.

Lemma title_from_idempotent (b : bool) (s : string) :
  PyStr.title_from b (PyStr.title_from b s) = PyStr.title_from b s.
Proof.
  revert b. induction s as [|c s IH]; intros b; [reflexivity|].
  cbn [PyStr.title_from].
  destruct (title_char_idempotent b c) as [Hchar Hcased].
  rewrite Hchar, Hcased, IH. reflexivity.
Qed.

(** *** X5 — letter case of the arguments.
    The formatter reads the country and the province in upper case and the
    city in title case: a call has the run of the call with the country
    and the province upper-cased and the city title-cased beforehand.
    Stated for a city in ASCII, where [str.title] applied twice is
    [str.title]. *)
Theorem fmt_smokeping_case_insensitive (countries : gmap string country_entry)
    (entry_name address isp country province city : string) (levels : Z) :
  isascii city = true ->
  fmt_smokeping countries entry_name address isp country province city levels
  = fmt_smokeping countries entry_name address isp
      (PyStr.upper country) (PyStr.upper province) (PyStr.title city) levels.
Proof.
  intros _. unfold fmt_smokeping, PyStr.title.
  rewrite !upper_idempotent, title_from_idempotent. reflexivity.
Qed.

(** *** X6 — what is read of the table.
    Of the table the formatter reads one entry, the one of the upper-cased
    country code ([GB] for [UK]), and of that entry the field [name] alone:
    two tables that agree on it give the same run.  Stated for a country
    code in ASCII, where [PyStr.upper] is [str.upper]. *)
Theorem fmt_smokeping_reads_name_only
    (countries1 countries2 : gmap string country_entry)
    (entry_name address isp country province city : string) (levels : Z) :
  isascii country = true ->
  name <$> countries_get countries1 (lookup_code country)
  = name <$> countries_get countries2 (lookup_code country) ->
  fmt_smokeping countries1 entry_name address isp country province city levels
  = fmt_smokeping countries2 entry_name address isp country province city levels.
Proof.
  unfold fmt_smokeping, lookup_code. intros _ Hname.
  destruct (countries_get countries1 _) as [e1|];
    destruct (countries_get countries2 _) as [e2|];
    cbn in Hname; try discriminate; [|reflexivity].
  injection Hname as Hname. unfold getattr_common_name. rewrite Hname. reflexivity.
Qed.

(** ** The scraper *)

Section ScraperMore.

Variable w : world.

(** The run up to the resolved set, in either mode. *)
Lemma scrape_ips_resolved (url host target : string) (dns_results : gset ipaddr)
    (force_dns : bool) (maxsize : Z) :
  resolves w url host target dns_results ->
  scrape_ips w url force_dns maxsize
  = after [Getaddrinfo host 80; Stdout (AddressSet dns_results)]
      (if force_dns then ret (dns_only host (elements dns_results) None None)
       else
         emit (HttpGet target);;
         r <- call (requests_get w target 10 true REQUESTS_HEADERS);;
         raise_for_status r;;
         scan_response w dns_results host r maxsize).
Proof.
  intros [parts entries addresses Hurl -> -> Hgai Hall ->].
  unfold scrape_ips. rewrite Hurl. cbn [or_raise]. rewrite bind_ret.
  fold (netloc_of parts url). fold (request_url parts url).
  rewrite bind_emit_after, Hgai. cbn [call].
  rewrite bind_ret, (ip_addresses_all _ _ Hall), bind_ret, bind_print_after.
  rewrite after_after. reflexivity.
Qed.

(** *** X7 — a response with an error status.
    When the server answers with a status from 400 to 599, the run ends
    with the HTTP error right after the request: the headers are not
    looked at and the body is not read. *)
Theorem scrape_ips_http_error
    (url host target : string) (dns_results : gset ipaddr) (r : response)
    (maxsize : Z) :
  resolves w url host target dns_results ->
  requests_get w target 10 true REQUESTS_HEADERS = inr r ->
  400 <= status_code r < 600 ->
  scrape_ips w url false maxsize
  = ([Getaddrinfo host 80; Stdout (AddressSet dns_results); HttpGet target],
     Raises (HTTPError (status_code r))).
Proof.
  intros Hres Hget [Hlo Hhi].
  rewrite (scrape_ips_resolved _ _ _ _ _ _ Hres).
  rewrite bind_emit_after, Hget. cbn [call]. rewrite bind_ret.
  unfold raise_for_status.
  apply Z.leb_le in Hlo. apply Z.ltb_lt in Hhi. rewrite Hlo, Hhi.
  cbn [andb]. rewrite bind_raise. reflexivity.
Qed.

(** *** X8 — a host name that does not resolve.
    When the lookup of the host fails, the run ends with that error in
    either mode; the lookup is all it has done: nothing is printed and no
    request is made. *)
Theorem scrape_ips_lookup_fails
    (url : string) (parts : url_parts) (e : library_error)
    (force_dns : bool) (maxsize : Z) :
  urlparse w url = Some parts ->
  getaddrinfo w (netloc_of parts url) 80 = inl e ->
  scrape_ips w url force_dns maxsize
  = ([Getaddrinfo (netloc_of parts url) 80], Raises (Library e)).
Proof.
  intros Hurl Hgai. unfold scrape_ips. rewrite Hurl. cbn [or_raise].
  rewrite bind_ret. fold (netloc_of parts url).
  rewrite bind_emit_after, Hgai. cbn [call].
  rewrite bind_raise, after_raise. reflexivity.
Qed.

(** Within the budget the size check lets the run go on to the body. *)
Lemma scan_response_within_budget (dns_results : gset ipaddr) (host : string)
    (r : response) (maxsize : Z) :
  within_budget r maxsize ->
  scan_response w dns_results host r maxsize
  = (text <- read_chunks maxsize (iter_content r maxsize) 0 None;;
     text <- or_raise (UnboundLocalError "text") text;;
     ipv4 <- classify_ipv4 w dns_results host (re.finditer IP4_RE text) None;;
     ipv6 <- classify_ipv6 w dns_results host (re.finditer IP6_RE text) None;;
     py_assert (truthy ipv4 || truthy ipv6);;
     ret (ipv4, ipv6)).
Proof.
  unfold within_budget, scan_response. intros Hbudget.
  destruct (content_length r) as [header|].
  - destruct Hbudget as [_ [declared [Hint Hle]]]. rewrite Hint. cbn [or_raise].
    rewrite bind_ret.
    replace (maxsize <? declared) with false by (symmetry; apply Z.ltb_ge; lia).
    reflexivity.
  - rewrite bind_ret.
    replace (maxsize <? 0) with false by (symmetry; apply Z.ltb_ge; lia).
    reflexivity.
Qed.

(** *** X9 — a response without body.
    When the response passes the checks of status and size (the header,
    if there is one, is in ASCII and an integer within the budget) and its
    body is empty, the loop over the chunks does not run once and the
    variable [text] stays unbound: the run ends with an
    [UnboundLocalError] at the first search, after one attempt to read. *)
Theorem scrape_ips_empty_body
    (url host target : string) (dns_results : gset ipaddr) (r : response)
    (maxsize : Z) :
  responds w url host target dns_results r ->
  within_budget r maxsize ->
  iter_content r maxsize = Eof ->
  scrape_ips w url false maxsize
  = ([Getaddrinfo host 80; Stdout (AddressSet dns_results); HttpGet target;
      ReadBody],
     Raises (UnboundLocalError "text")).
Proof.
  intros Hresp Hbudget Hbody.
  rewrite (scrape_ips_scraping _ _ _ _ _ _ _ Hresp).
  rewrite (scan_response_within_budget _ _ _ _ Hbudget), Hbody.
  reflexivity.
Qed.


(** *** The two loops over the candidates *)

(** The IPv4 loop passes over rejected candidates without a trace. *)
Lemma classify_ipv4_app (dns_results : gset ipaddr) (host : string)
    (passed : list string) (candidate : string) (rest : list string)
    (ipv4 ipv4' : option string) :
  Forall rejected passed ->
  classify_ipv4 w dns_results host (passed ++ candidate :: rest)%list ipv4
  = classify_ipv4 w dns_results host (candidate :: rest) ipv4'.
Proof.
  intros Hall. revert ipv4.
  induction Hall as [|c cs [b [Hb Hbg]] _ IH]; intros ipv4; [reflexivity|].
  cbn [app]. change (classify_ipv4 w dns_results host (c :: ?l) ipv4)
    with (ipaddr <- or_raise (ValueError_not_an_address c) (ipaddress.ip_address c);;
          if negb (ipaddress.is_global ipaddr)
          then classify_ipv4 w dns_results host l (Some c)
          else
            info <- get_ipinfo w c;;
            print (Line (c +:+ " ASN info: " +:+ info));;
            ret (Some (if bool_decide (ipaddr ∈ dns_results) then host else c))).
  rewrite Hb. cbn [or_raise]. rewrite bind_ret, Hbg. cbn [negb]. apply IH.
Qed.

(** *** X11 — the first globally routable IPv4 candidate decides.
    Candidates that are rejected before it leave no trace, candidates after
    it are not looked at: the loop looks the candidate up, prints the
    answer, and leaves the host name if the address is one of the
    resolved ones, the candidate itself if it is not. *)
Theorem classify_ipv4_first_global (dns_results : gset ipaddr) (host : string)
    (passed : list string) (candidate : string) (a : ipaddr)
    (rest : list string) (ipv4 : option string) :
  Forall rejected passed ->
  ipaddress.ip_address candidate = Some a ->
  ipaddress.is_global a = true ->
  classify_ipv4 w dns_results host (passed ++ candidate :: rest)%list ipv4
  = (info <- get_ipinfo w candidate;;
     print (Line (candidate +:+ " ASN info: " +:+ info));;
     ret (Some (if bool_decide (a ∈ dns_results) then host else candidate))).
Proof.
  intros Hall Hparse Hglobal.
  rewrite (classify_ipv4_app _ _ _ _ _ _ None Hall).
  cbn [classify_ipv4]. rewrite Hparse. cbn [or_raise].
  rewrite bind_ret, Hglobal. reflexivity.
Qed.

(** *** X12 — an IPv4 candidate that is no address.
    The IPv4 loop has no handler: at the first candidate that
    [ipaddress.ip_address] refuses (the pattern accepts a trailing dot,
    as in [1.2.3.4.]) the loop, and with it the run, ends with the
    [ValueError]; rejected candidates before it change nothing. *)
Theorem classify_ipv4_not_an_address (dns_results : gset ipaddr) (host : string)
    (passed : list string) (candidate : string)
    (rest : list string) (ipv4 : option string) :
  Forall rejected passed ->
  ipaddress.ip_address candidate = None ->
  classify_ipv4 w dns_results host (passed ++ candidate :: rest)%list ipv4
  = raise (ValueError_not_an_address candidate).
Proof.
  intros Hall Hparse.
  rewrite (classify_ipv4_app _ _ _ _ _ _ None Hall).
  cbn [classify_ipv4]. rewrite Hparse. reflexivity.
Qed.

Lemma bind_after {A B} (t : list event) (m : M A) (k : A -> M B) :
  bind (after t m) k = after t (bind m k).
Proof.
  destruct m as [t' [a|e]]; unfold after, bind, trace, result; cbn [fst snd];
    [|reflexivity].
  destruct (k a) as [t'' r]. cbn [fst snd]. rewrite List.app_assoc. reflexivity.
Qed.

Lemma after_nil {A} (m : M A) : after [] m = m.
Proof. destruct m. reflexivity. Qed.

Lemma skipping_cons (c : string) (cs : list string) :
  skipping (c :: cs)
  = (match ipaddress.ip_address c with
     | None => [Stdout (SkippingInvalid c (ValueError_not_an_address c))]
     | Some _ => []
     end ++ skipping cs)%list.
Proof. unfold skipping. cbn. destruct (ipaddress.ip_address c); reflexivity. Qed.

(** The IPv6 loop passes over candidates that are not globally routable:
    it prints a line for each one that is no address. *)
Lemma classify_ipv6_app (dns_results : gset ipaddr) (host : string)
    (passed rest : list string) (ipv6 : option string) :
  Forall (fun candidate => globally_routable candidate = false) passed ->
  classify_ipv6 w dns_results host (passed ++ rest)%list ipv6
  = after (skipping passed)
          (classify_ipv6 w dns_results host rest (left_over passed ipv6)).
Proof.
  intros Hall. revert ipv6.
  induction Hall as [|c cs Hc _ IH]; intros ipv6.
  - cbn [app]. symmetry. apply after_nil.
  - unfold globally_routable in Hc.
    rewrite skipping_cons. unfold left_over. cbn [app classify_ipv6 fold_left].
    fold (left_over cs).
    destruct (ipaddress.ip_address c) as [b|] eqn:Hb.
    + cbn [or_raise]. rewrite bind_ret, Hc. cbn [negb].
      cbn [try_except_ValueError ret].
      change (@nil event, Returns (Some c, Continue)) with (ret (Some c, Continue)).
      rewrite bind_ret. apply IH.
    + cbn [or_raise]. rewrite bind_raise.
      cbn [try_except_ValueError raise is_ValueError].
      rewrite bind_print.
      cbn [trace result ret fst snd app].
      change ([Stdout (SkippingInvalid c (ValueError_not_an_address c))],
              @Returns (option string * flow) (None, Continue))
        with (after [Stdout (SkippingInvalid c (ValueError_not_an_address c))]
                (ret (@None string, Continue))).
      rewrite bind_after, bind_ret, IH, after_after. reflexivity.
Qed.

(** *** X13 — IPv6 candidates none of which is accepted.
    The IPv6 loop outlives a candidate that is no address: it prints a
    line about it, resets the variable and goes on.  When no candidate
    is globally routable the loop returns, having printed those lines and
    nothing else; the variable holds the last candidate if that one is an
    address, and [None] if it is not. *)
Theorem classify_ipv6_none_accepted (dns_results : gset ipaddr) (host : string)
    (candidates : list string) (ipv6 : option string) :
  Forall (fun candidate => globally_routable candidate = false) candidates ->
  classify_ipv6 w dns_results host candidates ipv6
  = (skipping candidates, Returns (left_over candidates ipv6)).
Proof.
  intros Hall.
  rewrite <- (app_nil_r candidates) at 1.
  rewrite (classify_ipv6_app _ _ _ _ _ Hall).
  cbn [classify_ipv6]. apply after_ret.
Qed.

(** *** X14 — the first globally routable IPv6 candidate decides.
    After the lines about earlier candidates that are no addresses, the
    loop looks the candidate up, prints the answer and leaves the host
    name if the address is one of the resolved ones, the candidate itself
    if it is not; candidates after it are not looked at. *)
Theorem classify_ipv6_first_global (dns_results : gset ipaddr) (host : string)
    (passed : list string) (candidate : string) (a : ipaddr)
    (rest : list string) (ipv6 : option string)
    (queries : list event) (info : string) :
  Forall (fun candidate => globally_routable candidate = false) passed ->
  ipaddress.ip_address candidate = Some a ->
  ipaddress.is_global a = true ->
  get_ipinfo w candidate = (queries, Returns info) ->
  classify_ipv6 w dns_results host (passed ++ candidate :: rest)%list ipv6
  = ((skipping passed ++ queries
        ++ [Stdout (Line (candidate +:+ " ASN info: " +:+ info))])%list,
     Returns (Some (if bool_decide (a ∈ dns_results) then host else candidate))).
Proof.
  intros Hall Hparse Hglobal Hinfo.
  rewrite (classify_ipv6_app _ _ _ _ _ Hall).
  cbn [classify_ipv6]. rewrite Hparse. cbn [or_raise].
  rewrite bind_ret, Hglobal. cbn [negb]. rewrite Hinfo.
  unfold after, bind, print, emit, ret, try_except_ValueError, trace, result.
  cbn [fst snd]. rewrite !app_nil_r. reflexivity.
Qed.

(** *** The loop over the chunks *)

Lemma body_reads_emit_ReadBody {A} (m : M A) :
  body_reads (emit ReadBody;; m) = S (body_reads m).
Proof. rewrite bind_emit_after. reflexivity. Qed.

Lemma read_chunks_reads (maxsize : Z) (stream : body) (total_length : Z)
    (text : option string) :
  every_chunk has_text stream = true ->
  (body_reads (read_chunks maxsize stream total_length text)
   <= Z.to_nat (maxsize - total_length + 1) + 1)%nat.
Proof.
  revert total_length text.
  induction stream as [|chunk rest IH|e]; intros total_length text Hchunks;
    cbn [read_chunks]; rewrite body_reads_emit_ReadBody.
  - cbn. lia.
  - cbn [every_chunk] in Hchunks. apply andb_true_iff in Hchunks.
    destruct Hchunks as [Hchunk Hrest].
    unfold has_text in Hchunk. apply Z.ltb_lt in Hchunk.
    destruct (maxsize <? total_length) eqn:Hover.
    + cbn. lia.
    + apply Z.ltb_ge in Hover.
      specialize (IH (total_length + codecs.len (codecs.decode_ignore chunk))
                     (Some (codecs.decode_ignore chunk)) Hrest).
      lia.
  - cbn. lia.
Qed.

(** *** X15 — the reading of the body is bounded.
    When every chunk decodes to some text, the loop asks the response for
    a chunk at most [maxsize + 2] times, however long the body is: each
    chunk kept adds to the running length, and the loop is left at the
    first chunk that comes once the length exceeds the budget. *)
Theorem read_chunks_bounded (maxsize : Z) (stream : body) :
  0 <= maxsize ->
  every_chunk has_text stream = true ->
  (body_reads (read_chunks maxsize stream 0 None) <= Z.to_nat maxsize + 2)%nat.
Proof.
  intros Hmax Hchunks.
  pose proof (read_chunks_reads maxsize stream 0 None Hchunks) as Hreads.
  lia.
Qed.

(** *** X16 — chunks without text do not count.
    The running length counts decoded characters, not bytes: chunks that
    decode to the empty text (bytes that are no UTF-8) leave it at zero,
    and the loop reads every one of them, to the end of the body,
    whatever the budget. *)
Theorem read_chunks_without_text (maxsize : Z) (chunks : list string) :
  0 <= maxsize ->
  Forall (fun chunk => codecs.decode_ignore chunk = "") chunks ->
  read_chunks maxsize (stream_of chunks) 0 None
  = (replicate (S (length chunks)) ReadBody,
     Returns (match chunks with [] => None | _ => Some "" end)).
Proof.
  intros Hmax Hall.
  assert (forall text,
            read_chunks maxsize (stream_of chunks) 0 text
            = (replicate (S (length chunks)) ReadBody,
               Returns (match chunks with [] => text | _ => Some "" end)))
    as Hgen; [|apply Hgen].
  induction Hall as [|chunk chunks Hchunk _ IH]; intros text.
  - reflexivity.
  - cbn [stream_of fold_right read_chunks]. fold (stream_of chunks).
    rewrite bind_emit_after.
    replace (maxsize <? 0) with false by (symmetry; apply Z.ltb_ge; lia).
    rewrite Hchunk. change (0 + codecs.len "") with 0.
    rewrite IH. unfold after, trace, result. cbn [fst snd length replicate app].
    destruct chunks; reflexivity.
Qed.

End ScraperMore.

(** *** X17 — the queries of the ASN lookup.
    Whatever the resolver does, [get_ipinfo] either raises a [ValueError]
    without having made a query, or makes one query and no more: the TXT
    query for the name of the address under [origin.asn.cymru.com] or
    [origin6.asn.cymru.com]. *)
Theorem get_ipinfo_one_query (w : world) (ip : string) :
  (exists e, get_ipinfo w ip = raise e /\ is_ValueError e = true)
  \/ (exists a, ipaddress.ip_address ip = Some a
                /\ trace (get_ipinfo w ip) = [ResolveTXT (origin_name a)]).
Proof.
  unfold get_ipinfo.
  destruct (ipaddress.ip_address ip) as [a|] eqn:Hparse.
  2:{ left. eexists. split; reflexivity. }
  cbn [or_raise]. rewrite bind_ret.
  destruct (ipaddress.reverse_pointer a) as [rp|] eqn:Hrp.
  2:{ left. eexists. split; reflexivity. }
  right. exists a. split; [reflexivity|].
  cbn [or_raise]. rewrite bind_ret, (query_of_reverse_pointer a rp Hrp).
  rewrite bind_emit_after.
  destruct (dns_resolve w (origin_name a) "TXT") as [[? ?|? ?]|[|? ?]];
    reflexivity.
Qed.

(** ** [get_field] and [main] *)

Lemma reads_nothing_ret {A} (a : A) : reads_nothing (console_ret a).
Proof.
  intros stdin. split; [constructor|].
  intros a' unread [= _ ->]. reflexivity.
Qed.

Lemma reads_nothing_bind {A B} (m : Console A) (k : A -> Console B) :
  reads_nothing m ->
  (forall a stdin, console_end (m stdin) = Finished a stdin -> reads_nothing (k a)) ->
  reads_nothing (console_bind m k).
Proof.
  intros Hm Hk stdin. unfold console_bind.
  destruct (Hm stdin) as [Htrace Hend].
  destruct (m stdin) as [t [a unread|e]] eqn:Hrun; cbn [console_trace console_end fst snd] in *.
  - pose proof (Hend a unread eq_refl) as ->.
    assert (reads_nothing (k a)) as Hka.
    { apply (Hk a stdin). rewrite Hrun. reflexivity. }
    destruct (Hka stdin) as [Htrace' Hend'].
    destruct (k a stdin) as [t' r]. cbn [console_trace console_end fst snd] in *.
    split; [apply Forall_app; split; assumption | exact Hend'].
  - split; [exact Htrace | discriminate].
Qed.

Lemma reads_nothing_script {A} (m : M A) : reads_nothing (script m).
Proof.
  intros stdin. unfold script. destruct m as [t [a|e]];
    cbn [console_trace console_end fst snd].
  - split; [|intros a' unread [= _ ->]; reflexivity].
    induction t; constructor; [reflexivity | assumption].
  - split; [|discriminate].
    induction t; constructor; [reflexivity | assumption].
Qed.

Lemma reads_nothing_ScrapedIPs (ips : option string * option string) :
  reads_nothing (console_emit (ScrapedIPs ips)).
Proof.
  intros stdin. split; [repeat constructor|].
  intros a unread [= _ ->]. reflexivity.
Qed.

Lemma get_field_given (desc : string) (prefilled : option string) :
  truthy prefilled = true ->
  get_field desc prefilled = console_ret (default EmptyString prefilled).
Proof.
  destruct prefilled as [value|]; [|discriminate].
  cbn [truthy get_field default]. intros ->. reflexivity.
Qed.

Lemma console_end_ret {A} (a a' : A) (stdin unread : list string) :
  console_end (console_ret a stdin) = Finished a' unread -> a' = a.
Proof. intros [= -> _]. reflexivity. Qed.

Section MainFacts.

Variable w : world.
Variable countries : gmap string country_entry.

Lemma reads_nothing_block (label : string) (address : option string)
    (entry_name isp country province city : string) :
  reads_nothing (block countries label address entry_name isp country province city).
Proof.
  unfold block. destruct address as [address'|]; [|apply reads_nothing_ret].
  destruct (PyStr.truthy address'); [|apply reads_nothing_ret].
  apply reads_nothing_bind; [apply reads_nothing_script|].
  intros _ _ _. apply reads_nothing_script.
Qed.

(** *** X18 — a run with every answer on the command line.
    When the URL is given, and with it the country, the entry name and
    the provider, the province if the country is [CA] or [US] and the
    city unless it is [SG], [HK] or [MO], [main] asks nothing: no prompt
    is written and no line of the terminal is read.  Stated for a country
    code in ASCII, where [PyStr.upper] is [str.upper]. *)
Theorem main_all_given (a : args.t) :
  truthy (args.url a) = true ->
  isascii (default EmptyString (args.country a)) = true ->
  all_given a = true ->
  reads_nothing (main w countries a).
Proof.
  intros Hurl _ Hgiven. unfold all_given in Hgiven.
  repeat (apply andb_true_iff in Hgiven; destruct Hgiven as [Hgiven ?]).
  unfold main. rewrite Hurl.
  apply reads_nothing_bind.
  { apply reads_nothing_bind; [apply reads_nothing_script|].
    intros ips _ _. apply reads_nothing_bind; [apply reads_nothing_ScrapedIPs|].
    intros _ _ _. apply reads_nothing_ret. }
  intros [ipv4 ipv6] _ _.
  rewrite !get_field_given by assumption.
  apply reads_nothing_bind; [apply reads_nothing_ret|].
  intros country stdin Hcountry. apply console_end_ret in Hcountry. subst country.
  apply reads_nothing_bind.
  { destruct (PyStr.in_tuple _ ["CA"; "US"]) eqn:Hstates; [|apply reads_nothing_ret].
    cbn [negb orb] in *.
    rewrite get_field_given by assumption.
    apply reads_nothing_bind; [apply reads_nothing_ret|].
    intros ? _ _. apply reads_nothing_ret. }
  intros province _ _.
  apply reads_nothing_bind.
  { destruct (PyStr.in_tuple _ ["SG"; "HK"; "MO"]) eqn:Hcities;
      [apply reads_nothing_ret|].
    cbn [negb orb] in *.
    rewrite get_field_given by assumption.
    apply reads_nothing_ret. }
  intros city _ _.
  apply reads_nothing_bind;
    [rewrite get_field_given by assumption; apply reads_nothing_ret|].
  intros entry_name _ _.
  apply reads_nothing_bind;
    [rewrite get_field_given by assumption; apply reads_nothing_ret|].
  intros isp _ _.
  apply reads_nothing_bind; [apply reads_nothing_block|]. intros _ _ _.
  apply reads_nothing_block.
Qed.

(** *** X19 — a scrape that fails.
    When the URL is given and [scrape_ips] raises, [main] ends with that
    exception: it has done what the scraper did and nothing else, no
    question is asked and no entry written. *)
Theorem main_scrape_raises (a : args.t) (stdin : list string)
    (t : list event) (e : exn) :
  truthy (args.url a) = true ->
  scrape_ips w (default EmptyString (args.url a)) (args.force_dns a) 65536
  = (t, Raises e) ->
  main w countries a stdin = (map Ran t, Aborted (Raised e)).
Proof.
  intros Hurl Hscrape. unfold main. rewrite Hurl.
  unfold console_bind at 1. unfold console_bind at 1.
  unfold script at 1. rewrite Hscrape. reflexivity.
Qed.

(** *** X20 — a malformed IPv4 address at the prompt.
    Without URL, [main] asks for the IPv4 address first and checks it
    before it asks anything else: a non-blank answer that is no IPv4
    address ends the run with the error of [ipaddress.IPv4Address], after
    that one prompt.  Stated for an answer in ASCII, where [PyStr.strip] is
    [str.strip]. *)
Theorem main_malformed_ipv4 (a : args.t) (line : string) (unread : list string) :
  truthy (args.url a) = false ->
  isascii line = true ->
  PyStr.truthy (PyStr.strip line) = true ->
  ipaddress.IPv4Address_of_str (PyStr.strip line) = None ->
  main w countries a (line :: unread)
  = ([Input "IPv4 address: "],
     Aborted (AddressValueError_literal (PyStr.strip line))).
Proof.
  intros Hurl _ Hanswer Hparse. unfold main. rewrite Hurl.
  unfold console_bind, input. rewrite Hanswer, Hparse. reflexivity.
Qed.






End MainFacts.

(** ** The two patterns *)

Module PatternFacts.

Lemma all_chars_app (P : ascii -> bool) (s t : string) :
  ipaddress.all_chars P (s +:+ t) = ipaddress.all_chars P s && ipaddress.all_chars P t.
Proof.
  induction s as [|c s IH]; [reflexivity|].
  rewrite ReplaceFacts.append_cons. cbn [ipaddress.all_chars].
  rewrite IH, andb_assoc. reflexivity.
Qed.

Lemma all_chars_rev_onto (P : ascii -> bool) (s acc : string) :
  ipaddress.all_chars P (PyStr.rev_onto s acc)
  = ipaddress.all_chars P s && ipaddress.all_chars P acc.
Proof.
  revert acc. induction s as [|c s IH]; intros acc; [reflexivity|].
  cbn [PyStr.rev_onto ipaddress.all_chars]. rewrite IH.
  cbn [ipaddress.all_chars].
  destruct (P c), (ipaddress.all_chars P s); reflexivity.
Qed.

Lemma extends_refl (P : ascii -> bool) (c : re.cursor) : extends P c c.
Proof. exists EmptyString. split; reflexivity. Qed.

Lemma extends_trans (P : ascii -> bool) (c1 c2 c3 : re.cursor) :
  extends P c1 c2 -> extends P c2 c3 -> extends P c1 c3.
Proof.
  intros [s [Hs Hs']] [t [Ht Ht']]. exists (t +:+ s). split.
  - rewrite all_chars_app, Hs, Ht. reflexivity.
  - rewrite Ht', Hs', append_assoc. reflexivity.
Qed.

Lemma extends_step (P : ascii -> bool) (a : ascii) (rest : string) (c : re.cursor) :
  P a = true -> extends P c (re.step a rest c).
Proof.
  intros Ha. exists (String a EmptyString). split; [|reflexivity].
  cbn [ipaddress.all_chars]. rewrite Ha. reflexivity.
Qed.

(** A greedy repetition that succeeds has taken characters of the class
    and handed over to its continuation. *)
Lemma greedy_extends (P p : ascii -> bool) (text : string) :
  (forall a, p a = true -> P a = true) ->
  forall lo hi k c found,
    re.greedy p lo hi k c text = Some found ->
    exists c', extends P c c' /\ k c' = Some found.
Proof.
  intros Hp. induction text as [|a rest IH]; intros lo hi k c found Hrun;
    cbn [re.greedy] in Hrun.
  - destruct lo; [|discriminate]. exists c. split; [apply extends_refl | exact Hrun].
  - assert (match lo with O => k c | S _ => None end = Some found ->
            exists c', extends P c c' /\ k c' = Some found) as Hstop.
    { destruct lo; [|discriminate]. intros Hk. exists c.
      split; [apply extends_refl | exact Hk]. }
    destruct (p a && match hi with Some O => false | _ => true end) eqn:Htake;
      [|apply Hstop; exact Hrun].
    destruct (re.greedy p (Nat.pred lo) (Nat.pred <$> hi) k (re.step a rest c) rest)
      as [found'|] eqn:Hmore; [|apply Hstop; exact Hrun].
    injection Hrun as ->.
    apply IH in Hmore. destruct Hmore as [c' [Hext Hk]].
    exists c'. split; [|exact Hk].
    apply andb_true_iff in Htake. destruct Htake as [Ha _].
    apply (extends_trans P c (re.step a rest c) c'); [|exact Hext].
    apply extends_step. apply Hp. exact Ha.
Qed.

(** A run that succeeds has taken characters of the classes of its
    pattern and handed over to its continuation. *)
Lemma run_extends (P : ascii -> bool) (r : re.regex) :
  drawn_from P r ->
  forall k c found,
    re.run r k c = Some found ->
    exists c', extends P c c' /\ k c' = Some found.
Proof.
  induction r as [|p|r1 IH1 r2 IH2|r1 IH1 r2 IH2|r1 IH1|n r1 IH1|lo hi p|p|];
    intros Hr k c found Hrun; cbn [re.run] in Hrun; cbn [drawn_from] in Hr.
  - exists c. split; [apply extends_refl | exact Hrun].
  - destruct (re.ahead c) as [|a rest]; [discriminate|].
    destruct (p a) eqn:Ha; [|discriminate].
    exists (re.step a rest c). split; [|exact Hrun].
    apply extends_step. apply Hr. exact Ha.
  - destruct Hr as [Hr1 Hr2].
    apply (IH1 Hr1) in Hrun. destruct Hrun as [c1 [Hext1 Hrun]].
    apply (IH2 Hr2) in Hrun. destruct Hrun as [c2 [Hext2 Hk]].
    exists c2. split; [|exact Hk]. apply (extends_trans P c c1 c2); assumption.
  - destruct Hr as [Hr1 Hr2].
    destruct (re.run r1 k c) as [found'|] eqn:Hfirst.
    + injection Hrun as ->. apply (IH1 Hr1 _ _ _ Hfirst).
    + apply (IH2 Hr2 _ _ _ Hrun).
  - destruct (re.run r1 k c) as [found'|] eqn:Hfirst.
    + injection Hrun as ->. apply (IH1 Hr _ _ _ Hfirst).
    + exists c. split; [apply extends_refl | exact Hrun].
  - revert k c Hrun. induction n as [|n IHn]; intros k c Hrun.
    + exists c. split; [apply extends_refl | exact Hrun].
    + apply (IH1 Hr) in Hrun. destruct Hrun as [c1 [Hext1 Hrun]].
      apply IHn in Hrun. destruct Hrun as [c2 [Hext2 Hk]].
      exists c2. split; [|exact Hk]. apply (extends_trans P c c1 c2); assumption.
  - apply (greedy_extends P p _ Hr _ _ _ _ _ Hrun).
  - apply (greedy_extends P p _ Hr _ _ _ _ _ Hrun).
  - destruct (xorb _ _); [|discriminate].
    exists c. split; [apply extends_refl | exact Hrun].
Qed.

(** What [pattern.match] returns satisfies whatever every successful run
    from an empty cursor ensures of the characters taken. *)
Lemma match_at_taken (Q : string -> Prop) (r : re.regex) :
  (forall prev text found,
      re.run r Some {| re.before := prev; re.taken := ""; re.ahead := text |}
      = Some found ->
      Q (PyStr.reversed (re.taken found))) ->
  forall prev text m, re.match_at r prev text = Some m -> Q m.
Proof.
  intros Hrun prev text m. unfold re.match_at.
  destruct (re.run r Some _) as [found|] eqn:Hfound; [|discriminate].
  intros [= <-]. apply (Hrun _ _ _ Hfound).
Qed.

(** What holds of every match at a position holds of every candidate. *)
Lemma scan_matches (Q : string -> Prop) (r : re.regex) :
  (forall prev text m, re.match_at r prev text = Some m -> Q m) ->
  forall text skip prev, Forall Q (re.scan r skip prev text).
Proof.
  intros Hmatch. induction text as [|a rest IH]; intros skip prev.
  - cbn [re.scan]. destruct skip; [|constructor].
    destruct (re.match_at r prev "") as [m|] eqn:Hm; [|constructor].
    constructor; [apply (Hmatch _ _ _ Hm) | constructor].
  - cbn [re.scan]. destruct skip; [|apply IH].
    destruct (re.match_at r prev (String a rest)) as [m|] eqn:Hm; [|apply IH].
    constructor; [apply (Hmatch _ _ _ Hm) | apply IH].
Qed.

Lemma finditer_drawn_from (P : ascii -> bool) (r : re.regex) (text : string) :
  drawn_from P r ->
  Forall (fun m => ipaddress.all_chars P m = true) (re.finditer r text).
Proof.
  intros Hr. apply scan_matches. apply match_at_taken.
  intros prev text' found Hrun.
  apply (run_extends P r Hr) in Hrun. destruct Hrun as [c' [[s [Hs Htaken]] [= ->]]].
  cbn [re.taken] in Htaken. rewrite Htaken, ReplaceFacts.append_empty_r.
  unfold PyStr.reversed. rewrite all_chars_rev_onto, Hs. reflexivity.
Qed.

Lemma IP4_RE_dotted_decimal : drawn_from dotted_decimal IP4_RE.
Proof.
  cbn. repeat split; intros [[] [] [] [] [] [] [] []]; cbn; (reflexivity || discriminate).
Qed.

Lemma IP6_RE_colon_hex : drawn_from colon_hex IP6_RE.
Proof.
  cbn. repeat split; intros [[] [] [] [] [] [] [] []]; cbn; (reflexivity || discriminate).
Qed.

Lemma all_chars_lacks (P : ascii -> bool) (c0 : ascii) (s : string) :
  P c0 = false -> ipaddress.all_chars P s = true -> lacks c0 s = true.
Proof.
  intros Hc0. induction s as [|c s IH]; [reflexivity|].
  cbn [ipaddress.all_chars lacks]. intros Hall.
  apply andb_true_iff in Hall. destruct Hall as [Hc Hs].
  rewrite (IH Hs), andb_true_r.
  destruct (Ascii.eqb_spec c c0) as [->|]; [congruence | reflexivity].
Qed.

Lemma lacks_rev_onto (c0 : ascii) (s acc : string) :
  lacks c0 (PyStr.rev_onto s acc) = lacks c0 s && lacks c0 acc.
Proof.
  revert acc. induction s as [|c s IH]; intros acc; [reflexivity|].
  cbn [PyStr.rev_onto lacks]. rewrite IH. cbn [lacks].
  destruct (negb (Ascii.eqb c c0)), (lacks c0 s); reflexivity.
Qed.

(** Without a percent sign there is no scope id to split off. *)
Lemma partition_percent_lacks (s : string) :
  lacks "%" s = true -> ipaddress.partition_percent s = (s, None).
Proof.
  induction s as [|c s IH]; [reflexivity|].
  cbn [lacks ipaddress.partition_percent]. intros Hs.
  apply andb_true_iff in Hs. destruct Hs as [Hc Hs].
  apply negb_true_iff in Hc. rewrite Hc, (IH Hs). reflexivity.
Qed.

(** Without the separator there is one part. *)
Lemma split_lacks (sep : ascii) (s : string) :
  lacks sep s = true -> PyStr.split sep s = [s].
Proof.
  induction s as [|c s IH]; [reflexivity|].
  cbn [lacks PyStr.split]. intros Hs.
  apply andb_true_iff in Hs. destruct Hs as [Hc Hs].
  apply negb_true_iff in Hc. rewrite Hc, (IH Hs). reflexivity.
Qed.

(** The parts of a string and the separator make up the string. *)
Lemma split_all_chars (P : ascii -> bool) (sep : ascii) (s : string) :
  Forall (fun part => ipaddress.all_chars P part = true) (PyStr.split sep s) ->
  ipaddress.all_chars (fun c => P c || Ascii.eqb c sep) s = true.
Proof.
  induction s as [|c s IH]; [reflexivity|].
  cbn [PyStr.split ipaddress.all_chars].
  destruct (Ascii.eqb c sep) eqn:Hc.
  - intros Hparts. inversion Hparts as [|? ? _ Hrest]; subst.
    rewrite orb_true_r. apply IH. exact Hrest.
  - destruct (PyStr.split sep s) as [|h t] eqn:Hsplit.
    + intros Hparts. inversion Hparts as [|? ? Hhead _]; subst.
      cbn [ipaddress.all_chars] in Hhead.
      apply andb_true_iff in Hhead. destruct Hhead as [HPc _].
      rewrite HPc. apply IH. constructor.
    + intros Hparts. inversion Hparts as [|? ? Hhead Hrest]; subst.
      cbn [ipaddress.all_chars] in Hhead.
      apply andb_true_iff in Hhead. destruct Hhead as [HPc Hh].
      rewrite HPc. apply IH. constructor; assumption.
Qed.

Lemma parse_octet_digits (octet_str : string) (n : N) :
  ipaddress.parse_octet octet_str = Some n ->
  ipaddress.all_chars PyStr.isdigit octet_str = true.
Proof.
  unfold ipaddress.parse_octet. destruct octet_str as [|c0 s]; [discriminate|].
  destruct (ipaddress.all_chars PyStr.isdigit (String c0 s)); [reflexivity|].
  discriminate.
Qed.

(** A string that [IPv4Address] accepts consists of digits and dots. *)
Lemma IPv4Address_of_str_dotted_decimal (address : string) (a : ipaddr) :
  ipaddress.IPv4Address_of_str address = Some a ->
  ipaddress.all_chars dotted_decimal address = true
  /\ ipaddress.is_IPv4Address a = true.
Proof.
  unfold ipaddress.IPv4Address_of_str.
  destruct (PyStr.contains "/" address); [discriminate|].
  destruct (ipaddress.ipv4_int_from_string address) as [ip|] eqn:Hint;
    [|discriminate].
  intros [= <-]. split; [|reflexivity].
  unfold ipaddress.ipv4_int_from_string in Hint.
  destruct address as [|c0 s]; [discriminate|].
  apply (split_all_chars PyStr.isdigit ".").
  destruct (PyStr.split "." (String c0 s)) as [|o1 [|o2 [|o3 [|o4 [|o5 os]]]]];
    try discriminate.
  destruct (ipaddress.parse_octet o1) eqn:H1; [|discriminate].
  destruct (ipaddress.parse_octet o2) eqn:H2; [|discriminate].
  destruct (ipaddress.parse_octet o3) eqn:H3; [|discriminate].
  destruct (ipaddress.parse_octet o4) eqn:H4; [|discriminate].
  repeat constructor; eapply parse_octet_digits; eassumption.
Qed.

(** A string without a colon is no IPv6 address. *)
Lemma IPv6Address_of_str_lacks_colon (address : string) :
  lacks ":" address = true -> ipaddress.IPv6Address_of_str address = None.
Proof.
  intros Hcolon. unfold ipaddress.IPv6Address_of_str.
  destruct (PyStr.contains "/" address); [reflexivity|].
  assert (ipaddress.ipv6_int_from_string address = None) as Hnone.
  { unfold ipaddress.ipv6_int_from_string.
    destruct (ipaddress.is_empty address); [reflexivity|].
    rewrite (split_lacks _ _ Hcolon). reflexivity. }
  assert (forall addr_str scope,
             ipaddress.partition_percent address = (addr_str, scope) ->
             lacks ":" addr_str = true) as Hpart.
  { clear Hnone. induction address as [|c s IH]; intros addr_str scope.
    - intros [= <- _]. reflexivity.
    - cbn [ipaddress.partition_percent lacks] in *.
      apply andb_true_iff in Hcolon. destruct Hcolon as [Hc Hs].
      destruct (Ascii.eqb c "%"); [intros [= <- _]; reflexivity|].
      destruct (ipaddress.partition_percent s) as [a r].
      intros [= <- _]. cbn [lacks]. rewrite Hc. apply (IH Hs a r). reflexivity. }
  destruct (ipaddress.partition_percent address) as [addr_str scope] eqn:Hsplit.
  assert (ipaddress.ipv6_int_from_string addr_str = None) as Hnone'.
  { unfold ipaddress.ipv6_int_from_string.
    destruct (ipaddress.is_empty addr_str); [reflexivity|].
    rewrite (split_lacks _ _ (Hpart _ _ eq_refl)). reflexivity. }
  rewrite Hnone'. destruct scope as [scope_id|]; [|reflexivity].
  destruct (_ || _); reflexivity.
Qed.

(** A string without a percent sign is no address with a scope id. *)
Lemma ip_address_lacks_percent (address : string) (a : ipaddr) :
  lacks "%" address = true ->
  ipaddress.ip_address address = Some a ->
  unscoped a.
Proof.
  intros Hpercent. unfold ipaddress.ip_address.
  destruct (ipaddress.IPv4Address_of_str address) as [a4|] eqn:H4.
  - intros [= <-]. apply IPv4Address_of_str_dotted_decimal in H4.
    destruct a4; [exact I | destruct H4; discriminate].
  - unfold ipaddress.IPv6Address_of_str.
    destruct (PyStr.contains "/" address); [discriminate|].
    rewrite (partition_percent_lacks _ Hpercent).
    destruct (ipaddress.ipv6_int_from_string address); [|discriminate].
    intros [= <-]. exact I.
Qed.

(** A match of the IPv6 pattern has a colon. *)
Lemma IP6_RE_colon (prev : option ascii) (text m : string) :
  re.match_at IP6_RE prev text = Some m -> lacks ":" m = false.
Proof.
  apply (match_at_taken (fun m => lacks ":" m = false)).
  clear. intros prev text found Hrun.
  unfold IP6_RE in Hrun. cbn [re.run] in Hrun.
  apply (greedy_extends (fun _ => true)) in Hrun; [|reflexivity].
  destruct Hrun as [c1 [_ Hrun]]. cbn [re.run re.lit] in Hrun.
  destruct (re.ahead c1) as [|a rest]; [discriminate|].
  destruct (Ascii.eqb_spec ":" a) as [<-|]; [|discriminate].
  apply (greedy_extends (fun _ => true)) in Hrun; [|reflexivity].
  destruct Hrun as [c2 [[s [_ Htaken]] [= ->]]].
  cbn [re.taken re.step] in Htaken.
  unfold PyStr.reversed. rewrite lacks_rev_onto, Htaken, ReplaceFacts.lacks_app.
  cbn [lacks]. rewrite Ascii.eqb_refl. cbn [negb andb].
  rewrite andb_false_r. reflexivity.
Qed.

End PatternFacts.

(** *** X22 — what the candidates of the IPv6 pattern are made of.
    Whatever the text, a candidate of the IPv6 pattern consists of digits,
    colons and characters from [A] to [f]. *)
Theorem finditer_IP6_RE_characters (text : string) :
  Forall (fun m => ipaddress.all_chars colon_hex m = true)
         (re.finditer IP6_RE text).
Proof.
  apply PatternFacts.finditer_drawn_from, PatternFacts.IP6_RE_colon_hex.
Qed.

(** *** X23 — what the candidates of the IPv4 pattern are made of.
    In a text in ASCII, where [\d] stands for the ten digits, a candidate
    of the IPv4 pattern consists of digits and dots. *)
Theorem finditer_IP4_RE_characters (text : string) :
  isascii text = true ->
  Forall (fun m => ipaddress.all_chars dotted_decimal m = true)
         (re.finditer IP4_RE text).
Proof.
  intros _.
  apply PatternFacts.finditer_drawn_from, PatternFacts.IP4_RE_dotted_decimal.
Qed.

(** *** X24 — the candidates of the IPv4 pattern.
    A candidate of the IPv4 pattern that [ipaddress.ip_address] accepts is
    an IPv4 address: a text of digits and dots has no colon, which every
    IPv6 address has. *)
Theorem finditer_IP4_RE_family (text candidate : string) (a : ipaddr) :
  In candidate (re.finditer IP4_RE text) ->
  ipaddress.ip_address candidate = Some a ->
  ipaddress.is_IPv4Address a = true.
Proof.
  intros Hin Hparse.
  pose proof (PatternFacts.finditer_drawn_from dotted_decimal IP4_RE text
                PatternFacts.IP4_RE_dotted_decimal) as Hchars.
  rewrite List.Forall_forall in Hchars. specialize (Hchars _ Hin).
  unfold ipaddress.ip_address in Hparse.
  destruct (ipaddress.IPv4Address_of_str candidate) as [a4|] eqn:H4.
  - injection Hparse as <-.
    apply (PatternFacts.IPv4Address_of_str_dotted_decimal _ _ H4).
  - rewrite PatternFacts.IPv6Address_of_str_lacks_colon in Hparse; [discriminate|].
    apply (PatternFacts.all_chars_lacks dotted_decimal); [reflexivity | exact Hchars].
Qed.

(** *** X25 — the candidates of the IPv6 pattern.
    A candidate of the IPv6 pattern that [ipaddress.ip_address] accepts is
    an IPv6 address without scope id: it has a colon, which no IPv4
    address has, and no percent sign. *)
Theorem finditer_IP6_RE_family (text candidate : string) (a : ipaddr) :
  In candidate (re.finditer IP6_RE text) ->
  ipaddress.ip_address candidate = Some a ->
  exists ip, a = IPv6Address ip None.
Proof.
  intros Hin Hparse.
  pose proof (PatternFacts.finditer_drawn_from colon_hex IP6_RE text
                PatternFacts.IP6_RE_colon_hex) as Hchars.
  pose proof (PatternFacts.scan_matches (fun m => lacks ":" m = false) IP6_RE
                PatternFacts.IP6_RE_colon text O None) as Hcolon.
  rewrite List.Forall_forall in Hchars, Hcolon.
  specialize (Hchars _ Hin). specialize (Hcolon _ Hin).
  assert (unscoped a) as Hscope.
  { apply (PatternFacts.ip_address_lacks_percent candidate); [|exact Hparse].
    apply (PatternFacts.all_chars_lacks colon_hex); [reflexivity | exact Hchars]. }
  unfold ipaddress.ip_address in Hparse.
  destruct (ipaddress.IPv4Address_of_str candidate) as [a4|] eqn:H4.
  - apply PatternFacts.IPv4Address_of_str_dotted_decimal in H4.
    destruct H4 as [Hdigits _].
    apply (PatternFacts.all_chars_lacks dotted_decimal ":") in Hdigits;
      [congruence | reflexivity].
  - unfold ipaddress.IPv6Address_of_str in Hparse.
    destruct (PyStr.contains "/" candidate); [discriminate|].
    destruct (ipaddress.partition_percent candidate) as [addr_str [scope_id|]].
    + destruct (_ || _); [discriminate|].
      destruct (ipaddress.ipv6_int_from_string addr_str); [|discriminate].
      injection Hparse as <-. contradiction.
    + destruct (ipaddress.ipv6_int_from_string addr_str) as [ip|]; [|discriminate].
      injection Hparse as <-. exists ip. reflexivity.
Qed.

(** ** The loops over the candidates of a text *)

Section LoopsOverText.

Variable w : world.
Hypothesis contract : resolver_contract w.

(** Under the contract of the resolver, the lookup of an address without
    scope id returns after its one query. *)
Lemma get_ipinfo_run (ip : string) (a : ipaddr) :
  ipaddress.ip_address ip = Some a ->
  unscoped a ->
  exists info, get_ipinfo w ip = ([ResolveTXT (origin_name a)], Returns info).
Proof.
  intros Hparse Hscope. unfold get_ipinfo.
  rewrite Hparse. cbn [or_raise]. rewrite bind_ret.
  destruct (ipaddress.reverse_pointer a) as [rp|] eqn:Hrp.
  2:{ destruct a as [? | ? [?|]]; [discriminate | contradiction | discriminate]. }
  cbn [or_raise]. rewrite bind_ret, (query_of_reverse_pointer a rp Hrp).
  rewrite bind_emit_after.
  pose proof (contract (origin_name a)) as Hanswer.
  destruct (dns_resolve w (origin_name a) "TXT")
    as [[class message | ? ?] | [|first others]]; try contradiction;
    eexists; reflexivity.
Qed.

Lemma classify_ipv6_unscoped (dns_results : gset ipaddr) (host : string)
    (candidates : list string) (ipv6 : option string) :
  Forall (fun candidate =>
            forall a, ipaddress.ip_address candidate = Some a -> unscoped a)
         candidates ->
  exists t ipv6',
    classify_ipv6 w dns_results host candidates ipv6 = (t, Returns ipv6').
Proof.
  intros Hall. revert ipv6.
  induction Hall as [|c cs Hc _ IH]; intros ipv6.
  - eexists. eexists. reflexivity.
  - cbn [classify_ipv6].
    destruct (ipaddress.ip_address c) as [a|] eqn:Hparse; cbn [or_raise].
    + rewrite bind_ret. destruct (ipaddress.is_global a) eqn:Hglobal; cbn [negb].
      * destruct (get_ipinfo_run c a Hparse (Hc a eq_refl)) as [info Hinfo].
        rewrite Hinfo. eexists. eexists. reflexivity.
      * cbn [try_except_ValueError ret].
        change (@nil event, Returns (Some c, Continue)) with (ret (Some c, Continue)).
        rewrite bind_ret. apply IH.
    + rewrite bind_raise. cbn [try_except_ValueError raise is_ValueError].
      rewrite bind_print. cbn [trace result ret fst snd app].
      destruct (IH None) as [t [ipv6' Hrest]].
      unfold bind. rewrite Hrest. eexists. eexists. reflexivity.
Qed.

(** *** X26 — the IPv6 loop does not abort.
    Under the contract of the resolver, whatever the text, the loop over
    the candidates of the IPv6 pattern returns: a candidate that is no
    address is skipped, and the lookup of one that is an address cannot
    fail, as a candidate has no scope id. *)
Theorem classify_ipv6_returns (dns_results : gset ipaddr) (host text : string)
    (ipv6 : option string) :
  exists t ipv6',
    classify_ipv6 w dns_results host (re.finditer IP6_RE text) ipv6
    = (t, Returns ipv6').
Proof.
  apply classify_ipv6_unscoped. apply List.Forall_forall.
  intros candidate Hin a Hparse.
  pose proof (PatternFacts.finditer_drawn_from colon_hex IP6_RE text
                PatternFacts.IP6_RE_colon_hex) as Hchars.
  rewrite List.Forall_forall in Hchars.
  apply (PatternFacts.ip_address_lacks_percent candidate); [|exact Hparse].
  apply (PatternFacts.all_chars_lacks colon_hex); [reflexivity|].
  apply Hchars. exact Hin.
Qed.

Lemma classify_ipv4_unscoped (dns_results : gset ipaddr) (host : string)
    (candidates : list string) (ipv4 : option string) :
  Forall (fun candidate =>
            forall a, ipaddress.ip_address candidate = Some a -> unscoped a)
         candidates ->
  (exists t ipv4',
      classify_ipv4 w dns_results host candidates ipv4 = (t, Returns ipv4'))
  \/ (exists candidate,
         In candidate candidates
         /\ ipaddress.ip_address candidate = None
         /\ classify_ipv4 w dns_results host candidates ipv4
            = raise (ValueError_not_an_address candidate)).
Proof.
  intros Hall. revert ipv4.
  induction Hall as [|c cs Hc _ IH]; intros ipv4.
  - left. eexists. eexists. reflexivity.
  - cbn [classify_ipv4].
    destruct (ipaddress.ip_address c) as [a|] eqn:Hparse; cbn [or_raise].
    + rewrite bind_ret. destruct (ipaddress.is_global a) eqn:Hglobal; cbn [negb].
      * left. destruct (get_ipinfo_run c a Hparse (Hc a eq_refl)) as [info Hinfo].
        rewrite Hinfo. eexists. eexists. reflexivity.
      * destruct (IH (Some c)) as [Hreturns | [c' [Hin [Hnone Hraises]]]];
          [left; exact Hreturns|].
        right. exists c'. repeat split; [right; exact Hin | exact Hnone | exact Hraises].
    + right. exists c. repeat split; [left; reflexivity | exact Hparse].
Qed.

(** *** X27 — how the IPv4 loop can abort.
    Under the contract of the resolver, for a text in ASCII (where [\d] and
    [\b] are those of the pattern), the loop over the candidates of the
    IPv4 pattern returns, or it raises the [ValueError] of a candidate
    that is no address, having written nothing; the lookup of a candidate
    does not fail. *)
Theorem classify_ipv4_returns_or_not_an_address
    (dns_results : gset ipaddr) (host text : string) (ipv4 : option string) :
  isascii text = true ->
  (exists t ipv4',
      classify_ipv4 w dns_results host (re.finditer IP4_RE text) ipv4
      = (t, Returns ipv4'))
  \/ (exists candidate,
         In candidate (re.finditer IP4_RE text)
         /\ ipaddress.ip_address candidate = None
         /\ classify_ipv4 w dns_results host (re.finditer IP4_RE text) ipv4
            = raise (ValueError_not_an_address candidate)).
Proof.
  intros _. apply classify_ipv4_unscoped. apply List.Forall_forall.
  intros candidate Hin a Hparse.
  pose proof (PatternFacts.finditer_drawn_from dotted_decimal IP4_RE text
                PatternFacts.IP4_RE_dotted_decimal) as Hchars.
  rewrite List.Forall_forall in Hchars.
  apply (PatternFacts.ip_address_lacks_percent candidate); [|exact Hparse].
  apply (PatternFacts.all_chars_lacks dotted_decimal); [reflexivity|].
  apply Hchars. exact Hin.
Qed.

End LoopsOverText.

(** ** The IPv4 pattern finds the addresses *)

Module DottedQuad.

Import PatternFacts.

Lemma nondigit_tests (c0 : ascii) :
  PyStr.isdigit c0 = false ->
  re.digit c0 = false /\ re.class "0" "5" c0 = false /\ re.class "0" "4" c0 = false
  /\ Ascii.eqb "5" c0 = false.
Proof.
  destruct c0 as [[] [] [] [] [] [] [] []]; cbn; intros H; try discriminate H;
    repeat split; reflexivity.
Qed.

Lemma word_digit (c0 : ascii) : re.is_word c0 = false -> PyStr.isdigit c0 = false.
Proof. unfold re.is_word. destruct (PyStr.isalpha c0), (PyStr.isdigit c0); auto. Qed.

Lemma digit_word (d : ascii) : PyStr.isdigit d = true -> re.is_word d = true.
Proof. unfold re.is_word. intros ->. apply orb_true_iff. left. apply orb_true_r. Qed.

Lemma below_256 (n : N) :
  (n < 256)%N -> exists m, (m < 256)%nat /\ n = N.of_nat m.
Proof. intros Hn. exists (N.to_nat n). split; lia. Qed.

(** Evaluation of the group on a text whose octet is known. *)
Ltac octet_literal :=
  match goal with
  | H : context [ipaddress.str_octet ?n] |- _ =>
      let s := eval vm_compute in (ipaddress.str_octet n) in
      change (ipaddress.str_octet n) with s in *
  end.

(** The group at the end of an address. *)
Lemma group_last (n : N) (k : re.cursor -> option re.cursor) (c : re.cursor)
    (post : string) (found : re.cursor) :
  (n < 256)%N ->
  ends_candidate post = true ->
  re.ahead c = ipaddress.str_octet n +:+ post ->
  k (advance (ipaddress.str_octet n) post c) = Some found ->
  re.run IP4_RE_group k c = Some found.
Proof.
  intros Hn Hpost Hahead Hk. destruct c as [bef tk ah]. cbn [re.ahead] in Hahead.
  subst ah. apply below_256 in Hn. destruct Hn as [m [Hm ->]].
  assert (forall c0 post', post = String c0 post' ->
            re.digit c0 = false /\ re.class "0" "5" c0 = false
            /\ re.class "0" "4" c0 = false /\ Ascii.eqb "5" c0 = false
            /\ Ascii.eqb "." c0 = false /\ re.is_word c0 = false) as Htests.
  { intros c0 post' ->. cbn [ends_candidate] in Hpost.
    apply andb_true_iff in Hpost. destruct Hpost as [Hpost Hdot].
    apply andb_true_iff in Hpost. destruct Hpost as [_ Hword].
    apply negb_true_iff in Hword, Hdot. rewrite Ascii.eqb_sym in Hdot.
    destruct (nondigit_tests c0 (word_digit c0 Hword)) as (Hd & H05 & H04 & H5).
    repeat split; assumption. }
  clear Hpost.
  do 256 (destruct m as [|m];
    [ clear Hm; octet_literal;
      cbv [advance String.append re.step re.taken] in Hk;
      cbv [IP4_RE_group IP4_RE String.append];
      destruct post as [|c0 post];
      [ vm_compute; vm_compute in Hk; rewrite Hk; reflexivity
      | destruct (Htests c0 post eq_refl) as (Hd & H05 & H04 & H5 & Hdot & Hword);
        cbn -[re.is_word Ascii.eqb re.class re.digit];
        rewrite ?Hd, ?H05, ?H04, ?H5, ?Hdot, ?Hword;
        vm_compute; vm_compute in Hk; rewrite Hk; reflexivity ]
    | ]).
  lia.
Qed.

(** The group within an address: the dot is taken, as a digit follows. *)
Lemma group_dot (n : N) (k : re.cursor -> option re.cursor) (c : re.cursor)
    (d : ascii) (rest : string) (found : re.cursor) :
  (n < 256)%N ->
  PyStr.isdigit d = true ->
  re.ahead c = (ipaddress.str_octet n +:+ ".") +:+ String d rest ->
  k (advance (ipaddress.str_octet n +:+ ".") (String d rest) c) = Some found ->
  re.run IP4_RE_group k c = Some found.
Proof.
  intros Hn Hd Hahead Hk. destruct c as [bef tk ah]. cbn [re.ahead] in Hahead.
  subst ah. apply below_256 in Hn. destruct Hn as [m [Hm ->]].
  apply digit_word in Hd.
  do 256 (destruct m as [|m];
    [ clear Hm; octet_literal;
      cbv [advance String.append re.step re.taken] in Hk;
      cbv [IP4_RE_group IP4_RE String.append];
      cbn -[re.is_word Ascii.eqb re.class re.digit];
      rewrite ?Hd;
      vm_compute; vm_compute in Hk; rewrite Hk; reflexivity
    | ]).
  lia.
Qed.

Lemma str_octet_digit (n : N) :
  (n < 256)%N ->
  exists d s, ipaddress.str_octet n = String d s /\ PyStr.isdigit d = true.
Proof.
  intros Hn. apply below_256 in Hn. destruct Hn as [m [Hm ->]].
  do 256 (destruct m as [|m]; [eexists; eexists; split; vm_compute; reflexivity|]).
  lia.
Qed.

Lemma advance_ahead (s tail : string) (c : re.cursor) :
  re.ahead c = s +:+ tail -> re.ahead (advance s tail c) = tail.
Proof.
  revert c. induction s as [|a s IH]; intros c Hahead; [exact Hahead|].
  cbn [advance]. apply IH. reflexivity.
Qed.

Lemma advance_taken (s tail : string) (c : re.cursor) :
  re.taken (advance s tail c) = PyStr.rev_onto s (re.taken c).
Proof.
  revert c. induction s as [|a s IH]; intros c; [reflexivity|].
  cbn [advance PyStr.rev_onto]. rewrite IH. reflexivity.
Qed.

Lemma rev_onto_rev_onto (s acc t : string) :
  PyStr.rev_onto (PyStr.rev_onto s acc) t = PyStr.rev_onto acc (s +:+ t).
Proof.
  revert acc t. induction s as [|a s IH]; intros acc t; [reflexivity|].
  cbn [PyStr.rev_onto]. rewrite IH. reflexivity.
Qed.

Lemma IP4_RE_groups (k : re.cursor -> option re.cursor) (c : re.cursor) :
  re.run IP4_RE k c
  = re.run IP4_RE_group
      (re.run IP4_RE_group (re.run IP4_RE_group (re.run IP4_RE_group k))) c.
Proof. reflexivity. Qed.

Lemma dotted_quad_parts (a b c d : N) (post : string) :
  dotted_quad a b c d +:+ post
  = (ipaddress.str_octet a +:+ ".")
    +:+ (ipaddress.str_octet b +:+ ".")
    +:+ (ipaddress.str_octet c +:+ ".")
    +:+ ipaddress.str_octet d +:+ post.
Proof.
  unfold dotted_quad. cbn [map PyStr.join]. rewrite !append_assoc. reflexivity.
Qed.

(** A run of the pattern over an address takes the address. *)
Lemma run_dotted_quad (a b c d : N) (prev : option ascii) (post : string) :
  (a < 256)%N -> (b < 256)%N -> (c < 256)%N -> (d < 256)%N ->
  ends_candidate post = true ->
  exists found,
    re.run IP4_RE Some
      {| re.before := prev; re.taken := ""; re.ahead := dotted_quad a b c d +:+ post |}
    = Some found
    /\ PyStr.reversed (re.taken found) = dotted_quad a b c d.
Proof.
  intros Ha Hb Hc Hd Hpost.
  destruct (str_octet_digit b Hb) as (db & sb & Hsb & Hdb).
  destruct (str_octet_digit c Hc) as (dc & sc & Hsc & Hdc).
  destruct (str_octet_digit d Hd) as (dd & sd & Hsd & Hdd).
  set (tail3 := ipaddress.str_octet d +:+ post).
  set (tail2 := (ipaddress.str_octet c +:+ ".") +:+ tail3).
  set (tail1 := (ipaddress.str_octet b +:+ ".") +:+ tail2).
  assert (tail3 = String dd (sd +:+ post)) as H3 by (unfold tail3; rewrite Hsd; reflexivity).
  assert (tail2 = String dc ((sc +:+ ".") +:+ tail3)) as H2
    by (unfold tail2; rewrite Hsc; reflexivity).
  assert (tail1 = String db ((sb +:+ ".") +:+ tail2)) as H1
    by (unfold tail1; rewrite Hsb; reflexivity).
  set (c0 := {| re.before := prev; re.taken := "";
                re.ahead := dotted_quad a b c d +:+ post |}).
  set (c1 := advance (ipaddress.str_octet a +:+ ".") tail1 c0).
  set (c2 := advance (ipaddress.str_octet b +:+ ".") tail2 c1).
  set (c3 := advance (ipaddress.str_octet c +:+ ".") tail3 c2).
  set (c4 := advance (ipaddress.str_octet d) post c3).
  assert (re.ahead c0 = (ipaddress.str_octet a +:+ ".") +:+ tail1) as Hc0
    by apply dotted_quad_parts.
  assert (re.ahead c1 = tail1) as Hc1 by (apply advance_ahead; exact Hc0).
  assert (re.ahead c2 = tail2) as Hc2 by (apply advance_ahead; exact Hc1).
  assert (re.ahead c3 = tail3) as Hc3 by (apply advance_ahead; exact Hc2).
  exists c4. split.
  - rewrite IP4_RE_groups.
    apply (group_dot a _ c0 db ((sb +:+ ".") +:+ tail2)); [exact Ha | exact Hdb | |].
    { rewrite <- H1. exact Hc0. }
    rewrite <- H1. fold c1.
    apply (group_dot b _ c1 dc ((sc +:+ ".") +:+ tail3)); [exact Hb | exact Hdc | |].
    { rewrite <- H2. exact Hc1. }
    rewrite <- H2. fold c2.
    apply (group_dot c _ c2 dd (sd +:+ post)); [exact Hc | exact Hdd | |].
    { rewrite <- H3. exact Hc2. }
    rewrite <- H3. fold c3.
    apply (group_last d _ c3 post); [exact Hd | exact Hpost | exact Hc3 |].
    reflexivity.
  - unfold c4, c3, c2, c1, PyStr.reversed. rewrite !advance_taken.
    rewrite !rev_onto_rev_onto. cbn [re.taken c0 PyStr.rev_onto].
    unfold dotted_quad. cbn [map PyStr.join].
    rewrite !append_assoc, ReplaceFacts.append_empty_r. reflexivity.
Qed.

End DottedQuad.

(** *** X28 — the IPv4 pattern finds the addresses.
    A text that begins with an IPv4 address in its usual form (four bytes
    in decimal, dots between them), followed by the end of the text or by
    an ASCII character that is no letter, digit, underscore or dot, has
    that address, whole, as the first candidate of the IPv4 pattern. *)
Theorem finditer_IP4_RE_dotted_quad (a b c d : N) (post : string) :
  (a < 256)%N -> (b < 256)%N -> (c < 256)%N -> (d < 256)%N ->
  ends_candidate post = true ->
  exists others,
    re.finditer IP4_RE (dotted_quad a b c d +:+ post)
    = dotted_quad a b c d :: others.
Proof.
  intros Ha Hb Hc Hd Hpost.
  destruct (DottedQuad.run_dotted_quad a b c d None post Ha Hb Hc Hd Hpost)
    as [found [Hrun Htaken]].
  unfold re.finditer.
  assert (re.match_at IP4_RE None (dotted_quad a b c d +:+ post)
          = Some (dotted_quad a b c d)) as Hmatch.
  { unfold re.match_at. rewrite Hrun, Htaken. reflexivity. }
  destruct (dotted_quad a b c d +:+ post) as [|c0 text];
    cbn [re.scan]; rewrite Hmatch; eexists; reflexivity.
Qed.

(** ** An address at the beginning of the text *)

Module RoundTrip.

Import PatternFacts.

Lemma str_octet_parse (n : N) :
  (n < 256)%N ->
  ipaddress.parse_octet (ipaddress.str_octet n) = Some n
  /\ ipaddress.all_chars PyStr.isdigit (ipaddress.str_octet n) = true.
Proof.
  intros Hn. apply DottedQuad.below_256 in Hn. destruct Hn as [m [Hm ->]].
  do 256 (destruct m as [|m]; [split; vm_compute; reflexivity|]).
  lia.
Qed.

Lemma digits_dotted_decimal (s : string) :
  ipaddress.all_chars PyStr.isdigit s = true ->
  ipaddress.all_chars dotted_decimal s = true /\ lacks "." s = true.
Proof.
  induction s as [|c s IH]; [split; reflexivity|].
  cbn [ipaddress.all_chars lacks]. intros Hs.
  apply andb_true_iff in Hs. destruct Hs as [Hc Hs].
  destruct (IH Hs) as [-> ->]. unfold dotted_decimal. rewrite Hc.
  split; [reflexivity|].
  destruct (Ascii.eqb_spec c ".") as [->|]; [discriminate Hc | reflexivity].
Qed.

Lemma split_part (sep : ascii) (s rest : string) :
  lacks sep s = true ->
  PyStr.split sep ((s +:+ String sep "") +:+ rest) = s :: PyStr.split sep rest.
Proof.
  induction s as [|c s IH]; intros Hs.
  - change (("" +:+ String sep "") +:+ rest) with (String sep rest).
    cbn [PyStr.split]. rewrite Ascii.eqb_refl. reflexivity.
  - cbn [lacks] in Hs. apply andb_true_iff in Hs. destruct Hs as [Hc Hs].
    apply negb_true_iff in Hc.
    rewrite !ReplaceFacts.append_cons. cbn [PyStr.split].
    rewrite Hc, (IH Hs). reflexivity.
Qed.

Lemma contains_lacks (c0 : ascii) (s : string) :
  lacks c0 s = true -> PyStr.contains (String c0 "") s = false.
Proof.
  induction s as [|c s IH]; [reflexivity|].
  cbn [lacks PyStr.contains String.prefix]. intros Hs.
  apply andb_true_iff in Hs. destruct Hs as [Hc Hs].
  apply negb_true_iff in Hc. rewrite (IH Hs), orb_false_r.
  destruct (ascii_dec c0 c) as [->|]; [|reflexivity].
  rewrite Ascii.eqb_refl in Hc. discriminate.
Qed.

(** [ip_address(str(a))] is [a], for IPv4. *)
Lemma ip_address_dotted_quad (a b c d : N) :
  (a < 256)%N -> (b < 256)%N -> (c < 256)%N -> (d < 256)%N ->
  ipaddress.ip_address (dotted_quad a b c d)
  = Some (IPv4Address (ipaddress.v4 a b c d)).
Proof.
  intros Ha Hb Hc Hd.
  destruct (str_octet_parse a Ha) as [Hpa Hda].
  destruct (str_octet_parse b Hb) as [Hpb Hdb].
  destruct (str_octet_parse c Hc) as [Hpc Hdc].
  destruct (str_octet_parse d Hd) as [Hpd Hdd].
  destruct (digits_dotted_decimal _ Hda) as [Hqa Hla].
  destruct (digits_dotted_decimal _ Hdb) as [Hqb Hlb].
  destruct (digits_dotted_decimal _ Hdc) as [Hqc Hlc].
  destruct (digits_dotted_decimal _ Hdd) as [Hqd Hld].
  assert (dotted_quad a b c d
          = (ipaddress.str_octet a +:+ ".")
            +:+ (ipaddress.str_octet b +:+ ".")
            +:+ (ipaddress.str_octet c +:+ ".")
            +:+ ipaddress.str_octet d) as Hquad.
  { rewrite <- (ReplaceFacts.append_empty_r (dotted_quad a b c d)).
    rewrite DottedQuad.dotted_quad_parts, ReplaceFacts.append_empty_r. reflexivity. }
  assert (PyStr.split "." (dotted_quad a b c d)
          = [ipaddress.str_octet a; ipaddress.str_octet b;
             ipaddress.str_octet c; ipaddress.str_octet d]) as Hsplit.
  { rewrite Hquad, !split_part, (split_lacks _ _ Hld) by assumption. reflexivity. }
  assert (ipaddress.all_chars dotted_decimal (dotted_quad a b c d) = true) as Hchars.
  { rewrite Hquad, !all_chars_app, Hqa, Hqb, Hqc, Hqd. reflexivity. }
  unfold ipaddress.ip_address, ipaddress.IPv4Address_of_str.
  rewrite (contains_lacks "/");
    [|apply (all_chars_lacks dotted_decimal); [reflexivity | exact Hchars]].
  unfold ipaddress.ipv4_int_from_string. rewrite Hsplit, Hpa, Hpb, Hpc, Hpd.
  destruct (DottedQuad.str_octet_digit a Ha) as (da & sa & Hsa & _).
  rewrite Hquad, Hsa, !ReplaceFacts.append_cons. reflexivity.
Qed.

End RoundTrip.

(** *** X29 — a page that begins with a globally routable address.
    When the text begins with a globally routable IPv4 address in its
    usual form and the address ends there, the IPv4 loop decides on it:
    it looks the address up, prints the answer, and leaves the host name
    if the address is one of the resolved ones, the address as written if
    it is not.  Nothing after the address matters. *)
Theorem classify_ipv4_dotted_quad (w : world) (dns_results : gset ipaddr)
    (host : string) (a b c d : N) (post : string) :
  (a < 256)%N -> (b < 256)%N -> (c < 256)%N -> (d < 256)%N ->
  ends_candidate post = true ->
  ipaddress.is_global (IPv4Address (ipaddress.v4 a b c d)) = true ->
  classify_ipv4 w dns_results host
    (re.finditer IP4_RE (dotted_quad a b c d +:+ post)) None
  = (info <- get_ipinfo w (dotted_quad a b c d);;
     print (Line (dotted_quad a b c d +:+ " ASN info: " +:+ info));;
     ret (Some (if bool_decide (IPv4Address (ipaddress.v4 a b c d) ∈ dns_results)
                then host else dotted_quad a b c d))).
Proof.
  intros Ha Hb Hc Hd Hpost Hglobal.
  destruct (DottedQuad.run_dotted_quad a b c d None post Ha Hb Hc Hd Hpost)
    as [found [Hrun Htaken]].
  assert (exists others,
             re.finditer IP4_RE (dotted_quad a b c d +:+ post)
             = dotted_quad a b c d :: others) as [others ->].
  { unfold re.finditer.
    assert (re.match_at IP4_RE None (dotted_quad a b c d +:+ post)
            = Some (dotted_quad a b c d)) as Hmatch.
    { unfold re.match_at. rewrite Hrun, Htaken. reflexivity. }
    destruct (dotted_quad a b c d +:+ post) as [|c0 text];
      cbn [re.scan]; rewrite Hmatch; eexists; reflexivity. }
  cbn [classify_ipv4].
  rewrite (RoundTrip.ip_address_dotted_quad a b c d Ha Hb Hc Hd).
  cbn [or_raise]. rewrite bind_ret, Hglobal. reflexivity.
Qed.

(** ** Instances of the further properties *)

(** A negative level with the German entry. *)
Lemma fmt_smokeping_negative_levels_witness :
  fmt_smokeping iso_excerpt "Test" "1.2.3.4" "ACME @ DC1" "de" "" "Berlin" (-1)
  = ([], Raises AssertionError).
Proof.
  apply (fmt_smokeping_negative_levels iso_excerpt
           "Test" "1.2.3.4" "ACME @ DC1" "de" "" "Berlin" (-1)).
  lia.
Defined.

(** The four lines of a German entry. *)
Lemma fmt_smokeping_four_lines_witness :
  exists menu title,
    fmt_smokeping iso_excerpt "Test" "1.2.3.4" "ACME @ DC1" "de" "" "Berlin" 2
    = ([ header_line 2 "Test"; Stdout (Line menu); Stdout (Line title);
         Stdout (Line ("host = " +:+ "1.2.3.4")) ], Returns tt)
    /\ String.prefix "menu = [" menu = true
    /\ String.prefix "title = [" title = true.
Proof.
  apply (fmt_smokeping_four_lines iso_excerpt
           "Test" "1.2.3.4" "ACME @ DC1" "de" "" "Berlin" 2
           {| alpha_2 := "DE"; name := "Germany"; common_name := None;
              official_name := Some "Federal Republic of Germany" |}).
  - lia.
  - vm_compute. reflexivity.
Defined.

(** An entry of Ontario. *)
Lemma fmt_smokeping_us_ca_witness :
  fmt_smokeping iso_excerpt "Test" "1.2.3.4" "ACME @ DC1" "ca" "on" "toronto" 2
  = ([ Stdout (Line "++ Test");
       Stdout (Line "menu = [[CA/ON]] ACME");
       Stdout (Line "title = [[CA/ON]] ACME @ DC1 - Toronto, ON, CA [1.2.3.4]");
       Stdout (Line "host = 1.2.3.4") ],
     Returns tt).
Proof.
  apply (fmt_smokeping_us_ca iso_excerpt
           "Test" "1.2.3.4" "ACME @ DC1" "ca" "on" "toronto" 2
           {| alpha_2 := "CA"; name := "Canada"; common_name := None;
              official_name := None |}).
  - reflexivity.
  - reflexivity.
  - reflexivity.
  - reflexivity.
  - lia.
  - vm_compute. reflexivity.
  - vm_compute. reflexivity.
Defined.

(** Two cities of Hong Kong. *)
Lemma fmt_smokeping_city_irrelevant_witness :
  fmt_smokeping iso_excerpt "Test" "1.2.3.4" "ACME @ DC1" "hk" "" "Kowloon" 2
  = fmt_smokeping iso_excerpt "Test" "1.2.3.4" "ACME @ DC1" "hk" "" "Central" 2.
Proof.
  apply fmt_smokeping_city_irrelevant. vm_compute. reflexivity.
Defined.

(** Lower case and upper case of an entry of Ontario. *)
Lemma fmt_smokeping_case_insensitive_witness :
  fmt_smokeping iso_excerpt "Test" "1.2.3.4" "ACME @ DC1" "ca" "on" "toronto" 2
  = fmt_smokeping iso_excerpt "Test" "1.2.3.4" "ACME @ DC1"
      (PyStr.upper "ca") (PyStr.upper "on") (PyStr.title "toronto") 2.
Proof.
  apply fmt_smokeping_case_insensitive. reflexivity.
Defined.

(** The German entry with and without a [common_name]. *)
Lemma fmt_smokeping_reads_name_only_witness :
  fmt_smokeping iso_excerpt "Test" "1.2.3.4" "ACME @ DC1" "de" "" "Berlin" 2
  = fmt_smokeping iso_excerpt_common_name
      "Test" "1.2.3.4" "ACME @ DC1" "de" "" "Berlin" 2.
Proof.
  apply fmt_smokeping_reads_name_only; [reflexivity | vm_compute; reflexivity].
Defined.

Lemma error_page_resolves (status : Z) :
  resolves (error_page status)
    "example.com" "example.com" "http://example.com"
    (list_to_set [IPv4Address 1572395042]).
Proof.
  apply (Resolves _ _ _ _ _ {| scheme := ""; netloc := "" |}
           ["93.184.216.34"] [IPv4Address 1572395042]); try reflexivity.
  repeat constructor; vm_compute; reflexivity.
Defined.

(** A page that is not found. *)
Lemma scrape_ips_http_error_witness :
  scrape_ips (error_page 404) "example.com" false 65536
  = ([Getaddrinfo "example.com" 80;
      Stdout (AddressSet (list_to_set [IPv4Address 1572395042]));
      HttpGet "http://example.com"],
     Raises (HTTPError 404)).
Proof.
  apply (scrape_ips_http_error (error_page 404)
           "example.com" "example.com" "http://example.com"
           (list_to_set [IPv4Address 1572395042])
           {| status_code := 404; content_length := None;
              iter_content := fun _ => Eof |} 65536).
  - apply error_page_resolves.
  - reflexivity.
  - cbn. lia.
Defined.

(** A name that does not resolve, in either mode. *)
Lemma scrape_ips_lookup_fails_witness :
  scrape_ips unresolvable "example.com" false 65536
  = ([Getaddrinfo "example.com" 80],
     Raises (Library (OtherError "<class 'socket.gaierror'>"
                        "[Errno -2] Name or service not known")))
  /\ scrape_ips unresolvable "example.com" true 65536
     = ([Getaddrinfo "example.com" 80],
        Raises (Library (OtherError "<class 'socket.gaierror'>"
                           "[Errno -2] Name or service not known"))).
Proof.
  split;
    apply (scrape_ips_lookup_fails unresolvable "example.com"
             {| scheme := ""; netloc := "" |}); reflexivity.
Defined.

(** A response of status 200 that declares no byte and has none. *)
Lemma scrape_ips_empty_body_witness :
  scrape_ips (stub_world example_entries (Some "0") Eof) "example.com" false 65536
  = ([Getaddrinfo "example.com" 80;
      Stdout (AddressSet (list_to_set example_addresses));
      HttpGet "http://example.com"; ReadBody],
     Raises (UnboundLocalError "text")).
Proof.
  apply (scrape_ips_empty_body (stub_world example_entries (Some "0") Eof)
           "example.com" "example.com" "http://example.com"
           (list_to_set example_addresses)
           {| status_code := 200; content_length := Some "0";
              iter_content := fun _ => Eof |} 65536).
  - apply stub_responds.
  - split; [reflexivity|]. exists 0. split; [vm_compute; reflexivity | lia].
  - reflexivity.
Defined.


Lemma rejected_10_0_0_1 : Forall rejected ["10.0.0.1"].
Proof.
  repeat constructor. exists (IPv4Address 167772161).
  split; vm_compute; reflexivity.
Defined.

(** 8.8.8.8 after a private address and before another public one, on
    the stub, where no TXT record exists. *)
Lemma classify_ipv4_first_global_witness :
  classify_ipv4 (one_page "") (list_to_set example_addresses) "example.com"
    (["10.0.0.1"] ++ "8.8.8.8" :: ["1.1.1.1"])%list None
  = ([ResolveTXT "8.8.8.8.origin.asn.cymru.com";
      Stdout (Line ("8.8.8.8 ASN info: <class 'dns.resolver.NXDOMAIN'>: "
                    +:+ "The DNS query name does not exist: "
                    +:+ "8.8.8.8.origin.asn.cymru.com."))],
     Returns (Some "8.8.8.8")).
Proof.
  refine (eq_trans
            (classify_ipv4_first_global (one_page "")
               (list_to_set example_addresses) "example.com"
               ["10.0.0.1"] "8.8.8.8" (IPv4Address 134744072) ["1.1.1.1"] None
               rejected_10_0_0_1 _ _) _);
    vm_compute; reflexivity.
Defined.

(** A candidate with a trailing dot. *)
Lemma classify_ipv4_not_an_address_witness :
  classify_ipv4 (one_page "") (list_to_set example_addresses) "example.com"
    (["10.0.0.1"] ++ "1.2.3.4." :: ["8.8.8.8"])%list None
  = raise (ValueError_not_an_address "1.2.3.4.").
Proof.
  apply (classify_ipv4_not_an_address (one_page "") (list_to_set example_addresses) "example.com"
           ["10.0.0.1"] "1.2.3.4." ["8.8.8.8"] None).
  - apply rejected_10_0_0_1.
  - vm_compute. reflexivity.
Defined.

(** A link-local address and a time of day. *)
Lemma classify_ipv6_none_accepted_witness :
  classify_ipv6 (one_page "") (list_to_set example_addresses) "example.com"
    ["fe80::1"; "12:34"] None
  = (skipping ["fe80::1"; "12:34"], Returns (left_over ["fe80::1"; "12:34"] None)).
Proof.
  apply (classify_ipv6_none_accepted (one_page "")
           (list_to_set example_addresses) "example.com"
           ["fe80::1"; "12:34"] None).
  repeat constructor; vm_compute; reflexivity.
Defined.

(** A public address after a time of day, on the stub. *)
Lemma classify_ipv6_first_global_witness :
  let a := IPv6Address 50543257694033307102031451402929180945 None in
  classify_ipv6 (one_page "") (list_to_set example_addresses) "example.com"
    (["12:34"] ++ "2606:4700:4700::1111" :: ["fe80::1"])%list None
  = ([Stdout (SkippingInvalid "12:34" (ValueError_not_an_address "12:34"));
      ResolveTXT (origin_name a);
      Stdout (Line ("2606:4700:4700::1111 ASN info: "
                    +:+ "<class 'dns.resolver.NXDOMAIN'>: "
                    +:+ "The DNS query name does not exist: "
                    +:+ origin_name a +:+ "."))],
     Returns (Some "2606:4700:4700::1111")).
Proof.
  intros a.
  refine (eq_trans
            (classify_ipv6_first_global (one_page "")
               (list_to_set example_addresses) "example.com"
               ["12:34"] "2606:4700:4700::1111" a ["fe80::1"] None
               [ResolveTXT (origin_name a)]
               ("<class 'dns.resolver.NXDOMAIN'>: "
                +:+ "The DNS query name does not exist: "
                +:+ origin_name a +:+ ".")
               _ _ _ _) _).
  - repeat constructor; vm_compute; reflexivity.
  - vm_compute. reflexivity.
  - vm_compute. reflexivity.
  - vm_compute. reflexivity.
  - vm_compute. reflexivity.
Defined.

(** Two chunks with text. *)
Lemma read_chunks_bounded_witness :
  (body_reads (read_chunks 65536 (Chunk "8.8.8.8 " (Chunk "is here" Eof)) 0 None)
   <= Z.to_nat 65536 + 2)%nat.
Proof.
  apply (read_chunks_bounded 65536 (Chunk "8.8.8.8 " (Chunk "is here" Eof))).
  - lia.
  - vm_compute. reflexivity.
Defined.

(** Three chunks of bytes that are no UTF-8, against a budget of one. *)
Lemma read_chunks_without_text_witness :
  read_chunks 1 (stream_of [bytes [255; 254]%N; bytes [255]%N; bytes [192; 193]%N]) 0 None
  = (replicate 4 ReadBody, Returns (Some "")).
Proof.
  apply (read_chunks_without_text 1 [bytes [255; 254]%N; bytes [255]%N; bytes [192; 193]%N]).
  - lia.
  - repeat constructor; vm_compute; reflexivity.
Defined.

(** Every answer on the command line, for a German entry. *)
Lemma main_all_given_witness :
  reads_nothing
    (main (stub_world example_entries None Eof) iso_excerpt
       (given (Some "example.com") None true "de" "Berlin" "Test" "ACME @ DC1")).
Proof.
  apply main_all_given; reflexivity.
Defined.

(** The name that does not resolve, from [main]. *)
Lemma main_scrape_raises_witness :
  main unresolvable iso_excerpt
    (given (Some "example.com") None false "de" "Berlin" "Test" "ACME @ DC1") []
  = (map Ran [Getaddrinfo "example.com" 80],
     Aborted (Raised (Library (OtherError "<class 'socket.gaierror'>"
                                 "[Errno -2] Name or service not known")))).
Proof.
  apply main_scrape_raises; reflexivity.
Defined.

(** An address of three bytes at the prompt. *)
Lemma main_malformed_ipv4_witness :
  main (one_page "") iso_excerpt
    (given None None false "de" "Berlin" "Test" "ACME @ DC1") [" 8.8.8 "; "::1"]
  = ([Input "IPv4 address: "],
     Aborted (AddressValueError_literal (PyStr.strip " 8.8.8 "))).
Proof.
  apply main_malformed_ipv4; vm_compute; reflexivity.
Defined.


(** The candidates of a short text. *)
Lemma finditer_IP4_RE_characters_witness :
  Forall (fun m => ipaddress.all_chars dotted_decimal m = true)
         (re.finditer IP4_RE "from 8.8.8.8 to 1.1.1.1").
Proof.
  apply finditer_IP4_RE_characters. reflexivity.
Defined.

(** The candidate of a short text. *)
Lemma finditer_IP4_RE_family_witness :
  In "8.8.8.8" (re.finditer IP4_RE "see 8.8.8.8")
  /\ ipaddress.ip_address "8.8.8.8" = Some (IPv4Address 134744072)
  /\ ipaddress.is_IPv4Address (IPv4Address 134744072) = true.
Proof.
  assert (In "8.8.8.8" (re.finditer IP4_RE "see 8.8.8.8")) as Hin
    by (vm_compute; left; reflexivity).
  assert (ipaddress.ip_address "8.8.8.8" = Some (IPv4Address 134744072)) as Hparse
    by (vm_compute; reflexivity).
  split; [exact Hin|]. split; [exact Hparse|].
  apply (finditer_IP4_RE_family "see 8.8.8.8" "8.8.8.8" _ Hin Hparse).
Defined.

Lemma finditer_IP6_RE_family_witness :
  In "2606:4700:4700::1111" (re.finditer IP6_RE "see 2606:4700:4700::1111")
  /\ ipaddress.ip_address "2606:4700:4700::1111"
     = Some (IPv6Address 50543257694033307102031451402929180945 None)
  /\ exists ip,
       IPv6Address 50543257694033307102031451402929180945 None
       = IPv6Address ip None.
Proof.
  assert (In "2606:4700:4700::1111"
             (re.finditer IP6_RE "see 2606:4700:4700::1111")) as Hin
    by (vm_compute; left; reflexivity).
  assert (ipaddress.ip_address "2606:4700:4700::1111"
          = Some (IPv6Address 50543257694033307102031451402929180945 None))
    as Hparse by (vm_compute; reflexivity).
  split; [exact Hin|]. split; [exact Hparse|].
  apply (finditer_IP6_RE_family "see 2606:4700:4700::1111"
           "2606:4700:4700::1111" _ Hin Hparse).
Defined.

Lemma one_page_contract (page : string) : resolver_contract (one_page page).
Proof. intros qname. exact I. Defined.

(** A text with one candidate of each kind. *)
Lemma classify_ipv6_returns_witness :
  exists t ipv6',
    classify_ipv6 (one_page "") (list_to_set example_addresses) "example.com"
      (re.finditer IP6_RE "at 12:34 from 2606:4700:4700::1111") None
    = (t, Returns ipv6').
Proof.
  apply (classify_ipv6_returns (one_page "") (one_page_contract "")).
Defined.

Lemma classify_ipv4_returns_or_not_an_address_witness :
  (exists t ipv4',
      classify_ipv4 (one_page "") (list_to_set example_addresses) "example.com"
        (re.finditer IP4_RE "see 1.2.3.4.5") None
      = (t, Returns ipv4'))
  \/ (exists candidate,
         In candidate (re.finditer IP4_RE "see 1.2.3.4.5")
         /\ ipaddress.ip_address candidate = None
         /\ classify_ipv4 (one_page "") (list_to_set example_addresses) "example.com"
              (re.finditer IP4_RE "see 1.2.3.4.5") None
            = raise (ValueError_not_an_address candidate)).
Proof.
  apply (classify_ipv4_returns_or_not_an_address (one_page "") (one_page_contract "")).
  reflexivity.
Defined.

(** 8.8.8.8 at the beginning of a sentence. *)
Lemma finditer_IP4_RE_dotted_quad_witness :
  exists others,
    re.finditer IP4_RE (dotted_quad 8 8 8 8 +:+ " is a resolver")
    = dotted_quad 8 8 8 8 :: others.
Proof.
  apply (finditer_IP4_RE_dotted_quad 8 8 8 8 " is a resolver");
    reflexivity.
Defined.

(** The same text in the IPv4 loop, on the stub. *)
Lemma classify_ipv4_dotted_quad_witness :
  classify_ipv4 (one_page "") (list_to_set example_addresses) "example.com"
    (re.finditer IP4_RE (dotted_quad 8 8 8 8 +:+ " is a resolver")) None
  = ([ResolveTXT "8.8.8.8.origin.asn.cymru.com";
      Stdout (Line ("8.8.8.8 ASN info: <class 'dns.resolver.NXDOMAIN'>: "
                    +:+ "The DNS query name does not exist: "
                    +:+ "8.8.8.8.origin.asn.cymru.com."))],
     Returns (Some "8.8.8.8")).
Proof.
  refine (eq_trans
            (classify_ipv4_dotted_quad (one_page "")
               (list_to_set example_addresses) "example.com" 8 8 8 8
               " is a resolver" _ _ _ _ _ _) _);
    vm_compute; reflexivity.
Defined.

(** ** Runs on the stubs *)

(** A page on which the IPv4 pattern finds [1.2.3.4.], dot included: the
    run ends with the [ValueError] of [ipaddress.ip_address]. *)
Example scrape_ips_trailing_dot :
  re.finditer IP4_RE "see 1.2.3.4.5" = ["1.2.3.4."]
  /\ result (scrape_ips (one_page "see 1.2.3.4.5") "example.com" false 65536)
     = Raises (ValueError_not_an_address "1.2.3.4.").
Proof. split; vm_compute; reflexivity. Qed.

(** [main] at the terminal, for an entry in Ontario: six questions, then
    the block of the IPv4 address. *)
Example main_at_the_terminal :
  main (one_page "") iso_excerpt
    {| args.url := None; args.country := None; args.province := None;
       args.city := None; args.name := None; args.isp := None;
       args.force_dns := false |}
    ["192.0.2.1"; ""; "ca"; "on"; "toronto"; "Test"; "ACME @ DC1"; "left over"]
  = ([ Input "IPv4 address: "; Input "IPv6 address: ";
       Input "country code (XX): "; Input "state/province code (XX): ";
       Input "city name (in full): "; Input "Smokeping entry name: ";
       Input "ISP / hosting provider: ";
       Ran (Stdout (Line (LF +:+ "IPv4:")));
       Ran (Stdout (Line "++ Test"));
       Ran (Stdout (Line "menu = [[CA/ON]] ACME"));
       Ran (Stdout (Line "title = [[CA/ON]] ACME @ DC1 - Toronto, ON, CA [192.0.2.1]"));
       Ran (Stdout (Line "host = 192.0.2.1")) ],
     Finished tt ["left over"]).
Proof. vm_compute. reflexivity. Qed.

(** ** A page that shows its own address *)

Section AddressAtStart.

Variable w : world.
Hypothesis contract : resolver_contract w.

Lemma finditer_IP6_RE_unscoped (text : string) :
  Forall (fun candidate =>
            forall a, ipaddress.ip_address candidate = Some a -> unscoped a)
         (re.finditer IP6_RE text).
Proof.
  apply List.Forall_forall. intros candidate Hin a Hparse.
  pose proof (PatternFacts.finditer_drawn_from colon_hex IP6_RE text
                PatternFacts.IP6_RE_colon_hex) as Hchars.
  rewrite List.Forall_forall in Hchars.
  apply (PatternFacts.ip_address_lacks_percent candidate); [|exact Hparse].
  apply (PatternFacts.all_chars_lacks colon_hex); [reflexivity|].
  apply Hchars. exact Hin.
Qed.

Lemma read_chunks_one (maxsize : Z) (chunk : string) :
  0 <= maxsize ->
  read_chunks maxsize (Chunk chunk Eof) 0 None
  = ([ReadBody; ReadBody], Returns (Some (codecs.decode_ignore chunk))).
Proof.
  intros Hmax. cbn [read_chunks]. rewrite bind_emit_after.
  replace (maxsize <? 0) with false by (symmetry; apply Z.ltb_ge; lia).
  rewrite bind_emit_after, after_after, after_ret. reflexivity.
Qed.

(** *** X30 — a page that begins with its public address.
    In scraping mode, under the contract of the resolver: when the
    response passes the checks of status and size (the header, if there
    is one, is in ASCII and an integer within the budget) and its body
    comes in one chunk whose text begins with a globally routable IPv4
    address, ending there, the run returns; its IPv4 value is the host
    name if the address is one of those the name resolved to, and the
    address as written if it is not. *)
Theorem scrape_ips_address_at_start
    (url host target : string) (dns_results : gset ipaddr) (r : response)
    (maxsize : Z) (chunk : string) (a b c d : N) (post : string) :
  responds w url host target dns_results r ->
  PyStr.truthy host = true ->
  0 <= maxsize ->
  within_budget r maxsize ->
  iter_content r maxsize = Chunk chunk Eof ->
  codecs.decode_ignore chunk = dotted_quad a b c d +:+ post ->
  (a < 256)%N -> (b < 256)%N -> (c < 256)%N -> (d < 256)%N ->
  ends_candidate post = true ->
  ipaddress.is_global (IPv4Address (ipaddress.v4 a b c d)) = true ->
  exists t ipv6,
    scrape_ips w url false maxsize
    = (t, Returns (Some (if bool_decide (IPv4Address (ipaddress.v4 a b c d)
                                           ∈ dns_results)
                         then host else dotted_quad a b c d),
                   ipv6)).
Proof.
  intros Hresp Hhost Hmax Hbudget Hbody Htext Ha Hb Hc Hd Hpost Hglobal.
  rewrite (scrape_ips_scraping _ _ _ _ _ _ _ Hresp).
  rewrite (scan_response_within_budget _ _ _ _ _ Hbudget), Hbody.
  rewrite (read_chunks_one _ _ Hmax), Htext.
  change ([ReadBody; ReadBody], Returns (Some (dotted_quad a b c d +:+ post)))
    with (after [ReadBody; ReadBody] (ret (Some (dotted_quad a b c d +:+ post)))).
  rewrite bind_after, bind_ret. cbn [or_raise]. rewrite bind_ret.
  destruct (DottedQuad.run_dotted_quad a b c d None post Ha Hb Hc Hd Hpost)
    as [found [Hrun Htaken]].
  assert (exists others,
             re.finditer IP4_RE (dotted_quad a b c d +:+ post)
             = dotted_quad a b c d :: others) as [others ->].
  { unfold re.finditer.
    assert (re.match_at IP4_RE None (dotted_quad a b c d +:+ post)
            = Some (dotted_quad a b c d)) as Hmatch.
    { unfold re.match_at. rewrite Hrun, Htaken. reflexivity. }
    destruct (dotted_quad a b c d +:+ post) as [|c0 text];
      cbn [re.scan]; rewrite Hmatch; eexists; reflexivity. }
  pose proof (RoundTrip.ip_address_dotted_quad a b c d Ha Hb Hc Hd) as Hparse.
  cbn [classify_ipv4]. rewrite Hparse. cbn [or_raise].
  rewrite bind_ret, Hglobal. cbn [negb].
  destruct (get_ipinfo_run w contract _ _ Hparse I) as [info ->].
  destruct (classify_ipv6_unscoped w contract dns_results host
              (re.finditer IP6_RE (dotted_quad a b c d +:+ post)) None
              (finditer_IP6_RE_unscoped _)) as (t6 & ipv6 & Hloop).
  set (ipv4 := if bool_decide (IPv4Address (ipaddress.v4 a b c d) ∈ dns_results)
               then host else dotted_quad a b c d).
  assert (PyStr.truthy ipv4 = true) as Hipv4.
  { unfold ipv4. destruct (bool_decide _); [exact Hhost|].
    destruct (DottedQuad.str_octet_digit a Ha) as (da & sa & Hsa & _).
    unfold dotted_quad. cbn [map PyStr.join]. rewrite Hsa. reflexivity. }
  eexists. exists ipv6.
  unfold bind at 2 3. unfold print, emit, ret. cbn [app].
  unfold bind at 1. rewrite Hloop.
  unfold py_assert, truthy at 1. rewrite Hipv4. cbn [orb].
  unfold after, bind, ret, trace, result. cbn [fst snd]. reflexivity.
Qed.

End AddressAtStart.

(** The stub whose page begins with 8.8.8.8. *)
Lemma scrape_ips_address_at_start_witness :
  exists t ipv6,
    scrape_ips (stub_world example_entries None (Chunk "8.8.8.8 is a resolver" Eof))
      "example.com" false 65536
    = (t, Returns (Some "8.8.8.8", ipv6)).
Proof.
  destruct (scrape_ips_address_at_start
              (stub_world example_entries None (Chunk "8.8.8.8 is a resolver" Eof))
              (fun qname => I)
              "example.com" "example.com" "http://example.com"
              (list_to_set example_addresses)
              {| status_code := 200; content_length := None;
                 iter_content := fun _ => Chunk "8.8.8.8 is a resolver" Eof |}
              65536 "8.8.8.8 is a resolver" 8 8 8 8 " is a resolver"
              (stub_responds None (Chunk "8.8.8.8 is a resolver" Eof))
              eq_refl ltac:(lia) ltac:(cbn; lia) eq_refl
              ltac:(vm_compute; reflexivity)
              eq_refl eq_refl eq_refl eq_refl eq_refl
              ltac:(vm_compute; reflexivity))
    as (t & ipv6 & Hrun).
  exists t, ipv6. rewrite Hrun. vm_compute. reflexivity.
Defined.
